(** * notion-course-api: block builders, course compiler and page materializer

    A shallow embedding of [block-builders.ts], of the course routes of
    [server.ts] and of the batching code of [notion-api.ts], with the
    properties of the specification stated over it. *)

From Stdlib Require Import Ascii String.
From Stdlib Require Import List NArith ZArith Bool Lia Arith Sorted.
Import ListNotations.

Set Implicit Arguments.
Set Warnings "-register-all,-abstract-large-number".

(** ** JavaScript strings

    A JavaScript string is a sequence of UTF-16 code units; [length],
    [substring], [slice], [startsWith] and the regular expressions of the
    source all work on code units. *)

Module Js.

Definition char16 := N.
Definition jsstring := list char16.

Local Open Scope N_scope.

(** Source literals are written as UTF-8 text and transcoded to code units. *)
Fixpoint utf16_of_utf8 (bs : list N) : jsstring :=
  match bs with
  | [] => []
  | b0 :: r0 =>
    if b0 <? 0x80 then b0 :: utf16_of_utf8 r0
    else match r0 with
    | [] => [0xFFFD]
    | b1 :: r1 =>
      if b0 <? 0xE0 then ((b0 mod 32) * 64 + b1 mod 64) :: utf16_of_utf8 r1
      else match r1 with
      | [] => [0xFFFD]
      | b2 :: r2 =>
        if b0 <? 0xF0
        then ((b0 mod 16) * 4096 + (b1 mod 64) * 64 + b2 mod 64) :: utf16_of_utf8 r2
        else match r2 with
        | [] => [0xFFFD]
        | b3 :: r3 =>
          let cp := (b0 mod 8) * 262144 + (b1 mod 64) * 4096
                    + (b2 mod 64) * 64 + b3 mod 64 - 0x10000 in
          (0xD800 + cp / 1024) :: (0xDC00 + cp mod 1024) :: utf16_of_utf8 r3
        end
      end
    end
  end.

Definition js (s : string) : jsstring :=
  utf16_of_utf8 (map N_of_ascii (list_ascii_of_string s)).

Definition eqb (a b : jsstring) : bool :=
  if list_eq_dec N.eq_dec a b then true else false.

(** [WhiteSpace] and [LineTerminator] of ECMAScript: what [trim] removes and
    what [\s] matches. *)
Definition isWhiteSpace (c : char16) : bool :=
  (c =? 0x09) || (c =? 0x0A) || (c =? 0x0B) || (c =? 0x0C) || (c =? 0x0D)
  || (c =? 0x20) || (c =? 0xA0) || (c =? 0x1680)
  || ((0x2000 <=? c) && (c <=? 0x200A))
  || (c =? 0x2028) || (c =? 0x2029) || (c =? 0x202F) || (c =? 0x205F)
  || (c =? 0x3000) || (c =? 0xFEFF).

Definition isLineTerminator (c : char16) : bool :=
  (c =? 0x0A) || (c =? 0x0D) || (c =? 0x2028) || (c =? 0x2029).

Definition isDigit (c : char16) : bool := (0x30 <=? c) && (c <=? 0x39).

Fixpoint trimStart (s : jsstring) : jsstring :=
  match s with
  | [] => []
  | c :: s' => if isWhiteSpace c then trimStart s' else s
  end.

Definition trimEnd (s : jsstring) : jsstring := rev (trimStart (rev s)).

Definition trim (s : jsstring) : jsstring := trimEnd (trimStart s).

(** [s.substring(0, n)] *)
Definition substring0 (n : nat) (s : jsstring) : jsstring := firstn n s.

(** [s.slice(a)] and [s.slice(a, b)] for [0 <= a], [0 <= b], on strings
    and on arrays. *)
Definition sliceFrom {A : Type} (a : nat) (s : list A) : list A := skipn a s.
Definition slice {A : Type} (a b : nat) (s : list A) : list A :=
  firstn (b - a) (skipn a s).

Fixpoint startsWith (p s : jsstring) : bool :=
  match p, s with
  | [], _ => true
  | _ :: _, [] => false
  | a :: p', b :: s' => (a =? b) && startsWith p' s'
  end.

Definition endsWith (p s : jsstring) : bool := startsWith (rev p) (rev s).

(** [s.includes(p)] *)
Fixpoint includes (p s : jsstring) : bool :=
  startsWith p s ||
  match s with
  | [] => false
  | _ :: s' => includes p s'
  end.

(** A string is falsy exactly when it is empty. *)
Definition truthy (s : jsstring) : bool :=
  match s with [] => false | _ :: _ => true end.

(** [String(n)] for an integer. *)
Fixpoint digits (fuel : nat) (n : N) (acc : jsstring) : jsstring :=
  match fuel with
  | O => acc
  | S f => let acc' := (0x30 + n mod 10) :: acc in
           if n <? 10 then acc' else digits f (n / 10) acc'
  end.

Definition ofN (n : N) : jsstring := digits (S (N.to_nat (N.log2 n))) n [].

Definition ofZ (z : Z) : jsstring :=
  match z with
  | Z0 => ofN 0
  | Zpos p => ofN (Npos p)
  | Zneg p => 0x2D :: ofN (Npos p)
  end.

End Js.

Import Js.

(** ** Regular expressions

    The patterns of the source are sequences of literals, greedy repetitions
    of a character class and the lazy capturing group [(.+?)].  They are
    matched by backtracking, as ECMAScript specifies. *)

Module Regex.

Local Open Scope N_scope.

(** [Canonicalize] for the [i] flag (without [u]): the simple upper-case
    mapping, given here on ASCII and Latin-1 letters, the only ones that can
    be equal to a letter of the patterns of this program. *)
Definition canonicalize (c : char16) : char16 :=
  if ((0x61 <=? c) && (c <=? 0x7A))
     || ((0xE0 <=? c) && (c <=? 0xFE) && negb (c =? 0xF7))
  then c - 32 else c.

Inductive item : Type :=
| Lit (c : char16)               (* a literal character *)
| LitI (c : char16)              (* a literal character under the [i] flag *)
| Star (cls : char16 -> bool)    (* [\s*]: greedy, zero or more *)
| Plus (cls : char16 -> bool)    (* [\s+], [\d+]: greedy, one or more *)
| Group.                         (* [(.+?)]: lazy, capturing *)

Definition regex := list item.

Definition dot (c : char16) : bool := negb (isLineTerminator c).

Definition result : Type := list jsstring * jsstring.

(** A greedy repetition of a class, followed by [k]: the longest run first,
    then shorter ones. *)
Fixpoint star (cls : char16 -> bool) (k : jsstring -> option result) (s : jsstring)
  : option result :=
  match s with
  | x :: s' =>
    if cls x
    then match star cls k s' with
         | Some r => Some r
         | None => k s
         end
    else k s
  | [] => k s
  end.

(** The lazy group [(.+?)] followed by [k]: the shortest capture first;
    [acc] is the capture so far, reversed. *)
Fixpoint lazy (k : jsstring -> option result) (acc s : jsstring) : option result :=
  match s with
  | x :: s' =>
    if dot x
    then match k s' with
         | Some (caps, rest) => Some (rev (x :: acc) :: caps, rest)
         | None => lazy k (x :: acc) s'
         end
    else None
  | [] => None
  end.

(** [matchHere re s]: match [re] at the start of [s]; the captures and the
    unconsumed suffix. *)
Fixpoint matchHere (re : regex) (s : jsstring) {struct re} : option result :=
  match re with
  | [] => Some ([], s)
  | Lit c :: re' =>
    match s with
    | x :: s' => if x =? c then matchHere re' s' else None
    | [] => None
    end
  | LitI c :: re' =>
    match s with
    | x :: s' => if canonicalize x =? canonicalize c then matchHere re' s' else None
    | [] => None
    end
  | Star cls :: re' => star cls (matchHere re') s
  | Plus cls :: re' =>
    match s with
    | x :: s' => if cls x then star cls (matchHere re') s' else None
    | [] => None
    end
  | Group :: re' => lazy (matchHere re') [] s
  end.

Record Match := mkMatch {
  index : nat;               (* match.index *)
  matched : nat;             (* match[0].length *)
  groups : list jsstring     (* match[1], match[2] *)
}.

(** The loop [while ((match = regex.exec(text)) !== null)] with the [g]
    flag: leftmost match from [lastIndex], which then moves to the end of the
    match.  [skip] counts the characters of the last match still to pass.
    Every pattern of this program consumes at least three characters. *)
Fixpoint execAll (re : regex) (s : jsstring) (pos skip : nat) : list Match :=
  match s with
  | [] => []
  | _ :: s' =>
    match skip with
    | S k => execAll re s' (S pos) k
    | O =>
      match matchHere re s with
      | Some (caps, rest) =>
        let n := (length s - length rest)%nat in
        mkMatch pos n caps :: execAll re s' (S pos) (n - 1)
      | None => execAll re s' (S pos) 0
      end
    end
  end.

(** [s.replace(re, '')] for a pattern anchored with [^] (no [g], no [m]). *)
Definition removeAnchored (re : regex) (s : jsstring) : jsstring :=
  match matchHere re s with
  | Some (_, rest) => rest
  | None => s
  end.

Definition lits (s : string) : regex := map Lit (js s).
Definition litsI (s : string) : regex := map LitI (js s).

End Regex.

(** ** The platform

    [new URL(url)] is a built-in of the runtime: [urlProtocol url] is [None]
    when the constructor throws and the [protocol] of the parsed URL
    otherwise. *)
Class Platform := { urlProtocol : jsstring -> option jsstring }.

(** ** block-builders.ts *)

Module BlockBuilders.

Import Regex.

Module Annotations.
Record t := mk {
  bold : bool;
  italic : bool;
  strikethrough : bool;
  underline : bool;
  code : bool;
  color : jsstring
}.
End Annotations.

(** [RichText]: [{ type: 'text', text: { content, link }, annotations }]. *)
Module RichText.
Record t := mk {
  content : jsstring;
  link : option jsstring;          (* [{ url }] or [null] *)
  annotations : Annotations.t
}.
End RichText.

(** The [options] argument of [richText]; an absent flag reads as [false]. *)
Module Options.
Record t := mk {
  bold : bool;
  italic : bool;
  strikethrough : bool;
  underline : bool;
  code : bool;
  color : option jsstring;
  link : option jsstring
}.
Definition none : t := mk false false false false false None None.
Definition withBold : t := mk true false false false false None None.
Definition withCode : t := mk false false false false true None None.
End Options.

(** [o || d] on an optional string: absent and empty are both falsy. *)
Definition orStr (o : option jsstring) (d : jsstring) : jsstring :=
  match o with
  | Some (c :: s) => c :: s
  | _ => d
  end.

Definition truthyStr (o : option jsstring) : option jsstring :=
  match o with
  | Some (c :: s) => Some (c :: s)
  | _ => None
  end.

Definition richText (content : jsstring) (options : Options.t) : RichText.t :=
  let cleanContent := trim content in
  let truncatedContent :=
    if (2000 <? length cleanContent)%nat
    then substring0 1997 cleanContent ++ js "..."
    else cleanContent in
  if negb (truthy truncatedContent) then
    RichText.mk (js " ") None
      (Annotations.mk false false false false false (js "default"))
  else
    RichText.mk truncatedContent (truthyStr (Options.link options))
      (Annotations.mk (Options.bold options) (Options.italic options)
         (Options.strikethrough options) (Options.underline options)
         (Options.code options) (orStr (Options.color options) (js "default"))).

Definition plain (content : jsstring) : RichText.t := richText content Options.none.

(** *** parseFormattedText *)

Inductive Style := StyleBold | StyleItalic | StyleCode | StyleStrikethrough | StyleLink.

Definition patterns : list (regex * Style) :=
  [ (lits "**" ++ [Group] ++ lits "**", StyleBold);
    (lits "*" ++ [Group] ++ lits "*", StyleItalic);
    (lits "`" ++ [Group] ++ lits "`", StyleCode);
    (lits "~~" ++ [Group] ++ lits "~~", StyleStrikethrough);
    (lits "[" ++ [Group] ++ lits "](" ++ [Group] ++ lits ")", StyleLink) ].

Record Token := mkToken {
  tok_start : nat;
  tok_end : nat;
  tok_text : jsstring;
  tok_style : Options.t;
  tok_link : option jsstring
}.

Definition styleOptions (st : Style) : Options.t :=
  match st with
  | StyleBold => Options.mk true false false false false None None
  | StyleItalic => Options.mk false true false false false None None
  | StyleCode => Options.mk false false false false true None None
  | StyleStrikethrough => Options.mk false false true false false None None
  | StyleLink => Options.none
  end.

Definition tokenOf (st : Style) (m : Match) : Token :=
  match st with
  | StyleLink =>
    mkToken (index m) (index m + matched m) (nth 0 (groups m) [])
            Options.none (nth_error (groups m) 1)
  | _ =>
    mkToken (index m) (index m + matched m) (nth 0 (groups m) [])
            (styleOptions st) None
  end.

(** All candidate tokens, pattern after pattern. *)
Definition findTokens (text : jsstring) : list Token :=
  flat_map (fun p => map (tokenOf (snd p)) (execAll (fst p) text 0 0)) patterns.

(** [tokens.sort((a, b) => a.start - b.start)]: the sort is stable. *)
Fixpoint insertToken (t : Token) (l : list Token) : list Token :=
  match l with
  | [] => [t]
  | u :: l' => if (tok_start t <? tok_start u)%nat then t :: l else u :: insertToken t l'
  end.

Definition sortTokens (l : list Token) : list Token :=
  fold_left (fun acc t => insertToken t acc) l [].

(** [{ ...token.style, link: token.link }] *)
Definition tokenOptions (t : Token) : Options.t :=
  let st := tok_style t in
  Options.mk (Options.bold st) (Options.italic st) (Options.strikethrough st)
             (Options.underline st) (Options.code st) (Options.color st) (tok_link t).

(** One turn of the loop over the sorted tokens; the state is
    [(segments, lastEnd)]. *)
Definition segmentStep (text : jsstring) (st : list RichText.t * nat) (token : Token)
  : list RichText.t * nat :=
  let '(segments, lastEnd) := st in
  if (tok_start token <? lastEnd)%nat then st
  else
    let segments1 :=
      if (lastEnd <? tok_start token)%nat then
        let plainText := slice lastEnd (tok_start token) text in
        if truthy (trim plainText) then segments ++ [plain plainText] else segments
      else segments in
    (segments1 ++ [richText (tok_text token) (tokenOptions token)], tok_end token).

Definition buildSegments (text : jsstring) (tokens : list Token) : list RichText.t :=
  let '(segments, lastEnd) := fold_left (segmentStep text) tokens ([], 0%nat) in
  let segments1 :=
    if (lastEnd <? length text)%nat then
      let remaining := sliceFrom lastEnd text in
      if truthy (trim remaining) then segments ++ [plain remaining] else segments
    else segments in
  match segments1 with
  | [] => [plain text]
  | _ => segments1
  end.

Definition parseFormattedText (text : jsstring) : list RichText.t :=
  let tokens := sortTokens (findTokens text) in
  match tokens with
  | [] => [plain text]
  | _ => buildSegments text tokens
  end.

(** [formattedSegmentsToRichText] *)
Record FormattedTextSegment := mkSegment {
  seg_text : jsstring;
  seg_options : Options.t
}.

Definition formattedSegmentsToRichText (segments : list FormattedTextSegment)
  : list RichText.t :=
  map (fun s => richText (seg_text s) (seg_options s))
      (filter (fun s => truthy (seg_text s) && (0 <? length (trim (seg_text s)))%nat)
              segments).

(** *** Text blocks *)

(** [type TextContent = string | RichText[] | FormattedTextSegment[]] *)
Inductive TextContent :=
| Str (s : jsstring)
| Rich (l : list RichText.t)
| Segments (l : list FormattedTextSegment).

(** [null] is [None]. *)
Definition toRichTextArray (content : TextContent) (parseMarkdown : bool)
  : option (list RichText.t) :=
  match content with
  | Str s =>
    let trimmed := trim s in
    if negb (truthy trimmed) then None
    else Some (if parseMarkdown then parseFormattedText trimmed else [plain trimmed])
  | Rich [] => None
  | Rich l =>
    Some (filter (fun rt => (0 <? length (trim (RichText.content rt)))%nat) l)
  | Segments [] => None
  | Segments l => Some (formattedSegmentsToRichText l)
  end.

(** The blocks of the remote service, one constructor per [type] tag; the
    arguments are the fields of the payload. *)
Inductive Block : Type :=
| Paragraph (rich_text : list RichText.t) (color : jsstring)
            (children : option (list Block))
| Heading1 (rich_text : list RichText.t) (color : jsstring) (is_toggleable : bool)
           (children : option (list Block))
| Heading2 (rich_text : list RichText.t) (color : jsstring) (is_toggleable : bool)
           (children : option (list Block))
| Heading3 (rich_text : list RichText.t) (color : jsstring) (is_toggleable : bool)
           (children : option (list Block))
| Callout (rich_text : list RichText.t) (icon : jsstring) (color : jsstring)
          (children : option (list Block))
| Quote (rich_text : list RichText.t) (color : jsstring)
        (children : option (list Block))
| Code (rich_text : list RichText.t) (language : jsstring)
       (caption : list RichText.t)
| Equation (expression : jsstring)
| BulletedListItem (rich_text : list RichText.t) (color : jsstring)
                   (children : option (list Block))
| NumberedListItem (rich_text : list RichText.t) (color : jsstring)
                   (children : option (list Block))
| ToDo (rich_text : list RichText.t) (checked : bool) (color : jsstring)
       (children : option (list Block))
| Toggle (rich_text : list RichText.t) (color : jsstring) (children : list Block)
| Image (url : jsstring) (caption : list RichText.t)
| Video (url : jsstring) (caption : list RichText.t)
| Audio (url : jsstring) (caption : list RichText.t)
| Pdf (url : jsstring) (caption : list RichText.t)
| File (url : jsstring) (name : jsstring) (caption : list RichText.t)
| Embed (url : jsstring)
| Bookmark (url : jsstring) (caption : list RichText.t)
| Divider
| TableOfContents (color : jsstring)
| Breadcrumb
| ColumnList (children : list Block)
| Column (children : list Block)
| Table (table_width : nat) (has_column_header has_row_header : bool)
        (children : list Block)
| TableRow (cells : list (list RichText.t)).

(** The [options] argument of the text builders; [None] is an absent field. *)
Module Opts.
Record t := mk {
  icon : option jsstring;
  color : option jsstring;
  toggleable : bool;
  children : option (list Block);
  parseMarkdown : option bool
}.
Definition none : t := mk None None false None None.
Definition ofColor (c : string) : t := mk None (Some (js c)) false None None.
End Opts.

(** [options?.parseMarkdown !== false] *)
Definition markdownOn (o : Opts.t) : bool :=
  match Opts.parseMarkdown o with
  | Some false => false
  | _ => true
  end.

Definition colorOf (o : Opts.t) : jsstring := orStr (Opts.color o) (js "default").

(** [toRichTextArray(...) || [richText('')]] *)
Definition richOrBlank (content : TextContent) (o : Opts.t) : list RichText.t :=
  match toRichTextArray content (markdownOn o) with
  | Some l => l
  | None => [plain []]
  end.

Definition paragraph (content : TextContent) (o : Opts.t) : option Block :=
  match toRichTextArray content (markdownOn o) with
  | None => None
  | Some [] => None
  | Some richTextContent => Some (Paragraph richTextContent (colorOf o) (Opts.children o))
  end.

Definition headingChildren (o : Opts.t) : option (list Block) :=
  if Opts.toggleable o then Opts.children o else None.

Definition heading1 (content : TextContent) (o : Opts.t) : Block :=
  Heading1 (richOrBlank content o) (colorOf o) (Opts.toggleable o) (headingChildren o).

Definition heading2 (content : TextContent) (o : Opts.t) : Block :=
  Heading2 (richOrBlank content o) (colorOf o) (Opts.toggleable o) (headingChildren o).

Definition heading3 (content : TextContent) (o : Opts.t) : Block :=
  Heading3 (richOrBlank content o) (colorOf o) (Opts.toggleable o) (headingChildren o).

Definition callout (content : TextContent) (o : Opts.t) : Block :=
  Callout (richOrBlank content o) (orStr (Opts.icon o) (js "💡")) (colorOf o)
          (Opts.children o).

Definition quote (content : TextContent) (o : Opts.t) : Block :=
  Quote (richOrBlank content o) (colorOf o) (Opts.children o).

(** *** Code and equations *)

Definition captionOf (caption : option jsstring) : list RichText.t :=
  match truthyStr caption with
  | Some c => [plain c]
  | None => []
  end.

Definition maxCodeLength : nat := 50000.

Definition code (content : jsstring) (language : jsstring) (caption : option jsstring)
  : Block :=
  let codeContent := trim content in
  let codeContent :=
    if (maxCodeLength <? length codeContent)%nat
    then substring0 (maxCodeLength - 100) codeContent
         ++ [10; 10]%N ++ js "// ... Code tronqué"
    else codeContent in
  Code [plain codeContent] language (captionOf caption).

Definition equation (expression : jsstring) : Block := Equation expression.

(** *** Lists *)

Definition bulletedListItem (content : TextContent) (o : Opts.t) : Block :=
  BulletedListItem (richOrBlank content o) (colorOf o) (Opts.children o).

Definition numberedListItem (content : TextContent) (o : Opts.t) : Block :=
  NumberedListItem (richOrBlank content o) (colorOf o) (Opts.children o).

Definition todo (content : TextContent) (checked : bool) (o : Opts.t) : Block :=
  ToDo (richOrBlank content o) checked (colorOf o) (Opts.children o).

Definition toggle (content : TextContent) (children : list Block) (o : Opts.t) : Block :=
  Toggle (richOrBlank content o) (colorOf o) children.

(** *** Validation helpers *)

Section Media.
Context {platform : Platform}.

Definition isValidUrl (url : jsstring) : bool :=
  match urlProtocol url with
  | Some protocol => existsb (Js.eqb protocol) [js "http:"; js "https:"]
  | None => false
  end.

(** *** Media, with URL validation *)

Definition image (url : jsstring) (caption : option jsstring) : option Block :=
  if negb (isValidUrl url)
  then paragraph (Str (js "[Image invalide: " ++ url ++ js "]")) Opts.none
  else Some (Image url (captionOf caption)).

Definition video (url : jsstring) (caption : option jsstring) : option Block :=
  if negb (isValidUrl url)
  then paragraph (Str (js "[Vidéo invalide: " ++ url ++ js "]")) Opts.none
  else Some (Video url (captionOf caption)).

Definition audio (url : jsstring) (caption : option jsstring) : option Block :=
  if negb (isValidUrl url)
  then paragraph (Str (js "[Audio invalide: " ++ url ++ js "]")) Opts.none
  else Some (Audio url (captionOf caption)).

Definition pdf (url : jsstring) (caption : option jsstring) : option Block :=
  if negb (isValidUrl url)
  then paragraph (Str (js "[PDF invalide: " ++ url ++ js "]")) Opts.none
  else Some (Pdf url (captionOf caption)).

Definition file (url : jsstring) (name caption : option jsstring) : option Block :=
  if negb (isValidUrl url)
  then paragraph (Str (js "[Fichier invalide: " ++ url ++ js "]")) Opts.none
  else Some (File url (orStr name (js "file")) (captionOf caption)).

Definition embed (url : jsstring) : option Block :=
  if negb (isValidUrl url)
  then paragraph (Str (js "[Embed invalide: " ++ url ++ js "]")) Opts.none
  else Some (Embed url).

Definition bookmark (url : jsstring) (caption : option jsstring) : option Block :=
  if negb (isValidUrl url)
  then paragraph (Str (js "[Bookmark invalide: " ++ url ++ js "]")) Opts.none
  else Some (Bookmark url (captionOf caption)).

Definition linkPreview (url : jsstring) : option Block := bookmark url None.

End Media.

(** *** Layout *)

Definition divider : Block := Divider.

Definition tableOfContents (color : option jsstring) : Block :=
  TableOfContents (orStr color (js "default")).

Definition breadcrumb : Block := Breadcrumb.

(** [columnList], called with an array of arrays of blocks. *)
Definition columnList (columns : list (list Block)) : Block :=
  ColumnList (map Column columns).

(** A table cell is a string or an array of runs. *)
Inductive Cell := CellStr (s : jsstring) | CellRich (l : list RichText.t).

Definition table (rows : list (list Cell)) (hasColumnHeader hasRowHeader : option bool)
  : Block :=
  let tableRows :=
    map (fun row =>
           TableRow (map (fun cell => match cell with
                                      | CellStr s => [plain s]
                                      | CellRich l => l
                                      end) row)) rows in
  Table (match rows with row0 :: _ => length row0 | [] => 0%nat end)
        (match hasColumnHeader with Some b => b | None => true end)
        (match hasRowHeader with Some b => b | None => false end)
        tableRows.

(** *** Course templates *)

Definition TEMPLATE_EMOJIS : list jsstring :=
  [ js "ℹ️"; js "⚠️"; js "💡"; js "🚨"; js "📖"; js "✏️"; js "🧠"; js "📝"; js "🎯"; js "📋"; js "⏱️" ].

Definition cleanLeadingEmoji (text : jsstring) : jsstring :=
  fold_left (fun cleaned emoji =>
               if startsWith emoji cleaned
               then trim (sliceFrom (length emoji) cleaned)
               else cleaned)
            TEMPLATE_EMOJIS (trim text).

Definition filterValidBlocks (blocks : list (option Block)) : list Block :=
  flat_map (fun b => match b with Some x => [x] | None => [] end) blocks.

Inductive NoteType := info | warning | tip | danger.

Definition noteConfig (type : NoteType) : Opts.t :=
  match type with
  | info => Opts.mk (Some (js "ℹ️")) (Some (js "blue_background")) false None None
  | warning => Opts.mk (Some (js "⚠️")) (Some (js "yellow_background")) false None None
  | tip => Opts.mk (Some (js "💡")) (Some (js "green_background")) false None None
  | danger => Opts.mk (Some (js "🚨")) (Some (js "red_background")) false None None
  end.

Definition noteImportante (content : jsstring) (type : NoteType) : Block :=
  let cleanContent := cleanLeadingEmoji content in
  callout (Str cleanContent) (noteConfig type).

Definition definition (term def : jsstring) (color : option jsstring) : Block :=
  let cleanDef := cleanLeadingEmoji def in
  callout (Rich [richText term Options.withBold; plain (js ": "); plain cleanDef])
          (Opts.mk (Some (js "📖")) (Some (orStr color (js "purple_background")))
                   false None None).

Definition emojiNumbers : list jsstring :=
  [ js "1️⃣"; js "2️⃣"; js "3️⃣"; js "4️⃣"; js "5️⃣"; js "6️⃣"; js "7️⃣"; js "8️⃣"; js "9️⃣"; js "🔟" ].

Definition whitespace : item := Star isWhiteSpace.

(** [/^Étape\s+\d+\s*:\s*/i] *)
Definition stepPrefix : regex :=
  litsI "Étape" ++ [Plus isWhiteSpace; Plus isDigit; whitespace; Lit 58%N; whitespace].

Definition step (number : Z) (title : jsstring) (description : option jsstring)
           (children : option (list (option Block))) : Block :=
  let emoji :=
    if (number <=? 10)%Z
    then (if (number <? 1)%Z then None
          else nth_error emojiNumbers (Z.to_nat (number - 1)))
    else Some (js "⏺️") in
  let cleanTitle := trim (removeAnchored stepPrefix title) in
  let content :=
    [richText (js "Étape " ++ ofZ number ++ js ": ") Options.withBold; plain cleanTitle] in
  let fromDescription :=
    match truthyStr description with
    | Some d => match paragraph (Str d) Opts.none with
                | Some descBlock => [descBlock]
                | None => []
                end
    | None => []
    end in
  let blockChildren :=
    fromDescription ++
    match children with
    | Some l => filterValidBlocks l
    | None => []
    end in
  callout (Rich content)
          (Opts.mk emoji (Some (js "gray_background")) false
                   (match blockChildren with [] => None | _ => Some blockChildren end)
                   None).

(** [/^Exercice\s*:\s*/i] *)
Definition exercicePrefix : regex :=
  litsI "Exercice" ++ [whitespace; Lit 58%N; whitespace].

Definition cleanStrings (l : list jsstring) : list jsstring :=
  filter (fun i => (0 <? length i)%nat) (map trim l).

Definition exercice (title : jsstring) (instructions : list jsstring)
           (solution : option jsstring) : Block :=
  let cleanTitle := cleanLeadingEmoji title in
  let cleanTitle := trim (removeAnchored exercicePrefix cleanTitle) in
  let cleanInstructions := cleanStrings instructions in
  let children := map (fun i => bulletedListItem (Str i) Opts.none) cleanInstructions in
  let children :=
    match truthyStr solution with
    | Some sol =>
      children ++
      [toggle (Str (js "💡 Voir la solution")) [code (trim sol) (js "plain text") None]
              (Opts.ofColor "green_background")]
    | None => children
    end in
  callout (Rich [richText (js "Exercice: ") Options.withBold; plain cleanTitle])
          (Opts.mk (Some (js "✏️")) (Some (js "orange_background")) false
                   (Some children) None).

Definition chapterSummary (points : list jsstring) : Block :=
  let cleanPoints := cleanStrings points in
  callout (Str (js "Points clés à retenir"))
          (Opts.mk (Some (js "📝")) (Some (js "blue_background")) false
                   (Some (map (fun p => bulletedListItem (Str p) (Opts.ofColor "blue"))
                              cleanPoints))
                   None).

Definition learningObjectives (objectives : list jsstring) : Block :=
  let cleanObjectives := cleanStrings objectives in
  callout (Str (js "À la fin de cette section, vous serez capable de :"))
          (Opts.mk (Some (js "🎯")) (Some (js "green_background")) false
                   (Some (map (fun o => todo (Str o) false Opts.none) cleanObjectives))
                   None).

Definition prerequisites (items : list jsstring) : Block :=
  let cleanItems := cleanStrings items in
  callout (Str (js "Prérequis"))
          (Opts.mk (Some (js "📋")) (Some (js "gray_background")) false
                   (Some (map (fun i => bulletedListItem (Str i) Opts.none) cleanItems))
                   None).

Definition estimatedTime (minutes : Z) : Block :=
  callout (Str (js "Temps estimé : " ++ ofZ minutes ++ js " minutes"))
          (Opts.mk (Some (js "⏱️")) (Some (js "purple_background")) false None None).

Definition comparison (leftTitle : jsstring) (leftContent : list Block)
           (rightTitle : jsstring) (rightContent : list Block) : Block :=
  columnList
    [ heading3 (Str leftTitle) (Opts.ofColor "green") :: leftContent;
      heading3 (Str rightTitle) (Opts.ofColor "red") :: rightContent ].

Definition codeWithExplanation (codeContent language : jsstring)
           (explanations : list (jsstring * jsstring)) : list Block :=
  [ code codeContent language None;
    callout (Str (js "Explication ligne par ligne :"))
            (Opts.mk (Some (js "📖")) (Some (js "gray_background")) false
               (Some (map (fun e =>
                             bulletedListItem
                               (Rich [richText (fst e) Options.withCode;
                                      plain (js " → ");
                                      plain (snd e)])
                               Opts.none)
                          explanations))
               None) ].

(** [/^Quiz\s*:\s*/i] *)
Definition quizPrefix : regex :=
  litsI "Quiz" ++ [whitespace; Lit 58%N; whitespace].

(** [String.fromCharCode(65 + i)] *)
Definition letter (i : nat) : jsstring := [(N.of_nat (65 + i) mod 65536)%N].

Fixpoint mapi {A B : Type} (f : A -> nat -> B) (l : list A) (i : nat) : list B :=
  match l with
  | [] => []
  | x :: l' => f x i :: mapi f l' (S i)
  end.

(** [correctIndex] is an integer here; the runtime type [number] also has
    fractions and [NaN], which a JSON integer never is. *)
Definition quickQuiz (question : jsstring) (options : list jsstring) (correctIndex : Z)
  : option Block :=
  if (length options <? 2)%nat then
    paragraph (Str (js "Quiz invalide : options manquantes")) Opts.none
  else
    let correctIndex :=
      if ((correctIndex <? 0) || (Z.of_nat (length options) <=? correctIndex))%Z
      then 0%Z else correctIndex in
    let cleanQuestion := cleanLeadingEmoji question in
    let cleanQuestion := trim (removeAnchored quizPrefix cleanQuestion) in
    let cleanOptions := map trim options in
    let answer := Z.to_nat correctIndex in
    Some (callout (Rich [richText (js "Quiz: ") Options.withBold; plain cleanQuestion])
            (Opts.mk (Some (js "🧠")) (Some (js "purple_background")) false
               (Some (mapi (fun opt i =>
                              bulletedListItem (Str (letter i ++ js ") " ++ opt)) Opts.none)
                           cleanOptions 0
                      ++ [toggle (Str (js "Voir la réponse"))
                            [callout (Str (js "La bonne réponse est " ++ letter answer
                                           ++ js ") " ++ nth answer cleanOptions []))
                                     (Opts.mk (Some (js "✅"))
                                              (Some (js "green_background"))
                                              false None None)]
                            Opts.none]))
               None)).

End BlockBuilders.

(** ** server.ts: the course compiler *)

Module Server.

Import BlockBuilders.

(** [{ title: string; items: string[] }] *)
Record Side := mkSide { side_title : jsstring; side_items : list jsstring }.

(** [interface CourseContent]; an optional field that is absent is [None]. *)
Inductive CourseContent : Type := mkCourseContent {
  type : jsstring;
  text : option jsstring;
  items : option (list jsstring);
  code : option jsstring;
  language : option jsstring;
  caption : option jsstring;
  url : option jsstring;
  icon : option jsstring;
  color : option jsstring;
  checked : option bool;
  question : option jsstring;
  options : option (list jsstring);
  correctIndex : option Z;
  term : option jsstring;
  definition : option jsstring;
  stepNumber : option Z;
  instructions : option (list jsstring);
  solution : option jsstring;
  minutes : option Z;
  objectives : option (list jsstring);
  left : option Side;
  right : option Side;
  explanations : option (list (jsstring * jsstring));
  headers : option (list jsstring);
  rows : option (list (list jsstring));
  toggleable : option bool;
  children : option (list CourseContent)
}.

(** An item with only its [type] and [text], the other fields absent. *)
Definition item (type : string) (text : option string) : CourseContent :=
  mkCourseContent (js type) (option_map js text) None None None None None None None
    None None None None None None None None None None None None None None None None
    None None.

(** [any | any[] | null] *)
Inductive BuildResult :=
| Null
| One (block : Block)
| Many (blocks : list Block).

Definition ofOption (b : option Block) : BuildResult :=
  match b with
  | Some x => One x
  | None => Null
  end.

(** The branches of the [switch] of [buildCourseBlock]. *)
Inductive Case :=
| CParagraph | CHeading1 | CHeading2 | CHeading3 | CQuote | CCallout
| CInfo | CWarning | CTip | CDanger
| CCode | CEquation | CCodeWithExplanation
| CBullet | CBullets | CNumbered | CNumberedList | CTodo | CTodoList | CToggle
| CImage | CVideo | CAudio | CPdf | CEmbed | CBookmark
| CDivider | CTableOfContents | CBreadcrumb | CTable | CComparison
| CDefinition | CStep | CExercice | CQuiz | CSummary | CObjectives
| CPrerequisites | CEstimatedTime.

(** The [case] labels, in the order of the source. *)
Definition caseLabels : list (string * Case) :=
  [ ("paragraph", CParagraph); ("heading1", CHeading1); ("heading2", CHeading2);
    ("heading3", CHeading3); ("quote", CQuote); ("callout", CCallout);
    ("info", CInfo); ("warning", CWarning); ("tip", CTip); ("danger", CDanger);
    ("code", CCode); ("equation", CEquation);
    ("codeWithExplanation", CCodeWithExplanation);
    ("bullet", CBullet); ("bulletedListItem", CBullet); ("bullets", CBullets);
    ("numbered", CNumbered); ("numberedListItem", CNumbered);
    ("numberedList", CNumberedList); ("todo", CTodo); ("todoList", CTodoList);
    ("toggle", CToggle);
    ("image", CImage); ("video", CVideo); ("audio", CAudio); ("pdf", CPdf);
    ("embed", CEmbed); ("bookmark", CBookmark); ("linkPreview", CBookmark);
    ("divider", CDivider); ("tableOfContents", CTableOfContents);
    ("breadcrumb", CBreadcrumb); ("table", CTable);
    ("columns", CComparison); ("comparison", CComparison);
    ("definition", CDefinition); ("step", CStep);
    ("exercice", CExercice); ("exercise", CExercice);
    ("quiz", CQuiz); ("quickQuiz", CQuiz);
    ("summary", CSummary); ("chapterSummary", CSummary);
    ("objectives", CObjectives); ("learningObjectives", CObjectives);
    ("prerequisites", CPrerequisites); ("estimatedTime", CEstimatedTime) ]%string.

(** [switch (item.type)]: the first label strictly equal to the tag. *)
Fixpoint lookupCase (labels : list (string * Case)) (tag : jsstring) : option Case :=
  match labels with
  | [] => None
  | (l, c) :: rest => if Js.eqb tag (js l) then Some c else lookupCase rest tag
  end.

Definition caseOf (tag : jsstring) : option Case := lookupCase caseLabels tag.

Definition orList {A : Type} (o : option (list A)) : list A :=
  match o with Some l => l | None => [] end.

Definition orZ (o : option Z) (d : Z) : Z :=
  match o with
  | Some 0%Z | None => d
  | Some z => z
  end.

Definition orFalse (o : option bool) : bool :=
  match o with Some b => b | None => false end.

(** [a || b] on two optional strings. *)
Definition orElse (a b : option jsstring) : option jsstring :=
  match truthyStr a with
  | Some s => Some s
  | None => b
  end.

Definition bullets (l : list jsstring) : list Block :=
  map (fun i => bulletedListItem (Str i) Opts.none) l.

Definition firstList {A : Type} (a b : option (list A)) : list A :=
  match a with
  | Some l => l
  | None => orList b
  end.

Section Compiler.
Context {platform : Platform}.

(** [result ? (Array.isArray(result) ? result : [result]) : []] *)
Definition toArray (result : BuildResult) : list Block :=
  match result with
  | Null => []
  | One b => [b]
  | Many bs => bs
  end.

Fixpoint buildCourseBlock (item : CourseContent) : BuildResult :=
  let text' := orStr (text item) [] in
  let opts := Opts.mk None (color item) (orFalse (toggleable item)) None None in
  let lang := orStr (language item) (js "javascript") in
  match caseOf (type item) with
  | Some CParagraph => ofOption (paragraph (Str text') Opts.none)
  | Some CHeading1 => One (heading1 (Str text') opts)
  | Some CHeading2 => One (heading2 (Str text') opts)
  | Some CHeading3 => One (heading3 (Str text') opts)
  | Some CQuote => One (quote (Str text') (Opts.mk None (color item) false None None))
  | Some CCallout =>
    One (callout (Str text') (Opts.mk (icon item) (color item) false None None))
  | Some CInfo => One (noteImportante text' info)
  | Some CWarning => One (noteImportante text' warning)
  | Some CTip => One (noteImportante text' tip)
  | Some CDanger => One (noteImportante text' danger)
  | Some CCode =>
    One (BlockBuilders.code (orStr (orElse (code item) (text item)) []) lang (caption item))
  | Some CEquation => One (equation text')
  | Some CCodeWithExplanation =>
    Many (codeWithExplanation (orStr (code item) []) lang (orList (explanations item)))
  | Some CBullet => One (bulletedListItem (Str text') Opts.none)
  | Some CBullets => Many (bullets (orList (items item)))
  | Some CNumbered => One (numberedListItem (Str text') Opts.none)
  | Some CNumberedList =>
    Many (map (fun i => numberedListItem (Str i) Opts.none) (orList (items item)))
  | Some CTodo => One (todo (Str text') (orFalse (checked item)) Opts.none)
  | Some CTodoList =>
    Many (map (fun i => todo (Str i) false Opts.none) (orList (items item)))
  | Some CToggle =>
    let toggleChildren :=
      match children item with
      | Some l => flat_map (fun c => toArray (buildCourseBlock c)) l
      | None => []
      end in
    One (toggle (Str text') (filterValidBlocks (map Some toggleChildren))
                (Opts.mk None (color item) false None None))
  | Some CImage => ofOption (image (orStr (url item) []) (caption item))
  | Some CVideo => ofOption (video (orStr (url item) []) (caption item))
  | Some CAudio => ofOption (audio (orStr (url item) []) (caption item))
  | Some CPdf => ofOption (pdf (orStr (url item) []) (caption item))
  | Some CEmbed => ofOption (embed (orStr (url item) []))
  | Some CBookmark => ofOption (bookmark (orStr (url item) []) (caption item))
  | Some CDivider => One divider
  | Some CTableOfContents => One (tableOfContents (color item))
  | Some CBreadcrumb => One breadcrumb
  | Some CTable =>
    One (table (map (map CellStr) (orList (rows item))) (Some true) None)
  | Some CComparison =>
    match left item, right item with
    | Some l, Some r =>
      One (comparison (side_title l) (bullets (side_items l))
                      (side_title r) (bullets (side_items r)))
    | _, _ => One divider
    end
  | Some CDefinition =>
    One (BlockBuilders.definition (orStr (term item) [])
           (orStr (orElse (definition item) (text item)) []) None)
  | Some CStep => One (step (orZ (stepNumber item) 1) text' (caption item) None)
  | Some CExercice =>
    One (exercice (orStr (text item) (js "Exercice"))
                  (firstList (instructions item) (items item)) (solution item))
  | Some CQuiz =>
    ofOption (quickQuiz (orStr (orElse (question item) (text item)) [])
                        (orList (options item)) (orZ (correctIndex item) 0))
  | Some CSummary => One (chapterSummary (orList (items item)))
  | Some CObjectives =>
    One (learningObjectives (firstList (objectives item) (items item)))
  | Some CPrerequisites => One (prerequisites (orList (items item)))
  | Some CEstimatedTime => One (estimatedTime (orZ (minutes item) 30))
  | None =>
    ofOption (paragraph (Str (orStr (text item)
                                (js "[Type non reconnu: " ++ type item ++ js "]")))
                        Opts.none)
  end.

End Compiler.

(** *** The create-course route: the parent of the new page *)

Inductive Parent :=
| database_id (id : jsstring)
| page_id (id : jsstring).

(** [{ title: [{ text: { content: title } }] }] *)
Inductive Property := TitleProperty (content : jsstring).

(** A JavaScript object used as a record of properties: keys in insertion
    order. *)
Definition Properties := list (jsstring * Property).

Fixpoint get (k : jsstring) (o : Properties) : option Property :=
  match o with
  | [] => None
  | (k', v) :: o' => if Js.eqb k k' then Some v else get k o'
  end.

Fixpoint delete (k : jsstring) (o : Properties) : Properties :=
  match o with
  | [] => []
  | (k', v) :: o' => if Js.eqb k k' then delete k o' else (k', v) :: delete k o'
  end.

Fixpoint set (k : jsstring) (v : Property) (o : Properties) : Properties :=
  match o with
  | [] => [(k, v)]
  | (k', v') :: o' => if Js.eqb k k' then (k, v) :: o' else (k', v') :: set k v o'
  end.

Definition courseParent (parentId : jsstring) : Parent :=
  if (length parentId =? 32)%nat && negb (includes (js "-") parentId)
  then database_id parentId
  else page_id parentId.

Definition courseProperties (parentId title : jsstring) : Properties :=
  let properties := [(js "title", TitleProperty title)] in
  match courseParent parentId with
  | database_id _ =>
    match get (js "title") properties with
    | Some v => delete (js "title") (set (js "Name") v properties)
    | None => properties
    end
  | page_id _ => properties
  end.

End Server.

(** ** Exceptions

    A call returns a value or throws; [OutOfFuel] is a loop that did not
    finish within the steps it was given. *)

Inductive Outcome (A : Type) : Type :=
| Returned (a : A)
| Thrown (message : jsstring)
| OutOfFuel.

Arguments Returned {A} a.
Arguments Thrown {A} message.
Arguments OutOfFuel {A}.

Definition returns {A : Type} (o : Outcome A) : Prop := exists a, o = Returned a.

(** ** block-builders.ts: validation of a course *)

Module Validation.

Import BlockBuilders.

(** The argument is typed [any].  A value is [null] or [undefined], on
    which reading a property throws a [TypeError]; or a primitive, on which
    every property read here is [undefined]; or an object with the fields
    of the interfaces of server.ts, each possibly absent. *)
Inductive Any (T : Type) : Type :=
| Nullish
| Primitive
| Object (o : T).

Arguments Nullish {T}.
Arguments Primitive {T}.
Arguments Object {T} o.

Record Item := mkItem {
  type : option jsstring;
  options : option (list jsstring);
  correctIndex : option Z;
  url : option jsstring;
  text : option jsstring
}.

Record Section_ := mkSection {
  section_title : option jsstring;
  content : option (list (Any Item))
}.

Record Course := mkCourse {
  title : option jsstring;
  sections : option (list (Any Section_))
}.

Definition typeError : jsstring := js "TypeError: Cannot read properties of null".

(** Reading the properties of a value: [null] and [undefined] throw, a
    primitive has none of the fields. *)
Definition deref {T : Type} (value : Any T) (empty : T) : Outcome T :=
  match value with
  | Nullish => Thrown typeError
  | Primitive => Returned empty
  | Object o => Returned o
  end.

Definition bind {A B : Type} (m : Outcome A) (f : A -> Outcome B) : Outcome B :=
  match m with
  | Returned a => f a
  | Thrown e => Thrown e
  | OutOfFuel => OutOfFuel
  end.

Local Notation "x <- m ;; k" := (bind m (fun x => k))
  (at level 100, m at next level, right associativity).

(** [array.forEach((x, idx) => ...)] over a state [S]; a throw ends the loop. *)
Fixpoint forEach {A St : Type} (f : St -> A -> nat -> Outcome St) (l : list A)
         (idx : nat) (st : St) : Outcome St :=
  match l with
  | [] => Returned st
  | x :: l' => st' <- f st x idx ;; forEach f l' (S idx) st'
  end.

(** [array?.forEach(...)] *)
Definition forEachOpt {A St : Type} (f : St -> A -> nat -> Outcome St)
           (l : option (list A)) (st : St) : Outcome St :=
  match l with
  | Some l => forEach f l 0 st
  | None => Returned st
  end.

Record Result := mkResult {
  valid : bool;
  errors : list jsstring;
  warnings : list jsstring
}.

(** The two arrays and the counter of consecutive paragraphs. *)
Record State := mkState {
  st_errors : list jsstring;
  st_warnings : list jsstring;
  consecutiveParagraphs : nat
}.

Definition pushError (e : jsstring) (st : State) : State :=
  mkState (st_errors st ++ [e]) (st_warnings st) (consecutiveParagraphs st).

Definition pushWarning (w : jsstring) (st : State) : State :=
  mkState (st_errors st) (st_warnings st ++ [w]) (consecutiveParagraphs st).

Definition when (b : bool) (f : State -> State) (st : State) : State :=
  if b then f st else st.

Definition ofNat (n : nat) : jsstring := ofN (N.of_nat n).

(** [Section ${idx + 1}: ...] *)
Definition inSection (idx : nat) (message : jsstring) : jsstring :=
  js "Section " ++ ofNat (idx + 1) ++ js ": " ++ message.

Definition isTag (t : option jsstring) (name : string) : bool :=
  match t with
  | Some s => Js.eqb s (js name)
  | None => false
  end.

(** [`${item.type}`] *)
Definition showTag (t : option jsstring) : jsstring :=
  match t with
  | Some s => s
  | None => js "undefined"
  end.

Definition absentOrEmpty {A : Type} (l : option (list A)) : bool :=
  match l with
  | Some (_ :: _) => false
  | _ => true
  end.

Section Validate.
Context {platform : Platform}.

Definition checkItem (idx : nat) (st : State) (item : Any Item) (_ : nat) : Outcome State :=
  item <- deref item (mkItem None None None None None) ;;
  let st :=
    if isTag (type item) "paragraph" then
      let n := S (consecutiveParagraphs st) in
      let st := mkState (st_errors st) (st_warnings st) n in
      when (3 <=? n)%nat
           (pushWarning (inSection idx (ofNat n
              ++ js " paragraphes consécutifs. Variez les types de blocs!"))) st
    else mkState (st_errors st) (st_warnings st) 0 in
  let st :=
    if isTag (type item) "quiz" || isTag (type item) "quickQuiz" then
      let st :=
        when (match options item with Some l => (length l <? 2)%nat | None => true end)
             (pushError (inSection idx (js "Quiz avec trop peu d'options"))) st in
      when (match correctIndex item with
            | Some i =>
              (Z.of_nat (length (match options item with Some l => l | None => [] end))
               <=? i)%Z
            | None => false
            end)
           (pushError (inSection idx (js "Quiz correctIndex invalide"))) st
    else st in
  let st :=
    match truthyStr (url item) with
    | Some u =>
      when ((isTag (type item) "image" || isTag (type item) "video"
             || isTag (type item) "audio" || isTag (type item) "pdf")
            && negb (isValidUrl u))
           (pushError (inSection idx (js "URL invalide pour " ++ showTag (type item)))) st
    | None => st
    end in
  let st :=
    match truthyStr (text item) with
    | Some t =>
      when (2000 <? length t)%nat
           (pushWarning (inSection idx (js "Texte trop long (" ++ ofNat (length t)
                                        ++ js " chars)"))) st
    | None => st
    end in
  Returned st.

Definition checkSection (st : State) (section : Any Section_) (idx : nat) : Outcome State :=
  section <- deref section (mkSection None None) ;;
  let st := when (match truthyStr (section_title section) with Some _ => false | None => true end)
                 (pushError (inSection idx (js "titre manquant"))) st in
  let st := when (absentOrEmpty (content section))
                 (pushError (inSection idx (js "contenu manquant"))) st in
  forEachOpt (checkItem idx) (content section)
             (mkState (st_errors st) (st_warnings st) 0).

Definition validateCourse (course : Any Course) : Outcome Result :=
  let st := mkState [] [] 0 in
  course <- deref course (mkCourse None None) ;;
  let st := when (match truthyStr (title course) with
                  | Some t => (length (trim t) =? 0)%nat
                  | None => true
                  end)
                 (pushError (js "Titre manquant")) st in
  let st := when (absentOrEmpty (sections course))
                 (pushError (js "Au moins une section requise")) st in
  st <- forEachOpt checkSection (sections course) st ;;
  Returned (mkResult (match st_errors st with [] => true | _ => false end)
                     (st_errors st) (st_warnings st)).

End Validate.

(** *** generateRecommendations *)

(** [stats: { totalBlocks, totalSections, blockTypes }]; the counts are
    natural numbers. *)
Record Stats := mkStats {
  totalBlocks : option N;
  totalSections : option N;
  blockTypes : option (list (jsstring * N))
}.

(** [blockTypes[key] || 0] *)
Fixpoint count (key : jsstring) (blockTypes : list (jsstring * N)) : N :=
  match blockTypes with
  | [] => 0
  | (k, n) :: rest => if Js.eqb key k then n else count key rest
  end.

(** [a / b > n / d] on counts, in the arithmetic of the runtime: [0 / 0] and
    a quotient with an [undefined] operand are [NaN], which is above
    nothing; [a / 0] is [Infinity] for [a > 0].  (Exact on counts below
    2^53.) *)
Definition quotientAbove (a b : option N) (n d : N) : bool :=
  match a, b with
  | Some a, Some b =>
    if (b =? 0)%N then negb (a =? 0)%N else (n * b <? d * a)%N
  | _, _ => false
  end.

Definition generateRecommendations (stats : Any Stats) : Outcome (list jsstring) :=
  stats <- deref stats (mkStats None None None) ;;
  match blockTypes stats with
  | None => Thrown typeError
  | Some types =>
    let r1 :=
      if quotientAbove (Some (count (js "paragraph") types)) (totalBlocks stats) 1 2
      then [js "⚠️ Trop de paragraphes (>50%). Ajoute plus d'exercices, quiz ou blocs interactifs."]
      else [] in
    let r2 :=
      if (count (js "exercice") types =? 0)%N && (count (js "exercise") types =? 0)%N
      then [js "💡 Aucun exercice détecté. Ajoute des exercices pratiques pour renforcer l'apprentissage."]
      else [] in
    let r3 :=
      if (count (js "quiz") types =? 0)%N && (count (js "quickQuiz") types =? 0)%N
      then [js "💡 Aucun quiz détecté. Ajoute des quiz pour valider la compréhension."]
      else [] in
    let r4 :=
      if quotientAbove (totalBlocks stats) (totalSections stats) 15 1
      then [js "⚠️ Sections trop longues (>15 blocs en moyenne). Découpe-les pour améliorer la lisibilité."]
      else [] in
    let recommendations := r1 ++ r2 ++ r3 ++ r4 in
    Returned (match recommendations with
              | [] => [js "✅ Structure excellente ! Le cours est bien équilibré."]
              | _ => recommendations
              end)
  end.

(** *** Readable values *)

(** A value on which properties can be read. *)
Definition present {T : Type} (v : Any T) : bool :=
  match v with
  | Nullish => false
  | _ => true
  end.

Definition allOk {A : Type} (ok : A -> bool) (l : option (list A)) : bool :=
  match l with
  | Some l => forallb ok l
  | None => true
  end.

Definition sectionReadable (v : Any Section_) : bool :=
  match v with
  | Nullish => false
  | Primitive => true
  | Object s => allOk present (content s)
  end.

(** No [null] or [undefined] where the validator reads a property: the
    course, its sections, their items. *)
Definition courseReadable (v : Any Course) : bool :=
  match v with
  | Nullish => false
  | Primitive => true
  | Object c => allOk sectionReadable (sections c)
  end.

Definition statsReadable (v : Any Stats) : bool :=
  match v with
  | Object s => match blockTypes s with Some _ => true | None => false end
  | _ => false
  end.

End Validation.

(** ** notion-api.ts: the page materializer *)

Module NotionAPI.

Import BlockBuilders.

Section ChunkArray.
Variable T : Type.

(** The [for] loop of [chunkArray]; it does not end when [size] is [0]. *)
Fixpoint chunkLoop (fuel : nat) (array : list T) (size i : nat) (chunks : list (list T))
  : option (list (list T)) :=
  match fuel with
  | O => None
  | S fuel' =>
    if (i <? length array)%nat
    then chunkLoop fuel' array size (i + size) (chunks ++ [slice i (i + size) array])
    else Some chunks
  end.

Definition chunkArray (array : list T) (size : nat) : option (list (list T)) :=
  chunkLoop (S (length array)) array size 0 [].

(** The size of a batch. *)
Definition batch (size : nat) (chunk : list T) : Prop :=
  (1 <= length chunk <= size)%nat.

End ChunkArray.

(** One remote call, [client.blocks.children.append({ block_id, children })]. *)
Record Append := mkAppend {
  block_id : jsstring;
  children : list Block
}.

(** The calls issued so far. *)
Definition Trace := list Append.

(** A computation that issues remote calls. *)
Definition Remote (A : Type) : Type := Trace -> Outcome A * Trace.

Definition ret {A : Type} (a : A) : Remote A := fun tr => (Returned a, tr).

Definition throw {A : Type} (message : jsstring) : Remote A :=
  fun tr => (Thrown message, tr).

Definition bind {A B : Type} (m : Remote A) (f : A -> Remote B) : Remote B :=
  fun tr =>
    match m tr with
    | (Returned a, tr') => f a tr'
    | (Thrown e, tr') => (Thrown e, tr')
    | (OutOfFuel, tr') => (OutOfFuel, tr')
    end.

Local Notation "x <- m ;; k" := (bind m (fun x => k))
  (at level 100, m at next level, right associativity).

Section Client.

(** The remote service: its answer to a call, given the calls before it;
    [None] is success, [Some message] a rejected promise. *)
Variable service : Trace -> Append -> option jsstring.

(** [await this.client.blocks.children.append(call)] *)
Definition append (call : Append) : Remote unit :=
  fun tr =>
    match service tr call with
    | None => (Returned tt, tr ++ [call])
    | Some e => (Thrown e, tr ++ [call])
    end.

(** [for (const chunk of chunks) { await ... }] *)
Fixpoint forOf {A : Type} (l : list A) (body : A -> Remote unit) : Remote unit :=
  match l with
  | [] => ret tt
  | x :: l' => _ <- body x ;; forOf l' body
  end.

(** [this.client] is [null] until a token is set. *)
Record NotionAPI := mkNotionAPI { client : option jsstring }.

Definition appendBlocks (this : NotionAPI) (pageId : jsstring) (blocks : list Block)
  : Remote unit :=
  match client this with
  | None => throw (js "Client not initialized")
  | Some _ =>
    let chunkSize := 100%nat in
    match chunkArray blocks chunkSize with
    | None => fun tr => (OutOfFuel, tr)
    | Some chunks => forOf chunks (fun chunk => append (mkAppend pageId chunk))
    end
  end.

End Client.

(** *** The token *)

Definition emptyToken : jsstring := js "Token cannot be empty".

(** The message holds quotation marks, U+0022. *)
Definition invalidToken : jsstring :=
  js "Token invalide. Les tokens Notion commencent par " ++ [34%N] ++ js "ntn_"
     ++ [34%N] ++ js " ou " ++ [34%N] ++ js "secret_" ++ [34%N].

Definition setToken (this : NotionAPI) (token : jsstring) : Outcome NotionAPI :=
  if negb (truthy token) || (length (trim token) =? 0)%nat
  then Thrown emptyToken
  else if negb (startsWith (js "ntn_") token) && negb (startsWith (js "secret_") token)
  then Thrown invalidToken
  else Returned (mkNotionAPI (Some token)).

(** [new NotionAPI(token?)] *)
Definition construct (token : option jsstring) : Outcome NotionAPI :=
  match truthyStr token with
  | Some t => setToken (mkNotionAPI None) t
  | None => Returned (mkNotionAPI None)
  end.

End NotionAPI.

Import BlockBuilders Server.

(** ** server.ts: the routes *)

Module Routes.

Import BlockBuilders Server.

(** [interface CourseSection] *)
Record CourseSection := mkCourseSection {
  title : jsstring;
  description : option jsstring;
  color : option jsstring;
  toggleable : option bool;
  content : list CourseContent
}.

Section Assembly.
Context {platform : Platform}.

(** The body of the loop over the items: the result of an item is pushed,
    unless it is [null]; an array is spread. *)
Definition pushItem (children : list Block) (item : CourseContent) : list Block :=
  match buildCourseBlock item with
  | Null => children
  | Many blocks => children ++ filterValidBlocks (map Some blocks)
  | One block => children ++ [block]
  end.

(** The body of the loop over the sections. *)
Definition pushSection (children : list Block) (section : CourseSection) : list Block :=
  let children := children ++ [divider] in
  let children :=
    children
    ++ [heading1 (Str (title section))
                 (Opts.mk None (Some (orStr (color section) (js "blue")))
                          (orFalse (toggleable section)) None None)] in
  let children :=
    match truthyStr (description section) with
    | Some d =>
      match paragraph (Str d) (Opts.ofColor "gray") with
      | Some descBlock => children ++ [descBlock]
      | None => children
      end
    | None => children
    end in
  fold_left pushItem (content section) children.

(** The columns of the metadata: a time that is not zero, prerequisites and
    objectives that are not empty. *)
Definition metaColumns (estimatedTime : option Z)
           (prerequisites objectives : option (list jsstring)) : list (list Block) :=
  (match estimatedTime with
   | Some 0%Z | None => []
   | Some minutes => [[BlockBuilders.estimatedTime minutes]]
   end)
  ++ (match prerequisites with
      | Some (p :: ps) => [[BlockBuilders.prerequisites (p :: ps)]]
      | _ => []
      end)
  ++ (match objectives with
      | Some (o :: os) => [[learningObjectives (o :: os)]]
      | _ => []
      end).

Definition congratulations : Block :=
  callout (Str (js "Félicitations ! Vous avez terminé ce cours."))
          (Opts.mk (Some (js "🎉")) (Some (js "green_background")) false None None).

(** The children of the page of a course, lines 505 to 576 of the
    create-course route. *)
Definition courseChildren (description : option jsstring) (estimatedTime : option Z)
           (prerequisites objectives : option (list jsstring))
           (sections : list CourseSection) : list Block :=
  let children := [breadcrumb; tableOfContents (Some (js "gray")); divider] in
  let children :=
    match truthyStr description with
    | Some d =>
      children ++ [callout (Str d)
                           (Opts.mk (Some (js "📖")) (Some (js "blue_background"))
                                    false None None)]
    | None => children
    end in
  let columns := metaColumns estimatedTime prerequisites objectives in
  let children :=
    match columns with
    | [] => children
    | [column] => children ++ column ++ [divider]
    | _ => children ++ [columnList columns] ++ [divider]
    end in
  let children := fold_left pushSection sections children in
  let children := children ++ [divider] in
  let children := children ++ [congratulations] in
  filterValidBlocks (map Some children).

(** The append-content route: the blocks of the content, or the answer 400
    when there is none. *)
Definition contentChildren (content : list CourseContent) : list Block :=
  filterValidBlocks (map Some (fold_left pushItem content [])).

End Assembly.

(** *** The statistics of the validation route *)

Import Validation.

(** [blockTypes[key] = value] *)
Fixpoint put (key : jsstring) (value : N) (blockTypes : list (jsstring * N))
  : list (jsstring * N) :=
  match blockTypes with
  | [] => [(key, value)]
  | (k, n) :: rest =>
    if Js.eqb key k then (k, value) :: rest else (k, n) :: put key value rest
  end.

(** The names that every object inherits from [Object.prototype]: read on
    [blockTypes] they give an inherited value, not a count, and the
    statistics of a course with an item of such a type are outside this
    model. *)
Definition inheritedKeys : list jsstring :=
  map js [ "constructor"; "__proto__"; "hasOwnProperty"; "isPrototypeOf";
           "propertyIsEnumerable"; "toLocaleString"; "toString"; "valueOf";
           "__defineGetter__"; "__defineSetter__"; "__lookupGetter__";
           "__lookupSetter__" ]%string.

Definition ownKey (item : Any Item) : bool :=
  match item with
  | Object item => negb (existsb (Js.eqb (showTag (type item))) inheritedKeys)
  | _ => true
  end.

Definition ownKeys (courseData : Any Course) : bool :=
  match courseData with
  | Object course =>
    forallb (fun section =>
               match section with
               | Object section => forallb ownKey (orList (Validation.content section))
               | _ => true
               end)
            (orList (sections course))
  | _ => true
  end.

(** [stats.totalBlocks++; stats.blockTypes[item.type] = (... || 0) + 1] *)
Definition countItem (st : N * list (jsstring * N)) (item : Any Item) (_ : nat)
  : Outcome (N * list (jsstring * N)) :=
  match deref item (mkItem None None None None None) with
  | Returned item =>
    let key := showTag (type item) in
    Returned ((fst st + 1)%N, put key (count key (snd st) + 1)%N (snd st))
  | Thrown e => Thrown e
  | OutOfFuel => OutOfFuel
  end.

Definition countSection (st : N * list (jsstring * N)) (section : Any Section_) (_ : nat)
  : Outcome (N * list (jsstring * N)) :=
  match deref section (mkSection None None) with
  | Returned section => forEachOpt countItem (Validation.content section) st
  | Thrown e => Thrown e
  | OutOfFuel => OutOfFuel
  end.

(** The statistics that the route hands to [generateRecommendations]. *)
Definition courseStats (courseData : Any Course) : Outcome Stats :=
  match deref courseData (mkCourse None None) with
  | Returned course =>
    let totalSections :=
      match sections course with
      | Some l => N.of_nat (length l)
      | None => 0%N
      end in
    match forEachOpt countSection (sections course) (0%N, []) with
    | Returned st => Returned (mkStats (Some (fst st)) (Some totalSections) (Some (snd st)))
    | Thrown e => Thrown e
    | OutOfFuel => OutOfFuel
    end
  | Thrown e => Thrown e
  | OutOfFuel => OutOfFuel
  end.

End Routes.

(** ** A reference platform

    The URL constructor, after the scheme states of the WHATWG URL
    standard: surrounding control characters and spaces are stripped, tabs
    and newlines removed; the scheme is a letter followed by letters,
    digits, [+], [-] or [.] up to a colon, in lower case; [http], [https],
    [ws], [wss] and [ftp] need a non-empty host.  Later failures of the
    parser (a bad port, a bad address) are not modelled: the instance serves
    the examples, no theorem depends on it. *)

Module Whatwg.

Local Open Scope N_scope.

Definition isAlpha (c : char16) : bool :=
  ((0x41 <=? c) && (c <=? 0x5A)) || ((0x61 <=? c) && (c <=? 0x7A)).

Definition lower (c : char16) : char16 :=
  if (0x41 <=? c) && (c <=? 0x5A) then c + 32 else c.

Definition isSchemeChar (c : char16) : bool :=
  isAlpha c || isDigit c || (c =? 0x2B) || (c =? 0x2D) || (c =? 0x2E).

Fixpoint stripStart (s : jsstring) : jsstring :=
  match s with
  | [] => []
  | c :: s' => if c <=? 0x20 then stripStart s' else s
  end.

Definition clean (s : jsstring) : jsstring :=
  filter (fun c => negb ((c =? 0x09) || (c =? 0x0A) || (c =? 0x0D)))
         (rev (stripStart (rev (stripStart s)))).

(** The scheme and what follows the colon. *)
Fixpoint scheme (acc s : jsstring) : option (jsstring * jsstring) :=
  match s with
  | [] => None
  | c :: s' =>
    if c =? 0x3A then Some (rev acc, s')
    else if isSchemeChar c then scheme (lower c :: acc) s'
    else None
  end.

Fixpoint skipSlashes (s : jsstring) : jsstring :=
  match s with
  | [] => []
  | c :: s' => if (c =? 0x2F) || (c =? 0x5C) then skipSlashes s' else s
  end.

Definition hasHost (rest : jsstring) : bool :=
  match skipSlashes rest with
  | [] => false
  | c :: _ => negb ((c =? 0x3F) || (c =? 0x23))
  end.

Definition protocol (url : jsstring) : option jsstring :=
  match clean url with
  | [] => None
  | c :: s =>
    if isAlpha c then
      match scheme [lower c] s with
      | Some (sch, rest) =>
        if existsb (Js.eqb sch) [js "http"; js "https"; js "ws"; js "wss"; js "ftp"]
        then (if hasHost rest then Some (sch ++ js ":") else None)
        else Some (sch ++ js ":")
      | None => None
      end
    else None
  end.

Definition platform : Platform := {| urlProtocol := protocol |}.

End Whatwg.

(** ** Observations

    What the properties below say of runs and blocks. *)

Definition blankRun : RichText.t :=
  RichText.mk (js " ") None
    (Annotations.mk false false false false false (js "default")).

Definition plainRun (content : jsstring) : RichText.t :=
  RichText.mk content None
    (Annotations.mk false false false false false (js "default")).

Definition boldRun (content : jsstring) : RichText.t :=
  RichText.mk content None
    (Annotations.mk true false false false false (js "default")).


(** The characters without which no pattern of the formatter can match:
    the asterisk, the backquote, the tilde and the opening parenthesis. *)
Definition markers : jsstring := js "*`~(".

Definition noMarkup (s : jsstring) : bool :=
  forallb (fun c => negb (existsb (N.eqb c) markers)) s.

(** The runs of a text block, and the text a reader sees. *)
Definition runsOf (b : Block) : list RichText.t :=
  match b with
  | Paragraph r _ _ | Heading1 r _ _ _ | Heading2 r _ _ _ | Heading3 r _ _ _
  | Callout r _ _ _ | Quote r _ _ | Code r _ _ | BulletedListItem r _ _
  | NumberedListItem r _ _ | ToDo r _ _ _ | Toggle r _ _ => r
  | _ => []
  end.

Definition visibleText (b : Block) : jsstring :=
  concat (map RichText.content (runsOf b)).

Definition isParagraph (b : Block) : bool :=
  match b with Paragraph _ _ _ => true | _ => false end.

(** A block names a string when it is a paragraph whose visible text
    contains the string. *)
Definition names (s : jsstring) (r : option Block) : Prop :=
  exists b, r = Some b /\ isParagraph b = true /\ includes s (visibleText b) = true.


(** The placeholder of an unknown type. *)
Definition unknownMessage (tag : jsstring) : jsstring :=
  js "[Type non reconnu: " ++ tag ++ js "]".

(** The paragraph that [paragraph] builds from a message: the runs of the
    formatter. *)
Definition formatted (message : jsstring) : option Block :=
  Some (Paragraph (parseFormattedText message) (js "default") None).

(** ** server.ts: the append-content and dry-run routes *)

Module Endpoints.

Import BlockBuilders Validation NotionAPI.

(** The answers of a route: [res.json({ success: true, ..., blocksAdded })]
    and [res.status(status).json({ success: false, error })]. *)
Inductive Response :=
| Success (blocksAdded : nat)
| Failure (status : nat) (error : jsstring).

(** [POST /api/page/:pageId/append-content], lines 152 to 199; [content]
    is [None] for a body without a content array.  The [catch] turns an
    exception into the answer 500 with its message. *)
Definition appendContent {platform : Platform}
           (service : Trace -> Append -> option jsstring) (notion : NotionAPI)
           (pageId : jsstring) (content : option (list Server.CourseContent))
  : Remote Response :=
  fun tr =>
    match content with
    | None => (Returned (Failure 400 (js "Missing or invalid content array")), tr)
    | Some content =>
      let validChildren := Routes.contentChildren content in
      if (length validChildren =? 0)%nat
      then (Returned (Failure 400 (js "No valid blocks generated from content")), tr)
      else
        match appendBlocks service notion pageId validChildren tr with
        | (Returned _, tr') => (Returned (Success (length validChildren)), tr')
        | (Thrown e, tr') => (Returned (Failure 500 e), tr')
        | (OutOfFuel, tr') => (OutOfFuel, tr')
        end
    end.

(** The answer of [POST /api/dry-run], lines 398 to 463, without the map
    [stats.blockTypes], which is filled as in the validation route. *)
Record Analysis := mkAnalysis {
  an_valid : bool;
  an_errors : list jsstring;
  an_warnings : list jsstring;
  an_sections : nat;
  an_totalBlocks : nat;
  an_generatedBlocks : nat
}.

(** [analysis.errors.push(e); analysis.valid = false] *)
Definition fail (e : jsstring) (a : Analysis) : Analysis :=
  mkAnalysis false (an_errors a ++ [e]) (an_warnings a) (an_sections a)
             (an_totalBlocks a) (an_generatedBlocks a).

(** [analysis.warnings.push(w)] *)
Definition warn (w : jsstring) (a : Analysis) : Analysis :=
  mkAnalysis (an_valid a) (an_errors a) (an_warnings a ++ [w]) (an_sections a)
             (an_totalBlocks a) (an_generatedBlocks a).

(** [analysis.generatedBlocks += n] *)
Definition generated (n : nat) (a : Analysis) : Analysis :=
  mkAnalysis (an_valid a) (an_errors a) (an_warnings a) (an_sections a)
             (an_totalBlocks a) (an_generatedBlocks a + n).

Section DryRun.
Context {platform : Platform}.

(** The body of the loop over the items of a section; an item of the
    interface [CourseContent] is built without exception. *)
Definition dryItem (idx : nat) (a : Analysis) (item : Server.CourseContent) : Analysis :=
  let a := mkAnalysis (an_valid a) (an_errors a) (an_warnings a) (an_sections a)
                      (S (an_totalBlocks a)) (an_generatedBlocks a) in
  let a :=
    match Server.buildCourseBlock item with
    | Server.Null => a
    | Server.One _ => generated 1 a
    | Server.Many result => generated (length result) a
    end in
  let a :=
    if isTag (Some (Server.type item)) "quiz" || isTag (Some (Server.type item)) "quickQuiz"
    then
      let a :=
        if match Server.options item with
           | Some l => (length l <? 2)%nat
           | None => true
           end
        then warn (inSection idx (js "Quiz avec trop peu d'options")) a
        else a in
      if match Server.correctIndex item with
         | Some i => (Z.of_nat (length (Server.orList (Server.options item))) <=? i)%Z
         | None => false
         end
      then fail (inSection idx (js "Quiz correctIndex invalide")) a
      else a
    else a in
  match truthyStr (Server.url item) with
  | Some u =>
    if (isTag (Some (Server.type item)) "image" || isTag (Some (Server.type item)) "video")
       && negb (isValidUrl u)
    then fail (inSection idx (js "URL invalide pour " ++ Server.type item)) a
    else a
  | None => a
  end.

(** The body of the loop over the sections. *)
Definition drySection (a : Analysis) (section : Routes.CourseSection) (idx : nat)
  : Analysis :=
  let a :=
    if negb (truthy (Routes.title section))
    then fail (inSection idx (js "Titre manquant")) a
    else a in
  fold_left (dryItem idx) (Routes.content section) a.

(** [courseData.sections?.forEach((section, idx) => ...)] *)
Fixpoint dryLoop (sections : list Routes.CourseSection) (idx : nat) (a : Analysis)
  : Analysis :=
  match sections with
  | [] => a
  | section :: rest => dryLoop rest (S idx) (drySection a section idx)
  end.

(** The analysis of a request; a body without sections has none. *)
Definition dryRun (sections : option (list Routes.CourseSection)) : Analysis :=
  dryLoop (Server.orList sections) 0
          (mkAnalysis true [] [] (length (Server.orList sections)) 0 0).

End DryRun.

End Endpoints.

(** ** Further observations

    Predicates and readings in which the further properties are stated. *)

Module Observed.

Import BlockBuilders Validation NotionAPI Endpoints.

(** A run that the remote service takes: not empty, within the limit,
    and either the blank run or a text without whitespace around it. *)
Definition wellFormedRun (r : RichText.t) : Prop :=
  RichText.content r <> []
  /\ (length (RichText.content r) <= 2000)%nat
  /\ (RichText.content r = js " " \/ trim (RichText.content r) = RichText.content r).

(** The delimiters of the four styles that enclose their text, with the
    options of the run they give. *)
Definition spans : list (jsstring * Options.t) :=
  [ (js "**", Options.mk true false false false false None None);
    (js "*", Options.mk false true false false false None None);
    (js "`", Options.mk false false false false true None None);
    (js "~~", Options.mk false false true false false None None) ].

(** The run of a text between tokens, dropped when it is blank. *)
Definition between (s : jsstring) : list RichText.t :=
  if truthy (trim s) then [plain s] else [].

(** Two strings that differ at a position both have. *)
Fixpoint differ (a b : jsstring) : bool :=
  match a, b with
  | x :: a', y :: b' => negb (x =? y)%N || differ a' b'
  | _, _ => false
  end.

(** The stripping of one icon, as in the loop of [cleanLeadingEmoji]. *)
Definition stripStep (cleaned emoji : jsstring) : jsstring :=
  if startsWith emoji cleaned
  then trim (sliceFrom (length emoji) cleaned)
  else cleaned.

(** A text that is empty or starts below U+2000 starts with no icon. *)
Definition startsLow (s : jsstring) : bool :=
  match s with
  | [] => true
  | c :: _ => (c <? 0x2000)%N
  end.

(** A text that starts at U+2000 or above. *)
Definition startsHigh (e : jsstring) : bool :=
  match e with
  | [] => false
  | c :: _ => (0x2000 <=? c)%N
  end.

(** The sum of the counts of a map of types. *)
Definition total (blockTypes : list (jsstring * N)) : N :=
  fold_right (fun kv acc => (snd kv + acc)%N) 0%N blockTypes.

(** What the loops keep: the total is the sum of the counts, the keys are
    distinct, no count is zero. *)
Definition consistent (st : N * list (jsstring * N)) : Prop :=
  fst st = total (snd st)
  /\ NoDup (map fst (snd st))
  /\ Forall (fun kv => (0 < snd kv)%N) (snd st).

(** The second call is refused. *)
Definition refuseSecond (tr : Trace) (_ : Append) : option jsstring :=
  if (length tr =? 1)%nat then Some (js "rate_limited") else None.

(** The fields read on a value: a primitive has none. *)
Definition fields {T : Type} (v : Any T) (empty : T) : T :=
  match v with
  | Object o => o
  | _ => empty
  end.

(** The types that the validator checks as a quiz, and as a medium. *)
Definition isQuiz (t : option jsstring) : bool :=
  isTag t "quiz" || isTag t "quickQuiz".

Definition isMedia (t : option jsstring) : bool :=
  isTag t "image" || isTag t "video" || isTag t "audio" || isTag t "pdf".

Section Acceptance.
Context {platform : Platform}.

(** A quiz has two options or more and, when it gives an index, one below
    their number; an image, video, audio or pdf that gives a URL gives one
    that [isValidUrl] accepts. *)
Definition itemOk (item : Item) : bool :=
  (if isQuiz (type item) then
     match options item with
     | Some l =>
       (2 <=? length l)%nat
       && match correctIndex item with
          | Some i => (i <? Z.of_nat (length l))%Z
          | None => true
          end
     | None => false
     end
   else true)
  && (if isMedia (type item) then
        match truthyStr (url item) with
        | Some u => isValidUrl u
        | None => true
        end
      else true).

(** A section has a title that is not empty and one item or more, all
    accepted. *)
Definition sectionOk (s : Section_) : bool :=
  match truthyStr (section_title s) with Some _ => true | None => false end
  && negb (absentOrEmpty (Validation.content s))
  && allOk (fun v => itemOk (fields v (mkItem None None None None None)))
           (Validation.content s).

(** A course has a title with a visible character and one section or more,
    all accepted. *)
Definition courseOk (c : Course) : bool :=
  match truthyStr (title c) with Some t => truthy (trim t) | None => false end
  && negb (absentOrEmpty (sections c))
  && allOk (fun v => sectionOk (fields v (mkSection None None))) (sections c).

End Acceptance.

(** An item of a course as the validator reads it. *)
Definition asItem (c : Server.CourseContent) : Item :=
  mkItem (Some (Server.type c)) (Server.options c) (Server.correctIndex c)
         (Server.url c) (Server.text c).

(** A section and a course of the interfaces, as the validator reads them. *)
Definition asSection (s : Routes.CourseSection) : Section_ :=
  mkSection (Some (Routes.title s))
            (Some (map (fun c => Object (asItem c)) (Routes.content s))).

Definition asCourse (title : option jsstring) (sections : list Routes.CourseSection)
  : Course :=
  mkCourse title (Some (map (fun s => Object (asSection s)) sections)).

(** [l.length === 0] *)
Definition isNil {A : Type} (l : list A) : bool :=
  match l with [] => true | _ => false end.

(** What a step of the dry run keeps: the flag is the conjunction of the
    old flag and of the absence of new errors. *)
Definition extends (ok : bool) (n g : nat) (a a' : Analysis) : Prop :=
  exists es,
    an_errors a' = an_errors a ++ es
    /\ an_valid a' = an_valid a && isNil es
    /\ (ok = true -> es = [])
    /\ an_totalBlocks a' = (an_totalBlocks a + n)%nat
    /\ an_generatedBlocks a' = (an_generatedBlocks a + g)%nat.

End Observed.

(** * Properties *)

Unset Implicit Arguments.

(** ** Literals and the reference platform *)

Example js_ascii : js "A) a" = [65; 41; 32; 97]%N.
Proof. reflexivity. Qed.

Example js_accent : js "Étape" = [0xC9; 116; 97; 112; 101]%N.
Proof. reflexivity. Qed.

Example js_emoji : js "💡" = [0xD83D; 0xDCA1]%N /\ js "ℹ️" = [0x2139; 0xFE0F]%N.
Proof. split; reflexivity. Qed.

Example ofZ_examples :
  ofZ 0 = js "0" /\ ofZ 2000 = js "2000" /\ ofZ (-15) = js "-15" /\ ofZ 1024 = js "1024".
Proof. repeat split; reflexivity. Qed.

Example isValidUrl_examples :
  @isValidUrl Whatwg.platform (js "https://example.com/image.jpg") = true
  /\ @isValidUrl Whatwg.platform (js "HTTP://x") = true
  /\ @isValidUrl Whatwg.platform (js "ftp://x") = false
  /\ @isValidUrl Whatwg.platform (js "a](b)") = false
  /\ @isValidUrl Whatwg.platform (js "") = false
  /\ @isValidUrl Whatwg.platform (js "http://") = false.
Proof. repeat split; reflexivity. Qed.

(** ** Strings *)

Section StringFacts.

Lemma trimStart_blank (s : jsstring) :
  forallb isWhiteSpace s = true -> trimStart s = [].
Proof.
  induction s as [|c s IH]; simpl; [reflexivity|].
  intros H. apply andb_prop in H. destruct H as [Hc Hs].
  rewrite Hc. now apply IH.
Qed.

Lemma trim_blank (s : jsstring) :
  forallb isWhiteSpace s = true -> trim s = [].
Proof.
  intros H. unfold trim. now rewrite (trimStart_blank s H).
Qed.

Lemma trimStart_app (a b : jsstring) (c : char16) :
  isWhiteSpace c = false -> trimStart (a ++ c :: b) = trimStart a ++ c :: b.
Proof.
  intros Hc. induction a as [|x a IH]; simpl.
  - now rewrite Hc.
  - destruct (isWhiteSpace x); [exact IH | reflexivity].
Qed.

Lemma trimStart_cons (c : char16) (s : jsstring) :
  isWhiteSpace c = false -> trimStart (c :: s) = c :: s.
Proof. intros Hc. simpl. now rewrite Hc. Qed.

Lemma trimEnd_snoc (s : jsstring) (c : char16) :
  isWhiteSpace c = false -> trimEnd (s ++ [c]) = s ++ [c].
Proof.
  intros Hc. unfold trimEnd. rewrite rev_app_distr. simpl.
  rewrite Hc. simpl. now rewrite rev_involutive.
Qed.

Lemma trimEnd_app (a b : jsstring) (c : char16) :
  isWhiteSpace c = false -> trimEnd (a ++ c :: b) = a ++ c :: trimEnd b.
Proof.
  intros Hc. unfold trimEnd.
  replace (rev (a ++ c :: b)) with (rev b ++ c :: rev a)
    by (rewrite rev_app_distr; simpl; now rewrite <- app_assoc).
  rewrite (trimStart_app (rev b) (rev a) c Hc).
  rewrite rev_app_distr. simpl. now rewrite rev_involutive, <- app_assoc.
Qed.

(** A string that starts and ends with a visible character is its own trim. *)
Lemma trim_bracketed (c d : char16) (s : jsstring) :
  isWhiteSpace c = false -> isWhiteSpace d = false ->
  trim (c :: s ++ [d]) = c :: s ++ [d].
Proof.
  intros Hc Hd. unfold trim. rewrite (trimStart_cons c _ Hc).
  change (c :: s ++ [d]) with ((c :: s) ++ [d]). now apply trimEnd_snoc.
Qed.

Lemma startsWith_app (p s : jsstring) : startsWith p (p ++ s) = true.
Proof.
  induction p as [|a p IH]; simpl; [reflexivity|].
  now rewrite N.eqb_refl.
Qed.

Lemma endsWith_app (p s : jsstring) : endsWith p (s ++ p) = true.
Proof. unfold endsWith. rewrite rev_app_distr. apply startsWith_app. Qed.

Lemma includes_app (p a b : jsstring) : includes p (a ++ p ++ b) = true.
Proof.
  induction a as [|x a IH]; simpl.
  - destruct (p ++ b) eqn:E; simpl.
    + destruct p; [reflexivity | discriminate].
    + rewrite <- E, startsWith_app. reflexivity.
  - rewrite IH. apply orb_true_r.
Qed.

Lemma includes_char (c : char16) (s : jsstring) :
  includes [c] s = true <-> In c s.
Proof.
  induction s as [|x s IH]; simpl.
  - split; [discriminate | tauto].
  - rewrite andb_true_r. rewrite orb_true_iff, IH, N.eqb_eq. intuition auto.
Qed.

End StringFacts.

(** ** The single-run constructor *)

Lemma ellipsis_visible (s : jsstring) : truthy (s ++ js "...") = true.
Proof. destruct s; reflexivity. Qed.

Lemma richText_content (content : jsstring) (options : Options.t) :
  RichText.content (richText content options) =
  let t := trim content in
  let truncated := if (2000 <? length t)%nat then substring0 1997 t ++ js "..." else t in
  match truncated with
  | [] => js " "
  | _ => truncated
  end.
Proof.
  unfold richText. cbv zeta.
  destruct (if (2000 <? length (trim content))%nat
            then substring0 1997 (trim content) ++ js "..."
            else trim content); reflexivity.
Qed.

(** C2. For every input string the run built by [richText] has non-empty
    content; when the input is empty or made of whitespace only, the run is
    the plain run whose content is one space. *)
Theorem richText_never_empty (content : jsstring) (options : Options.t) :
  RichText.content (richText content options) <> []
  /\ (forallb isWhiteSpace content = true ->
      richText content options = blankRun
      /\ RichText.content (richText content options) = js " ").
Proof.
  split.
  - rewrite richText_content. cbv zeta.
    destruct (if (2000 <? length (trim content))%nat
              then substring0 1997 (trim content) ++ js "..."
              else trim content); discriminate.
  - intros Hblank. unfold richText.
    rewrite (trim_blank content Hblank). split; reflexivity.
Qed.

Lemma richText_never_empty_witness :
  forallb isWhiteSpace [32; 9; 10; 0xA0]%N = true
  /\ richText [32; 9; 10; 0xA0]%N Options.withBold = blankRun.
Proof.
  split; [reflexivity|].
  apply (proj2 (richText_never_empty [32; 9; 10; 0xA0]%N Options.withBold)).
  reflexivity.
Defined.

(** C3, as stated, fails: an input of 2001 characters of which 2000 are
    trailing spaces is trimmed first, and the run has no ellipsis. *)
Lemma richText_long_input_without_ellipsis :
  (2000 <? length (js "a" ++ repeat 32%N 2000))%nat = true
  /\ RichText.content (richText (js "a" ++ repeat 32%N 2000) Options.none) = js "a"
  /\ endsWith (js "...")
       (RichText.content (richText (js "a" ++ repeat 32%N 2000) Options.none)) = false.
Proof. vm_compute. repeat split. Qed.

(** C3, amended. The content of a run never exceeds 2000 characters; when
    the input, once trimmed, is longer than 2000 characters, the content is
    its first 1997 characters followed by the ellipsis, 2000 characters in
    all. *)
Theorem richText_truncates (content : jsstring) (options : Options.t) :
  (length (RichText.content (richText content options)) <= 2000)%nat
  /\ ((2000 < length (trim content))%nat ->
      RichText.content (richText content options)
      = substring0 1997 (trim content) ++ js "..."
      /\ length (RichText.content (richText content options)) = 2000%nat
      /\ endsWith (js "...") (RichText.content (richText content options)) = true).
Proof.
  rewrite richText_content. cbv zeta.
  assert (Hlong : (2000 < length (trim content))%nat ->
                  length (substring0 1997 (trim content) ++ js "...") = 2000%nat).
  { intros H. rewrite length_app. unfold substring0.
    rewrite firstn_length_le by lia. reflexivity. }
  destruct (2000 <? length (trim content))%nat eqn:E.
  - apply Nat.ltb_lt in E. specialize (Hlong E).
    destruct (substring0 1997 (trim content) ++ js "...") as [|c t] eqn:Et.
    + discriminate Hlong.
    + split; [lia|]. intros _. rewrite <- Et. repeat split.
      * rewrite Et. exact Hlong.
      * apply endsWith_app.
  - apply Nat.ltb_ge in E. split.
    + destruct (trim content); [vm_compute; lia | exact E].
    + intros H. lia.
Qed.

Lemma richText_truncates_witness :
  (2000 < length (trim (repeat 97%N 2500)))%nat
  /\ length (RichText.content (richText (repeat 97%N 2500) Options.none)) = 2000%nat
  /\ endsWith (js "...")
       (RichText.content (richText (repeat 97%N 2500) Options.none)) = true.
Proof.
  assert (H : (2000 < length (trim (repeat 97%N 2500)))%nat)
    by (apply Nat.ltb_lt; vm_compute; reflexivity).
  split; [exact H|].
  exact (proj2 (proj2 (richText_truncates (repeat 97%N 2500) Options.none) H)).
Defined.

(** ** The matcher *)

Section RegexFacts.

Import Regex.

Lemma star_inv (cls : char16 -> bool) (k : jsstring -> option result)
      (s : jsstring) (r : result) :
  star cls k s = Some r -> exists pre s2, s = pre ++ s2 /\ k s2 = Some r.
Proof.
  induction s as [|x s IH]; simpl; intros H.
  - exists [], []. auto.
  - destruct (cls x).
    + destruct (star cls k s) as [r'|] eqn:E.
      * destruct (IH H) as (pre & s2 & -> & Hk).
        exists (x :: pre), s2. auto.
      * exists [], (x :: s). auto.
    + exists [], (x :: s). auto.
Qed.

Lemma lazy_inv (k : jsstring -> option result) (acc s : jsstring) (r : result) :
  lazy k acc s = Some r ->
  exists pre s2 r', s = pre ++ s2 /\ k s2 = Some r'.
Proof.
  revert acc. induction s as [|x s IH]; simpl; intros acc H; [discriminate|].
  destruct (dot x); [|discriminate].
  destruct (k s) as [[caps rest]|] eqn:E.
  - exists [x], s, (caps, rest). auto.
  - destruct (IH _ H) as (pre & s2 & r' & -> & Hk).
    exists (x :: pre), s2, r'. auto.
Qed.

(** A match contains every literal of its pattern. *)
Lemma matchHere_literals (re : regex) :
  forall (s : jsstring) (r : result),
    matchHere re s = Some r -> forall c, In (Lit c) re -> In c s.
Proof.
  induction re as [|i re IH]; intros s r H c Hc; [destruct Hc|].
  destruct i; simpl in H.
  - destruct s as [|x s]; [discriminate|].
    destruct (N.eqb_spec x c0); [|discriminate].
    destruct Hc as [Hc|Hc].
    + injection Hc as ->. left. exact e.
    + right. exact (IH _ _ H _ Hc).
  - destruct s as [|x s]; [discriminate|].
    destruct (canonicalize x =? canonicalize c0)%N; [|discriminate].
    destruct Hc as [Hc|Hc]; [discriminate|].
    right. exact (IH _ _ H _ Hc).
  - destruct Hc as [Hc|Hc]; [discriminate|].
    destruct (star_inv _ _ _ _ H) as (pre & s2 & -> & Hk).
    apply in_or_app. right. exact (IH _ _ Hk _ Hc).
  - destruct Hc as [Hc|Hc]; [discriminate|].
    destruct s as [|x s]; [discriminate|].
    destruct (cls x); [|discriminate].
    destruct (star_inv _ _ _ _ H) as (pre & s2 & -> & Hk).
    right. apply in_or_app. right. exact (IH _ _ Hk _ Hc).
  - destruct Hc as [Hc|Hc]; [discriminate|].
    destruct (lazy_inv _ _ _ _ H) as (pre & s2 & r' & -> & Hk).
    apply in_or_app. right. exact (IH _ _ Hk _ Hc).
Qed.

(** A text that lacks a literal of the pattern has no match at all. *)
Lemma execAll_without_literal (re : regex) (c : char16) :
  In (Lit c) re ->
  forall (s : jsstring) (pos skip : nat), ~ In c s -> execAll re s pos skip = [].
Proof.
  intros Hc. induction s as [|x s IH]; intros pos skip Hs; [reflexivity|].
  assert (Hs' : ~ In c s) by (intros F; apply Hs; now right).
  simpl. destruct skip as [|k]; [|now apply IH].
  destruct (matchHere re (x :: s)) as [[caps rest]|] eqn:E.
  - exfalso. apply Hs. exact (matchHere_literals re _ _ E c Hc).
  - now apply IH.
Qed.

(** At the end of a pattern, [\s*] removes the leading whitespace. *)
Lemma star_whitespace_end (s : jsstring) :
  star isWhiteSpace (matchHere []) s = Some ([], trimStart s).
Proof.
  induction s as [|x s IH]; cbn [star trimStart]; [reflexivity|].
  destruct (isWhiteSpace x); [now rewrite IH | reflexivity].
Qed.

(** Before a visible character, [\s*] takes nothing. *)
Lemma star_whitespace_visible (k : jsstring -> option result) (x : char16) (s : jsstring) :
  isWhiteSpace x = false -> star isWhiteSpace k (x :: s) = k (x :: s).
Proof. intros H. cbn [star]. now rewrite H. Qed.

End RegexFacts.

(** ** The inline-text formatter *)

Section FormatterFacts.

Import Regex.

Lemma noMarkup_marker (s : jsstring) (c : char16) :
  noMarkup s = true -> In c markers -> ~ In c s.
Proof.
  unfold noMarkup. intros H Hc Hs.
  rewrite forallb_forall in H. specialize (H c Hs).
  apply negb_true_iff in H.
  assert (E : existsb (N.eqb c) markers = true).
  { apply existsb_exists. exists c. split; [exact Hc | apply N.eqb_refl]. }
  congruence.
Qed.

Lemma noMarkup_app (a b : jsstring) :
  noMarkup (a ++ b) = noMarkup a && noMarkup b.
Proof. unfold noMarkup. apply forallb_app. Qed.

Lemma findTokens_plain (text : jsstring) :
  noMarkup text = true -> findTokens text = [].
Proof.
  intros H. unfold findTokens, patterns.
  cbn [flat_map fst snd].
  rewrite (execAll_without_literal _ 42%N) ;
    [| vm_compute; tauto | apply (noMarkup_marker _ _ H); vm_compute; tauto].
  rewrite (execAll_without_literal _ 42%N) ;
    [| vm_compute; tauto | apply (noMarkup_marker _ _ H); vm_compute; tauto].
  rewrite (execAll_without_literal _ 96%N) ;
    [| vm_compute; tauto | apply (noMarkup_marker _ _ H); vm_compute; tauto].
  rewrite (execAll_without_literal _ 126%N) ;
    [| vm_compute; tauto | apply (noMarkup_marker _ _ H); vm_compute; tauto].
  rewrite (execAll_without_literal _ 40%N) ;
    [| vm_compute; tauto | apply (noMarkup_marker _ _ H); vm_compute; tauto].
  reflexivity.
Qed.

(** Without tokens the whole text is one plain run. *)
Lemma parseFormattedText_plain (text : jsstring) :
  noMarkup text = true -> parseFormattedText text = [plain text].
Proof.
  intros H. unfold parseFormattedText. now rewrite (findTokens_plain text H).
Qed.

Lemma parseFormattedText_nonempty (text : jsstring) :
  parseFormattedText text <> [].
Proof.
  unfold parseFormattedText.
  destruct (sortTokens (findTokens text)) as [|t ts]; [discriminate|].
  unfold buildSegments.
  destruct (fold_left (segmentStep text) (t :: ts) ([], 0%nat)) as [segments lastEnd].
  match goal with |- match ?x with _ => _ end <> _ => destruct x end; discriminate.
Qed.

(** A short text without surrounding whitespace is kept as it is. *)
Lemma plain_verbatim (s : jsstring) :
  trim s = s -> s <> [] -> (length s <= 2000)%nat -> plain s = plainRun s.
Proof.
  intros Ht Hs Hl. unfold plain, richText. rewrite Ht.
  apply Nat.ltb_ge in Hl. rewrite Hl.
  destruct s as [|c s]; [contradiction|]. reflexivity.
Qed.

(** [paragraph] on a string that is not blank gives a paragraph block with
    the runs of the formatter. *)
Lemma paragraph_of_string (s : jsstring) :
  trim s <> [] ->
  paragraph (Str s) Opts.none
  = Some (Paragraph (parseFormattedText (trim s)) (js "default") None).
Proof.
  intros H. unfold paragraph, toRichTextArray.
  change (markdownOn Opts.none) with true. cbv zeta.
  destruct (trim s) as [|c t] eqn:E; [contradiction|].
  cbn [truthy negb].
  pose proof (parseFormattedText_nonempty (c :: t)) as Hne.
  destruct (parseFormattedText (c :: t)); [contradiction|]. reflexivity.
Qed.

(** A bracketed message free of markers becomes one plain run with the
    message verbatim. *)
Lemma paragraph_bracketed (body : jsstring) :
  noMarkup body = true -> (length body + 2 <= 2000)%nat ->
  paragraph (Str (js "[" ++ body ++ js "]")) Opts.none
  = Some (Paragraph [plainRun (js "[" ++ body ++ js "]")] (js "default") None).
Proof.
  intros Hm Hl.
  assert (Ht : trim (js "[" ++ body ++ js "]") = js "[" ++ body ++ js "]")
    by (apply (trim_bracketed 91%N 93%N body); reflexivity).
  rewrite paragraph_of_string by (rewrite Ht; discriminate).
  rewrite Ht. rewrite parseFormattedText_plain.
  - rewrite plain_verbatim; [reflexivity | exact Ht | discriminate |].
    change (js "[" ++ body ++ js "]") with (91%N :: body ++ [93%N]).
    cbn [length]. rewrite length_app. cbn [length]. lia.
  - rewrite !noMarkup_app, Hm. reflexivity.
Qed.

End FormatterFacts.

(** The overlap rule: a token that starts before the end of the last token
    kept changes nothing. *)
Lemma segmentStep_overlap (text : jsstring) (segments : list RichText.t)
      (lastEnd : nat) (token : Token) :
  (tok_start token < lastEnd)%nat ->
  segmentStep text (segments, lastEnd) token = (segments, lastEnd).
Proof.
  intros H. unfold segmentStep. apply Nat.ltb_lt in H. now rewrite H.
Qed.

(** The tokens are sorted by their start offset. *)
Lemma insertToken_sorted (t : Token) (l : list Token) :
  StronglySorted (fun a b => (tok_start a <= tok_start b)%nat) l ->
  StronglySorted (fun a b => (tok_start a <= tok_start b)%nat) (insertToken t l).
Proof.
  induction 1 as [|u l Hl IH Hu]; simpl.
  - constructor; constructor.
  - destruct (Nat.ltb_spec (tok_start t) (tok_start u)).
    + constructor; [constructor; assumption|].
      constructor; [lia|].
      rewrite Forall_forall in *. intros x Hx. specialize (Hu x Hx). lia.
    + constructor; [exact IH|].
      assert (Hin : forall x, In x (insertToken t l) -> x = t \/ In x l).
      { clear. induction l as [|v l IHl]; simpl; intros x Hx.
        - destruct Hx as [<-|[]]. now left.
        - destruct (tok_start t <? tok_start v)%nat; simpl in Hx.
          + destruct Hx as [<-|Hx]; auto.
          + destruct Hx as [<-|Hx]; auto.
            destruct (IHl _ Hx); auto. }
      rewrite Forall_forall in *. intros x Hx.
      destruct (Hin x Hx) as [->|Hx']; [exact H | exact (Hu x Hx')].
Qed.

Lemma sortTokens_sorted (l : list Token) :
  StronglySorted (fun a b => (tok_start a <= tok_start b)%nat) (sortTokens l).
Proof.
  unfold sortTokens.
  assert (G : forall acc,
             StronglySorted (fun a b => (tok_start a <= tok_start b)%nat) acc ->
             StronglySorted (fun a b => (tok_start a <= tok_start b)%nat)
                            (fold_left (fun acc t => insertToken t acc) l acc)).
  { induction l as [|t l IH]; simpl; intros acc Hacc; [exact Hacc|].
    apply IH. now apply insertToken_sorted. }
  apply G. constructor.
Qed.



(** ** URL-bearing builders *)

Section MediaFacts.
Context {platform : Platform}.

Lemma paragraph_message (body : jsstring) :
  paragraph (Str (js "[" ++ body ++ js "]")) Opts.none
  = formatted (js "[" ++ body ++ js "]").
Proof.
  assert (Ht : trim (js "[" ++ body ++ js "]") = js "[" ++ body ++ js "]")
    by (apply (trim_bracketed 91%N 93%N); reflexivity).
  rewrite paragraph_of_string; rewrite Ht; [reflexivity | discriminate].
Qed.

(** A message free of markers, of at most 2000 characters, is shown as it
    is. *)
Lemma message_names (label url : jsstring) :
  noMarkup label = true -> noMarkup url = true ->
  (length label + length url + 2 <= 2000)%nat ->
  names url (formatted (js "[" ++ (label ++ url) ++ js "]")).
Proof.
  intros Hl Hu Hlen. rewrite <- paragraph_message.
  rewrite paragraph_bracketed.
  - eexists. split; [reflexivity|]. split; [reflexivity|].
    unfold visibleText. cbn [runsOf map concat RichText.content plainRun].
    rewrite app_nil_r.
    replace (js "[" ++ (label ++ url) ++ js "]")
      with ((js "[" ++ label) ++ url ++ js "]") by (now rewrite <- !app_assoc).
    apply includes_app.
  - now rewrite noMarkup_app, Hl, Hu.
  - rewrite length_app. lia.
Qed.

Lemma rejected (url : jsstring) (valid other : option Block) :
  isValidUrl url = false ->
  (if negb (isValidUrl url) then other else valid) = other.
Proof. intros ->. reflexivity. Qed.

Ltac message full label url :=
  change (full ++ url ++ js "]") with (js "[" ++ (label ++ url) ++ js "]").

(** C6, amended. For a URL that [isValidUrl] rejects, each of the seven
    builders returns, without throwing, not a media block but the paragraph
    that [paragraph] builds from the message [[Image invalide: <url>]] (with
    its own label): the visible text is what the formatter makes of the
    message.  When the URL has none of the characters [*], [`], [~] and [(]
    and at most 1979 characters, the visible text contains the URL. *)
Theorem media_degrade_to_paragraph (url : jsstring) (name caption : option jsstring) :
  isValidUrl url = false ->
  (image url caption = formatted (js "[Image invalide: " ++ url ++ js "]")
   /\ video url caption = formatted (js "[Vidéo invalide: " ++ url ++ js "]")
   /\ audio url caption = formatted (js "[Audio invalide: " ++ url ++ js "]")
   /\ pdf url caption = formatted (js "[PDF invalide: " ++ url ++ js "]")
   /\ file url name caption = formatted (js "[Fichier invalide: " ++ url ++ js "]")
   /\ embed url = formatted (js "[Embed invalide: " ++ url ++ js "]")
   /\ bookmark url caption = formatted (js "[Bookmark invalide: " ++ url ++ js "]"))
  /\ (noMarkup url = true -> (length url <= 1979)%nat ->
      names url (image url caption)
      /\ names url (video url caption)
      /\ names url (audio url caption)
      /\ names url (pdf url caption)
      /\ names url (file url name caption)
      /\ names url (embed url)
      /\ names url (bookmark url caption)).
Proof.
  intros H.
  assert (Himage : image url caption = formatted (js "[Image invalide: " ++ url ++ js "]")).
  { unfold image. rewrite (rejected url _ _ H).
    message (js "[Image invalide: ") (js "Image invalide: ") url. apply paragraph_message. }
  assert (Hvideo : video url caption = formatted (js "[Vidéo invalide: " ++ url ++ js "]")).
  { unfold video. rewrite (rejected url _ _ H).
    message (js "[Vidéo invalide: ") (js "Vidéo invalide: ") url. apply paragraph_message. }
  assert (Haudio : audio url caption = formatted (js "[Audio invalide: " ++ url ++ js "]")).
  { unfold audio. rewrite (rejected url _ _ H).
    message (js "[Audio invalide: ") (js "Audio invalide: ") url. apply paragraph_message. }
  assert (Hpdf : pdf url caption = formatted (js "[PDF invalide: " ++ url ++ js "]")).
  { unfold pdf. rewrite (rejected url _ _ H).
    message (js "[PDF invalide: ") (js "PDF invalide: ") url. apply paragraph_message. }
  assert (Hfile : file url name caption
                  = formatted (js "[Fichier invalide: " ++ url ++ js "]")).
  { unfold file. rewrite (rejected url _ _ H).
    message (js "[Fichier invalide: ") (js "Fichier invalide: ") url. apply paragraph_message. }
  assert (Hembed : embed url = formatted (js "[Embed invalide: " ++ url ++ js "]")).
  { unfold embed. rewrite (rejected url _ _ H).
    message (js "[Embed invalide: ") (js "Embed invalide: ") url. apply paragraph_message. }
  assert (Hbookmark : bookmark url caption
                      = formatted (js "[Bookmark invalide: " ++ url ++ js "]")).
  { unfold bookmark. rewrite (rejected url _ _ H).
    message (js "[Bookmark invalide: ") (js "Bookmark invalide: ") url. apply paragraph_message. }
  split; [repeat split; assumption|].
  intros Hu Hlen.
  rewrite Himage, Hvideo, Haudio, Hpdf, Hfile, Hembed, Hbookmark.
  message (js "[Image invalide: ") (js "Image invalide: ") url.
  message (js "[Vidéo invalide: ") (js "Vidéo invalide: ") url.
  message (js "[Audio invalide: ") (js "Audio invalide: ") url.
  message (js "[PDF invalide: ") (js "PDF invalide: ") url.
  message (js "[Fichier invalide: ") (js "Fichier invalide: ") url.
  message (js "[Embed invalide: ") (js "Embed invalide: ") url.
  message (js "[Bookmark invalide: ") (js "Bookmark invalide: ") url.
  repeat split; apply message_names; try assumption; try reflexivity;
    match goal with
    | |- (length (js ?l) + _ + 2 <= 2000)%nat =>
      let n := eval vm_compute in (length (js l)) in
      change (length (js l)) with n; lia
    end.
Qed.

End MediaFacts.

Lemma media_degrade_to_paragraph_witness :
  @isValidUrl Whatwg.platform (js "ftp://x") = false
  /\ @image Whatwg.platform (js "ftp://x") None
     = Some (Paragraph [plainRun (js "[Image invalide: ftp://x]")] (js "default") None)
  /\ names (js "ftp://x") (@image Whatwg.platform (js "ftp://x") None).
Proof.
  assert (H : @isValidUrl Whatwg.platform (js "ftp://x") = false) by reflexivity.
  pose proof (@media_degrade_to_paragraph Whatwg.platform (js "ftp://x") None None H)
    as [_ N].
  split; [exact H|]. split; [reflexivity|].
  apply N; [reflexivity | vm_compute; lia].
Defined.

(** C6, as stated, fails: the message goes through the formatter, and for
    the rejected URL [a](b)] the formatter reads the message as a link. The
    visible text is [Image invalide: a] followed by a closing bracket; it
    does not contain the URL. *)
Lemma image_invalid_url_read_as_link :
  @isValidUrl Whatwg.platform (js "a](b)") = false
  /\ @image Whatwg.platform (js "a](b)") None
     = Some (Paragraph
               [ RichText.mk (js "Image invalide: a") (Some (js "b"))
                   (Annotations.mk false false false false false (js "default"));
                 plainRun (js "]") ]
               (js "default") None)
  /\ option_map (fun b => includes (js "a](b)") (visibleText b))
                (@image Whatwg.platform (js "a](b)") None) = Some false.
Proof. repeat split; vm_compute; reflexivity. Qed.

(** ** The course compiler: unknown types *)

Section CompilerFacts.
Context {platform : Platform}.

Lemma buildCourseBlock_default (item : CourseContent) :
  caseOf (type item) = None ->
  buildCourseBlock item
  = ofOption (paragraph (Str (orStr (text item) (unknownMessage (type item)))) Opts.none).
Proof.
  intros H. destruct item. cbn [type] in H.
  cbn [buildCourseBlock type text]. rewrite H. reflexivity.
Qed.

(** C4, amended. For an item whose type is none of the case labels and
    whose text is absent or empty, [buildCourseBlock] returns one block, the
    paragraph that [paragraph] builds from [[Type non reconnu: <type>]];
    when the type name has none of the characters [*], [`], [~] and [(] and
    at most 1980 characters, the paragraph is one plain run with that
    message, and its visible text contains the type name. *)
Theorem buildCourseBlock_unknown_type (item : CourseContent) :
  caseOf (type item) = None ->
  truthyStr (text item) = None ->
  buildCourseBlock item
  = One (Paragraph (parseFormattedText (unknownMessage (type item))) (js "default") None)
  /\ (noMarkup (type item) = true -> (length (type item) <= 1980)%nat ->
      buildCourseBlock item
      = One (Paragraph [plainRun (unknownMessage (type item))] (js "default") None)
      /\ includes (type item)
           (visibleText (Paragraph [plainRun (unknownMessage (type item))]
                                   (js "default") None)) = true).
Proof.
  intros Hcase Htext.
  rewrite (buildCourseBlock_default item Hcase).
  assert (Hor : orStr (text item) (unknownMessage (type item))
                = unknownMessage (type item)).
  { unfold truthyStr in Htext. unfold orStr.
    destruct (text item) as [[|c s]|]; [reflexivity | discriminate | reflexivity]. }
  rewrite Hor.
  assert (Hb : unknownMessage (type item)
               = js "[" ++ (js "Type non reconnu: " ++ type item) ++ js "]").
  { unfold unknownMessage. rewrite <- app_assoc. reflexivity. }
  split.
  - assert (Ht : trim (unknownMessage (type item)) = unknownMessage (type item)).
    { rewrite Hb. apply (trim_bracketed 91%N 93%N); reflexivity. }
    rewrite paragraph_of_string; rewrite Ht; [reflexivity|].
    rewrite Hb. discriminate.
  - intros Hm Hl. split.
    + rewrite Hb. rewrite paragraph_bracketed; [reflexivity | |].
      * rewrite noMarkup_app, Hm. reflexivity.
      * rewrite length_app. change (length (js "Type non reconnu: ")) with 18%nat. lia.
    + unfold visibleText. cbn [runsOf map concat RichText.content plainRun].
      rewrite app_nil_r. unfold unknownMessage. apply includes_app.
Qed.

End CompilerFacts.

Lemma buildCourseBlock_unknown_type_witness :
  caseOf (type (item "foobar" None)) = None
  /\ truthyStr (text (item "foobar" None)) = None
  /\ @buildCourseBlock Whatwg.platform (item "foobar" None)
     = One (Paragraph [plainRun (js "[Type non reconnu: foobar]")] (js "default") None).
Proof.
  assert (Hc : caseOf (type (item "foobar" None)) = None) by reflexivity.
  assert (Ht : truthyStr (text (item "foobar" None)) = None) by reflexivity.
  split; [exact Hc|]. split; [exact Ht|].
  refine (proj1 (proj2 (@buildCourseBlock_unknown_type Whatwg.platform
                          (item "foobar" None) Hc Ht) _ _));
    [reflexivity | vm_compute; lia].
Defined.

(** C4, as stated, fails on the item of the specification itself: the text
    of the item, when there is one, is used instead of the placeholder, and
    the paragraph for [{ type: "foobar", text: "hi" }] reads [hi]; a text
    of whitespace gives no block at all. *)
Lemma unknown_type_with_text_shows_text :
  caseOf (js "foobar") = None
  /\ @buildCourseBlock Whatwg.platform (item "foobar" (Some "hi"%string))
     = One (Paragraph [plainRun (js "hi")] (js "default") None)
  /\ includes (js "foobar")
       (visibleText (Paragraph [plainRun (js "hi")] (js "default") None)) = false
  /\ @buildCourseBlock Whatwg.platform (item "foobar" (Some " "%string)) = Null.
Proof. repeat split; vm_compute; reflexivity. Qed.

(** ** Templates: the quiz *)

Section QuizFacts.

Lemma mapi_length {A B : Type} (f : A -> nat -> B) (l : list A) (i : nat) :
  length (mapi f l i) = length l.
Proof. revert i. induction l as [|x l IH]; intros i; simpl; [reflexivity|]. now rewrite IH. Qed.


End QuizFacts.


(** The example of the specification: the answer names [A) a]. *)
Example quickQuiz_out_of_range_example :
  exists title bullets,
    quickQuiz (js "Q") [js "a"; js "b"; js "c"] 5
    = Some (Callout title (js "🧠") (js "purple_background")
              (Some (bullets
                     ++ [Toggle [plainRun (js "Voir la réponse")] (js "default")
                           [Callout [plainRun (js "La bonne réponse est A) a")]
                                    (js "✅") (js "green_background") None]])))
    /\ map visibleText bullets = [js "A) a"; js "B) b"; js "C) c"].
Proof.
  exists [boldRun (js "Quiz:"); plainRun (js "Q")].
  exists (map (fun s => BulletedListItem [plainRun (js s)] (js "default") None)
              ["A) a"; "B) b"; "C) c"]%string).
  split; vm_compute; reflexivity.
Qed.

(** ** Trimming *)

Section TrimFacts.

Lemma trimStart_idem (s : jsstring) : trimStart (trimStart s) = trimStart s.
Proof.
  induction s as [|c s IH]; [reflexivity|]. simpl.
  destruct (isWhiteSpace c) eqn:E; [exact IH|]. simpl. now rewrite E.
Qed.

Lemma trimStart_app_l (a b : jsstring) :
  trimStart (a ++ b)
  = match trimStart a with
    | [] => trimStart b
    | _ => trimStart a ++ b
    end.
Proof.
  induction a as [|c a IH]; [reflexivity|]. simpl.
  destruct (isWhiteSpace c); [exact IH | reflexivity].
Qed.

Lemma trimEnd_cons (c : char16) (s : jsstring) :
  trimEnd (c :: s)
  = match trimEnd s with
    | [] => if isWhiteSpace c then [] else [c]
    | _ => c :: trimEnd s
    end.
Proof.
  unfold trimEnd. simpl rev. rewrite trimStart_app_l.
  destruct (trimStart (rev s)) as [|x t] eqn:E.
  - simpl. destruct (isWhiteSpace c); reflexivity.
  - rewrite rev_app_distr. simpl rev at 1. cbn [app].
    destruct (rev (x :: t)) eqn:R; [|reflexivity].
    apply (f_equal (@length _)) in R. rewrite length_rev in R. discriminate.
Qed.

Lemma trimEnd_idem (s : jsstring) : trimEnd (trimEnd s) = trimEnd s.
Proof. unfold trimEnd. now rewrite rev_involutive, trimStart_idem. Qed.

Lemma trimStart_trimEnd (s : jsstring) : trimStart (trimEnd s) = trimEnd (trimStart s).
Proof.
  induction s as [|c s IH]; [reflexivity|].
  rewrite trimEnd_cons. cbn [trimStart].
  destruct (isWhiteSpace c) eqn:E.
  - rewrite <- IH. destruct (trimEnd s) as [|x t]; [reflexivity|].
    cbn [trimStart]. now rewrite E.
  - rewrite trimEnd_cons.
    destruct (trimEnd s) as [|x t]; cbn [trimStart]; now rewrite E.
Qed.

Lemma trim_idem (s : jsstring) : trim (trim s) = trim s.
Proof.
  unfold trim. now rewrite trimStart_trimEnd, trimStart_idem, trimEnd_idem.
Qed.

Lemma trim_inner (s : jsstring) : trim (trimStart (trimEnd s)) = trim s.
Proof.
  unfold trim. now rewrite trimStart_idem, trimStart_trimEnd, trimEnd_idem.
Qed.

(** [richText] reads its argument through [trim]. *)
Lemma richText_trim (a b : jsstring) (options : Options.t) :
  trim a = trim b -> richText a options = richText b options.
Proof. intros H. unfold richText. now rewrite H. Qed.

End TrimFacts.

(** ** Templates: the exercise *)

Section ExerciceFacts.

Import Regex.

Lemma startsWith_other (e0 c : char16) (e s : jsstring) :
  e0 <> c -> startsWith (e0 :: e) (c :: s) = false.
Proof. intros H. simpl. apply N.eqb_neq in H. now rewrite H. Qed.

(** A text that starts with a character below U+2000 starts with none of
    the icons. *)
Lemma cleanLeadingEmoji_letter (text s : jsstring) (c : char16) :
  trim text = c :: s -> (c < 0x2000)%N -> cleanLeadingEmoji text = c :: s.
Proof.
  intros Ht Hc. unfold cleanLeadingEmoji. rewrite Ht.
  assert (Hicons : forallb (fun e => match e with
                                     | e0 :: _ => (0x2000 <=? e0)%N
                                     | [] => false
                                     end) TEMPLATE_EMOJIS = true)
    by (vm_compute; reflexivity).
  revert Hicons. generalize TEMPLATE_EMOJIS as l.
  induction l as [|e l IH]; [reflexivity|].
  cbn [forallb fold_left]. intros H. apply andb_prop in H. destruct H as [He Hl].
  destruct e as [|e0 e]; [discriminate|].
  apply N.leb_le in He.
  rewrite startsWith_other by lia. exact (IH Hl).
Qed.

Lemma matchHere_litsI (pat : jsstring) (re : regex) :
  forall s rest : jsstring,
    map canonicalize s = map canonicalize pat ->
    matchHere (map LitI pat ++ re) (s ++ rest) = matchHere re rest.
Proof.
  induction pat as [|p pat IH]; intros s rest H.
  - destruct s; [reflexivity | discriminate].
  - destruct s as [|x s]; [discriminate|].
    injection H as Hx Hs. cbn [map app matchHere].
    rewrite Hx, N.eqb_refl. exact (IH s rest Hs).
Qed.

(** After the word, [\s*:\s*] on a colon takes the colon and the
    whitespace behind it. *)
Lemma colon_match (rest : jsstring) :
  matchHere [whitespace; Lit 58%N; whitespace] (58%N :: rest)
  = Some ([], trimStart rest).
Proof.
  unfold whitespace.
  change (matchHere [Star isWhiteSpace; Lit 58%N; Star isWhiteSpace] (58%N :: rest))
    with (star isWhiteSpace (matchHere [Lit 58%N; Star isWhiteSpace]) (58%N :: rest)).
  rewrite star_whitespace_visible by reflexivity.
  change (matchHere [Lit 58%N; Star isWhiteSpace] (58%N :: rest))
    with (star isWhiteSpace (matchHere []) rest).
  apply star_whitespace_end.
Qed.

Lemma canonicalize_E (c : char16) :
  canonicalize c = 69%N -> c = 69%N \/ c = 101%N.
Proof.
  unfold canonicalize.
  destruct (N.leb_spec 0x61 c), (N.leb_spec c 0x7A), (N.leb_spec 0xE0 c),
           (N.leb_spec c 0xFE), (N.eqb_spec c 0xF7); cbn [andb orb negb]; lia.
Qed.

(** The title of an exercise that starts with the word [Exercice], in any
    letter case, and a colon: what is left of it. *)
Lemma exercice_cleanTitle (prefix rest : jsstring) :
  map canonicalize prefix = js "EXERCICE" ->
  trim (removeAnchored exercicePrefix (cleanLeadingEmoji (prefix ++ js ":" ++ rest)))
  = trim rest.
Proof.
  intros Hp.
  destruct prefix as [|p0 prefix]; [discriminate|].
  assert (H0 : p0 = 69%N \/ p0 = 101%N).
  { apply canonicalize_E. now injection Hp. }
  assert (Hv : isWhiteSpace p0 = false) by (destruct H0 as [->| ->]; reflexivity).
  assert (Ht : trim ((p0 :: prefix) ++ js ":" ++ rest)
               = p0 :: prefix ++ 58%N :: trimEnd rest).
  { unfold trim. change ((p0 :: prefix) ++ js ":" ++ rest)
      with (p0 :: prefix ++ 58%N :: rest).
    rewrite (trimStart_cons p0 _ Hv).
    change (p0 :: prefix ++ 58%N :: rest) with ((p0 :: prefix) ++ 58%N :: rest).
    rewrite trimEnd_app by reflexivity. reflexivity. }
  rewrite (cleanLeadingEmoji_letter _ _ _ Ht) by (destruct H0 as [->| ->]; reflexivity).
  unfold removeAnchored, exercicePrefix, litsI.
  change (p0 :: prefix ++ 58%N :: trimEnd rest)
    with ((p0 :: prefix) ++ 58%N :: trimEnd rest).
  rewrite matchHere_litsI by (rewrite Hp; reflexivity).
  rewrite colon_match. apply trim_inner.
Qed.

(** C7, amended. The word that [exercice] removes from the title is the
    French [Exercice] (in any letter case) with its colon: for such a title
    the callout reads [Exercice:] in bold followed by the rest of the
    title.  When a solution is given and is not empty, the last child of
    the callout is the toggle [💡 Voir la solution] that holds the code block of the
    trimmed solution. *)
Theorem exercice_strips_exercice_prefix
        (prefix rest : jsstring) (instructions : list jsstring)
        (solution : option jsstring) :
  map canonicalize prefix = js "EXERCICE" ->
  exists children,
    exercice (prefix ++ js ":" ++ rest) instructions solution
    = callout (Rich [richText (js "Exercice: ") Options.withBold; plain rest])
              (Opts.mk (Some (js "✏️")) (Some (js "orange_background")) false
                       (Some children) None)
    /\ forall s, truthyStr solution = Some s ->
                exists items,
                  children
                  = items ++ [toggle (Str (js "💡 Voir la solution"))
                                     [BlockBuilders.code (trim s) (js "plain text") None]
                                     (Opts.ofColor "green_background")].
Proof.
  intros Hp. unfold exercice.
  rewrite (exercice_cleanTitle prefix rest Hp).
  eexists. split.
  - unfold plain. rewrite (richText_trim (trim rest) rest) by apply trim_idem.
    reflexivity.
  - intros s Hs. rewrite Hs. eexists. reflexivity.
Qed.

End ExerciceFacts.

Lemma exercice_strips_exercice_prefix_witness :
  map Regex.canonicalize (js "exercice") = js "EXERCICE"
  /\ exists children,
      exercice (js "exercice" ++ js ":" ++ js " Add") [js "one"] (Some (js "x"))
      = callout (Rich [richText (js "Exercice: ") Options.withBold; plain (js " Add")])
                (Opts.mk (Some (js "✏️")) (Some (js "orange_background")) false
                         (Some children) None).
Proof.
  assert (H : map Regex.canonicalize (js "exercice") = js "EXERCICE") by reflexivity.
  split; [exact H|].
  destruct (exercice_strips_exercice_prefix (js "exercice") (js " Add") [js "one"]
              (Some (js "x")) H) as (children & E & _).
  exists children. exact E.
Defined.

(** C7, as stated, fails: the English [Exercise:] is not the word that the
    pattern removes, and the title run keeps it. *)
Lemma exercice_keeps_english_prefix :
  map RichText.content
      (runsOf (exercice (js "Exercise: Add") [js "Write add"]
                        (Some (js "function add(a,b){...}"))))
  = [js "Exercice:"; js "Exercise: Add"]
  /\ startsWith (js "Exercise:") (js "Exercise: Add") = true.
Proof. split; vm_compute; reflexivity. Qed.

(** ** Validation: when it returns and when it throws *)

Module ValidationFacts.

Import Validation.

Lemma forEach_returns {A St : Type} (f : St -> A -> nat -> Outcome St) (ok : A -> bool) :
  (forall st x i, ok x = true -> returns (f st x i)) ->
  (forall st x i, ok x = false -> ~ returns (f st x i)) ->
  forall (l : list A) (i : nat) (st : St),
    forallb ok l = true <-> returns (forEach f l i st).
Proof.
  intros Hok Hbad. induction l as [|x l IH]; intros i st.
  - split; [intros _; now exists st | reflexivity].
  - cbn [forallb forEach]. destruct (ok x) eqn:E.
    + destruct (Hok st x i E) as [st' Hst']. rewrite Hst'. cbn [bind andb]. apply IH.
    + specialize (Hbad st x i E). split; [discriminate|].
      intros [a Ha]. exfalso. apply Hbad.
      destruct (f st x i) as [st'| |]; [now exists st' | discriminate | discriminate].
Qed.

Lemma forEachOpt_returns {A St : Type} (f : St -> A -> nat -> Outcome St) (ok : A -> bool) :
  (forall st x i, ok x = true -> returns (f st x i)) ->
  (forall st x i, ok x = false -> ~ returns (f st x i)) ->
  forall (l : option (list A)) (st : St),
    allOk ok l = true <-> returns (forEachOpt f l st).
Proof.
  intros Hok Hbad [l|] st; cbn [allOk forEachOpt].
  - now apply forEach_returns.
  - split; [intros _; now exists st | reflexivity].
Qed.

Section Returns.
Context {platform : Platform}.

Lemma checkItem_returns (idx : nat) (st : State) (item : Any Item) (i : nat) :
  present item = true -> returns (checkItem idx st item i).
Proof.
  destruct item; [discriminate | |]; intros _; unfold checkItem, deref, bind;
    eexists; reflexivity.
Qed.

Lemma checkItem_throws (idx : nat) (st : State) (item : Any Item) (i : nat) :
  present item = false -> ~ returns (checkItem idx st item i).
Proof.
  destruct item; [|discriminate|discriminate]. intros _ [a Ha]. discriminate Ha.
Qed.

Lemma checkSection_returns (st : State) (section : Any Section_) (idx : nat) :
  sectionReadable section = true <-> returns (checkSection st section idx).
Proof.
  destruct section as [| |s]; unfold checkSection, deref, bind.
  - split; [discriminate | intros [a Ha]; discriminate Ha].
  - cbn [sectionReadable content forEachOpt]. split; [|reflexivity].
    intros _. eexists. reflexivity.
  - cbn [sectionReadable].
    apply (forEachOpt_returns (checkItem idx) present).
    + intros. now apply checkItem_returns.
    + intros. now apply checkItem_throws.
Qed.

Lemma validateCourse_returns (course : Any Course) :
  courseReadable course = true <-> returns (validateCourse course).
Proof.
  assert (G : forall (l : option (list (Any Section_))) st,
             allOk sectionReadable l = true
             <-> returns (forEachOpt checkSection l st)).
  { apply (forEachOpt_returns checkSection sectionReadable).
    - intros st x i H. now apply checkSection_returns.
    - intros st x i H R. apply checkSection_returns in R. congruence. }
  destruct course as [| |c]; unfold validateCourse, deref; cbn [bind].
  - split; [discriminate | intros [a Ha]; discriminate Ha].
  - cbn [courseReadable sections forEachOpt bind]. split; [|reflexivity].
    intros _. eexists. reflexivity.
  - cbn [courseReadable]. rewrite G. split.
    + intros [st' Hst']. rewrite Hst'. cbn [bind]. eexists. reflexivity.
    + intros [r Hr].
      match type of Hr with
      | bind ?m _ = _ => destruct m as [st'| |]; [now exists st' | discriminate | discriminate]
      end.
Qed.

End Returns.

Lemma generateRecommendations_returns (stats : Any Stats) :
  statsReadable stats = true
  <-> exists l, generateRecommendations stats = Returned l /\ l <> [].
Proof.
  destruct stats as [| |s]; unfold generateRecommendations, deref; cbn [bind blockTypes].
  - split; [discriminate | intros (l & Hl & _); discriminate Hl].
  - split; [discriminate | intros (l & Hl & _); discriminate Hl].
  - cbn [statsReadable]. destruct (blockTypes s) as [types|].
    + split; [|reflexivity]. intros _. eexists. split; [reflexivity|].
      match goal with |- match ?x with _ => _ end <> _ => destruct x end; discriminate.
    + split; [discriminate | intros (l & Hl & _); discriminate Hl].
Qed.

End ValidationFacts.

Import Validation ValidationFacts.

(** C8, as stated, fails: reading a property of [null] throws.  A course
    with a [null] section, a section with a [null] item and a [null] course
    make [validateCourse] throw; statistics without [blockTypes] make
    [generateRecommendations] throw. *)
Lemma validateCourse_throws_on_null :
  @validateCourse Whatwg.platform
     (Object (mkCourse (Some (js "Course")) (Some [Nullish])))
  = Thrown typeError
  /\ @validateCourse Whatwg.platform
       (Object (mkCourse (Some (js "Course"))
                  (Some [Object (mkSection (Some (js "One")) (Some [Nullish]))])))
     = Thrown typeError
  /\ @validateCourse Whatwg.platform Nullish = Thrown typeError
  /\ generateRecommendations (Object (mkStats (Some 0%N) (Some 0%N) None))
     = Thrown typeError.
Proof. repeat split. Qed.

(** C8, amended. [validateCourse] returns a result exactly when the course,
    each of its sections and each of their items is neither [null] nor
    [undefined]; on a course without any field it returns the two errors of
    the missing title and the missing sections.  [generateRecommendations]
    returns a list, never empty, exactly when the statistics are an object
    with its [blockTypes]; absent counts read as zero. *)
Theorem validation_returns_unless_null
        {platform : Platform} (course : Any Course) (stats : Any Stats) :
  (courseReadable course = true <-> exists r, validateCourse course = Returned r)
  /\ (statsReadable stats = true
      <-> exists l, generateRecommendations stats = Returned l /\ l <> [])
  /\ validateCourse (Object (mkCourse None None))
     = Returned (mkResult false [js "Titre manquant"; js "Au moins une section requise"] [])
  /\ validateCourse Primitive = validateCourse (Object (mkCourse None None))
  /\ generateRecommendations (Object (mkStats None None (Some [])))
     = generateRecommendations (Object (mkStats (Some 0%N) (Some 0%N) (Some []))).
Proof.
  split; [apply validateCourse_returns|].
  split; [apply generateRecommendations_returns|].
  repeat split.
Qed.

Lemma validation_returns_unless_null_witness :
  courseReadable
    (Object (mkCourse (Some (js "Course"))
               (Some [Object (mkSection None (Some [Primitive; Object (mkItem None None None None None)]))])))
  = true
  /\ exists r,
      @validateCourse Whatwg.platform
        (Object (mkCourse (Some (js "Course"))
                   (Some [Object (mkSection None
                                    (Some [Primitive; Object (mkItem None None None None None)]))])))
      = Returned r.
Proof.
  split; [reflexivity|].
  apply (proj1 (@validation_returns_unless_null Whatwg.platform _ Nullish)).
  reflexivity.
Defined.

(** ** The page materializer *)

Module NotionFacts.

Import NotionAPI.

Section Chunks.
Variable T : Type.

Lemma firstn_plus (i n : nat) (l : list T) :
  firstn (i + n) l = firstn i l ++ firstn n (skipn i l).
Proof.
  revert l. induction i as [|i IH]; intros l; [reflexivity|].
  destruct l as [|x l]; cbn [Nat.add firstn skipn app].
  - now rewrite firstn_nil.
  - now rewrite IH.
Qed.

Lemma chunkLoop_total (array : list T) (size : nat) :
  (0 < size)%nat ->
  forall (fuel i : nat) (chunks : list (list T)),
    (length array - i < fuel)%nat ->
    concat chunks = firstn i array ->
    Forall (batch size) chunks ->
    exists result,
      chunkLoop fuel array size i chunks = Some result
      /\ concat result = array
      /\ Forall (batch size) result.
Proof.
  intros Hsize. induction fuel as [|fuel IH]; intros i chunks Hfuel Hcat Hall; [lia|].
  cbn [chunkLoop]. destruct (Nat.ltb_spec i (length array)) as [Hi|Hi].
  - apply IH.
    + lia.
    + rewrite concat_app, Hcat. cbn [concat]. rewrite app_nil_r.
      unfold slice. replace (i + size - i)%nat with size by lia.
      symmetry. apply firstn_plus.
    + apply Forall_app. split; [exact Hall|]. constructor; [|constructor].
      unfold batch, slice. replace (i + size - i)%nat with size by lia.
      rewrite length_firstn, length_skipn. lia.
  - exists chunks. split; [reflexivity|]. split; [|exact Hall].
    rewrite Hcat. now apply firstn_all2.
Qed.

Lemma chunkArray_partition (array : list T) (size : nat) :
  (0 < size)%nat ->
  exists chunks,
    chunkArray array size = Some chunks
    /\ concat chunks = array
    /\ Forall (batch size) chunks.
Proof.
  intros Hsize. unfold chunkArray.
  apply chunkLoop_total; [exact Hsize | lia | reflexivity | constructor].
Qed.

End Chunks.

Section Calls.
Variable service : Trace -> Append -> option jsstring.

Lemma forOf_all_accepted (pageId : jsstring) (chunks : list (list Block)) :
  (forall tr call, service tr call = None) ->
  forall tr : Trace,
    forOf chunks (fun chunk => append service (mkAppend pageId chunk)) tr
    = (Returned tt, tr ++ map (mkAppend pageId) chunks).
Proof.
  intros Hok. induction chunks as [|c chunks IH]; intros tr.
  - cbn [forOf map]. unfold ret. now rewrite app_nil_r.
  - cbn [forOf map]. unfold bind, append. rewrite Hok.
    rewrite IH. now rewrite <- app_assoc.
Qed.

(** Whatever the service answers, the calls issued are the first batches,
    in order. *)
Lemma forOf_prefix (pageId : jsstring) (chunks : list (list Block)) :
  forall tr : Trace,
  exists k,
    snd (forOf chunks (fun chunk => append service (mkAppend pageId chunk)) tr)
    = tr ++ map (mkAppend pageId) (firstn k chunks).
Proof.
  induction chunks as [|c chunks IH]; intros tr.
  - exists 0%nat. cbn. now rewrite app_nil_r.
  - cbn [forOf]. unfold bind, append.
    destruct (service tr (mkAppend pageId c)) as [e|].
    + exists 1%nat. reflexivity.
    + destruct (IH (tr ++ [mkAppend pageId c])) as [k Hk].
      exists (S k). unfold bind, append in Hk. rewrite Hk.
      cbn [firstn map]. now rewrite <- app_assoc.
Qed.

End Calls.

End NotionFacts.

Import NotionAPI NotionFacts.

(** C9. With a client and a service that accepts the calls, [appendBlocks]
    cuts the blocks into consecutive batches of 1 to 100 blocks whose
    concatenation is the list, and issues one call per batch, on the same
    page, in that order; for no block it issues no call.  The loop of
    [chunkArray] ends. *)
Theorem appendBlocks_batches
        (service : Trace -> Append -> option jsstring) (this : NotionAPI)
        (token pageId : jsstring) (blocks : list Block) (tr : Trace) :
  client this = Some token ->
  (forall tr call, service tr call = None) ->
  exists chunks,
    chunkArray blocks 100 = Some chunks
    /\ concat chunks = blocks
    /\ Forall (fun chunk => (1 <= length chunk <= 100)%nat) chunks
    /\ appendBlocks service this pageId blocks tr
       = (Returned tt, tr ++ map (mkAppend pageId) chunks)
    /\ (blocks = [] -> chunks = []).
Proof.
  intros Hclient Hok.
  destruct (chunkArray_partition Block blocks 100 ltac:(lia)) as (chunks & E & Hcat & Hall).
  exists chunks. split; [exact E|]. split; [exact Hcat|]. split; [exact Hall|]. split.
  - unfold appendBlocks. rewrite Hclient, E. now apply forOf_all_accepted.
  - intros ->. destruct chunks as [|c chunks]; [reflexivity|].
    inversion Hall as [|? ? Hc _]. subst. unfold batch in Hc.
    apply (f_equal (@length _)) in Hcat. cbn [concat] in Hcat.
    rewrite length_app in Hcat. cbn [length] in Hcat. lia.
Qed.

Lemma appendBlocks_batches_witness :
  client (mkNotionAPI (Some (js "ntn_token"))) = Some (js "ntn_token")
  /\ exists chunks,
      chunkArray (repeat Divider 250) 100 = Some chunks
      /\ map (@length Block) chunks = [100; 100; 50]%nat
      /\ appendBlocks (fun _ _ => None) (mkNotionAPI (Some (js "ntn_token")))
                      (js "page") (repeat Divider 250) []
         = (Returned tt, map (mkAppend (js "page")) chunks).
Proof.
  split; [reflexivity|].
  destruct (appendBlocks_batches (fun _ _ => None) (mkNotionAPI (Some (js "ntn_token")))
              (js "ntn_token") (js "page") (repeat Divider 250) []
              eq_refl (fun _ _ => eq_refl))
    as (chunks & E & _ & _ & Hcalls & _).
  exists chunks. split; [exact E|]. split; [|exact Hcalls].
  vm_compute in E. injection E as <-. reflexivity.
Defined.

(** ** The parent of a new course *)

(** C10. A parent id of exactly 32 characters without a hyphen is taken as
    a database, and the title goes under [Name]; any other parent id is
    taken as a page, and the title goes under [title]. *)
Theorem courseParent_by_length (parentId title : jsstring) :
  (length parentId = 32%nat /\ ~ In 45%N parentId ->
   courseParent parentId = database_id parentId
   /\ courseProperties parentId title = [(js "Name", TitleProperty title)])
  /\ (~ (length parentId = 32%nat /\ ~ In 45%N parentId) ->
      courseParent parentId = page_id parentId
      /\ courseProperties parentId title = [(js "title", TitleProperty title)]).
Proof.
  assert (Hinc : includes (js "-") parentId = true <-> In 45%N parentId)
    by apply includes_char.
  unfold courseProperties, courseParent.
  destruct (Nat.eqb_spec (length parentId) 32) as [Hl|Hl];
    destruct (includes (js "-") parentId) eqn:Hi; cbn [andb negb].
  - split; [intros [_ Hn]; exfalso; apply Hn; now apply Hinc|].
    intros _. split; reflexivity.
  - split; [intros _; split; reflexivity|].
    intros Hn. exfalso. apply Hn. split; [exact Hl|].
    intros Hin. apply Hinc in Hin. discriminate.
  - split; [intros [Hl' _]; contradiction|]. intros _. split; reflexivity.
  - split; [intros [Hl' _]; contradiction|]. intros _. split; reflexivity.
Qed.

Lemma courseParent_by_length_witness :
  (length (js "0123456789abcdef0123456789abcdef") = 32%nat
   /\ ~ In 45%N (js "0123456789abcdef0123456789abcdef"))
  /\ courseParent (js "0123456789abcdef0123456789abcdef")
     = database_id (js "0123456789abcdef0123456789abcdef")
  /\ ~ (length (js "01234567-89ab-cdef-0123-456789abcdef") = 32%nat
        /\ ~ In 45%N (js "01234567-89ab-cdef-0123-456789abcdef"))
  /\ courseProperties (js "01234567-89ab-cdef-0123-456789abcdef") (js "T")
     = [(js "title", TitleProperty (js "T"))].
Proof.
  assert (H1 : length (js "0123456789abcdef0123456789abcdef") = 32%nat
               /\ ~ In 45%N (js "0123456789abcdef0123456789abcdef")).
  { split; [reflexivity|]. intros H. apply includes_char in H. discriminate H. }
  assert (H2 : ~ (length (js "01234567-89ab-cdef-0123-456789abcdef") = 32%nat
                  /\ ~ In 45%N (js "01234567-89ab-cdef-0123-456789abcdef"))).
  { intros [H _]. discriminate H. }
  split; [exact H1|]. split.
  - exact (proj1 (proj1 (courseParent_by_length _ (js "T")) H1)).
  - split; [exact H2|].
    exact (proj2 (proj2 (courseParent_by_length _ (js "T")) H2)).
Defined.

(** ** Further examples of the specification *)

(** Four consecutive paragraphs: the validator warns at the third and at the
    fourth, and the course stays valid. *)
Example validateCourse_four_paragraphs :
  let paragraph := Object (mkItem (Some (js "paragraph")) None None None (Some (js "text"))) in
  @validateCourse Whatwg.platform
    (Object (mkCourse (Some (js "Course"))
               (Some [Object (mkSection (Some (js "One"))
                                (Some [paragraph; paragraph; paragraph; paragraph]))])))
  = Returned
      (mkResult true []
         [ js "Section 1: 3 paragraphes consécutifs. Variez les types de blocs!";
           js "Section 1: 4 paragraphes consécutifs. Variez les types de blocs!" ]).
Proof. vm_compute. reflexivity. Qed.

(** A quiz whose index equals the number of options is an error. *)
Example validateCourse_quiz_index :
  @validateCourse Whatwg.platform
    (Object (mkCourse (Some (js "Course"))
               (Some [Object (mkSection (Some (js "One"))
                                (Some [Object (mkItem (Some (js "quiz"))
                                                 (Some [js "a"; js "b"]) (Some 2%Z)
                                                 None None)]))])))
  = Returned (mkResult false [js "Section 1: Quiz correctIndex invalide"] []).
Proof. vm_compute. reflexivity. Qed.

(** An unknown type without text: the placeholder names the type. *)
Example buildCourseBlock_foobar :
  @buildCourseBlock Whatwg.platform (item "foobar" None)
  = One (Paragraph [plainRun (js "[Type non reconnu: foobar]")] (js "default") None).
Proof. vm_compute. reflexivity. Qed.

(** The solution of an exercise is the last child of its callout. *)
Example exercice_solution_last :
  match exercice (js "Exercise: Add") [js "Write add"] (Some (js "function add(a,b){...}")) with
  | Callout _ _ _ (Some children) =>
    last children Divider
    = Toggle [plainRun (js "💡 Voir la solution")] (js "green_background")
             [Code [plainRun (js "function add(a,b){...}")] (js "plain text") []]
  | _ => False
  end.
Proof. vm_compute. reflexivity. Qed.

(** * Further properties of the code *)

Import Endpoints Observed.

(** ** Runs *)

Section RunFacts.

Lemma trimStart_nil (s : jsstring) :
  trimStart s = [] <-> forallb isWhiteSpace s = true.
Proof.
  split; [|apply trimStart_blank].
  induction s as [|c s IH]; [reflexivity|]. simpl.
  destruct (isWhiteSpace c); [exact IH | discriminate].
Qed.

Lemma trimStart_head (s r : jsstring) (c : char16) :
  trimStart s = c :: r -> isWhiteSpace c = false.
Proof.
  induction s as [|x s IH]; [discriminate|]. simpl.
  destruct (isWhiteSpace x) eqn:E; [exact IH|]. intros H. injection H as <- _. exact E.
Qed.

Lemma trim_head (s r : jsstring) (c : char16) :
  trim s = c :: r -> isWhiteSpace c = false.
Proof.
  unfold trim. rewrite <- trimStart_trimEnd. apply trimStart_head.
Qed.

Lemma trim_nil (s : jsstring) :
  trim s = [] <-> forallb isWhiteSpace s = true.
Proof.
  split; [|apply trim_blank].
  unfold trim. intros H. apply trimStart_nil.
  destruct (trimStart s) as [|c r] eqn:E; [reflexivity|].
  pose proof (trimStart_head s r c E) as Hc.
  change (c :: r) with ([] ++ c :: r) in H.
  rewrite (trimEnd_app [] r c Hc) in H. discriminate.
Qed.

(** A trimmed text cut at [n] characters and followed by the ellipsis is
    still trimmed. *)
Lemma trim_ellipsis (s : jsstring) (n : nat) :
  trim s <> [] -> (0 < n)%nat ->
  trim (substring0 n (trim s) ++ js "...") = substring0 n (trim s) ++ js "...".
Proof.
  intros Hs Hn. destruct (trim s) as [|c r] eqn:E; [contradiction|].
  pose proof (trim_head s r c E) as Hc.
  destruct n as [|n]; [lia|]. unfold substring0. cbn [firstn app].
  change (js "...") with ([46; 46]%N ++ [46%N]). rewrite app_assoc.
  apply (trim_bracketed c 46%N); [exact Hc | reflexivity].
Qed.

(** The content of a run is the single space, or a text without whitespace
    around it. *)
Lemma richText_shape (content : jsstring) (options : Options.t) :
  let c := RichText.content (richText content options) in
  c <> [] /\ (length c <= 2000)%nat /\ (c = js " " \/ trim c = c).
Proof.
  cbv zeta. rewrite richText_content. cbv zeta.
  destruct (Nat.ltb_spec 2000 (length (trim content))) as [Hl|Hl].
  - assert (Hne : trim content <> []) by (intros E; rewrite E in Hl; simpl in Hl; lia).
    pose proof (trim_ellipsis content 1997 Hne ltac:(lia)) as Ht.
    assert (Hlen : length (substring0 1997 (trim content) ++ js "...") = 2000%nat).
    { rewrite length_app. unfold substring0. rewrite firstn_length_le by lia. reflexivity. }
    destruct (substring0 1997 (trim content) ++ js "...") as [|x t] eqn:E;
      [discriminate Hlen|].
    split; [discriminate|]. split; [lia|]. right. exact Ht.
  - destruct (trim content) as [|x t] eqn:E.
    + split; [discriminate|]. split; [vm_compute; lia|]. now left.
    + split; [discriminate|]. split; [exact Hl|]. right.
      rewrite <- E. apply trim_idem.
Qed.

Lemma segmentStep_wellFormed (text : jsstring) (st : list RichText.t * nat) (t : Token) :
  Forall wellFormedRun (fst st) -> Forall wellFormedRun (fst (segmentStep text st t)).
Proof.
  destruct st as [segments lastEnd]. unfold segmentStep. cbn [fst]. intros H.
  destruct (tok_start t <? lastEnd)%nat; [exact H|]. cbn [fst].
  apply Forall_app. split.
  - destruct (lastEnd <? tok_start t)%nat; [|exact H].
    destruct (truthy (trim (slice lastEnd (tok_start t) text))); [|exact H].
    apply Forall_app. split; [exact H|]. constructor; [|constructor].
    apply richText_shape.
  - constructor; [|constructor]. apply richText_shape.
Qed.

(** X1. Whatever the text, the formatter returns at least one run, and
    every run has a content that is not empty, of at most 2000 characters,
    and either the single space or free of surrounding whitespace. *)
Theorem parseFormattedText_runs_well_formed (text : jsstring) :
  parseFormattedText text <> []
  /\ Forall (fun r => RichText.content r <> []
                      /\ (length (RichText.content r) <= 2000)%nat
                      /\ (RichText.content r = js " "
                          \/ trim (RichText.content r) = RichText.content r))
            (parseFormattedText text).
Proof.
  split; [apply parseFormattedText_nonempty|].
  change (Forall wellFormedRun (parseFormattedText text)).
  unfold parseFormattedText.
  destruct (sortTokens (findTokens text)) as [|t ts].
  - constructor; [apply richText_shape | constructor].
  - unfold buildSegments.
    assert (G : forall l st, Forall wellFormedRun (fst st) ->
                             Forall wellFormedRun (fst (fold_left (segmentStep text) l st))).
    { induction l as [|x l IH]; intros st Hst; [exact Hst|].
      cbn [fold_left]. apply IH. now apply segmentStep_wellFormed. }
    specialize (G (t :: ts) ([], 0%nat) (Forall_nil _)).
    destruct (fold_left (segmentStep text) (t :: ts) ([], 0%nat)) as [segments lastEnd].
    cbn [fst] in G.
    assert (G' : Forall wellFormedRun
                   (if (lastEnd <? length text)%nat
                    then if truthy (trim (sliceFrom lastEnd text))
                         then segments ++ [plain (sliceFrom lastEnd text)]
                         else segments
                    else segments)).
    { destruct (lastEnd <? length text)%nat; [|exact G].
      destruct (truthy (trim (sliceFrom lastEnd text))); [|exact G].
      apply Forall_app. split; [exact G|]. constructor; [|constructor].
      apply richText_shape. }
    cbv zeta.
    match goal with
    | |- Forall _ (match ?x with _ => _ end) => destruct x eqn:E
    end.
    + constructor; [apply richText_shape | constructor].
    + exact G'.
Qed.

End RunFacts.

(** ** Text builders on blank and on long content *)

Section BuilderFacts.

(** X2. [paragraph] on a string returns no block exactly when the string is
    empty or made of whitespace only; otherwise it returns a paragraph that
    has at least one run, with the colour and the children of the
    options. *)
Theorem paragraph_null_iff_blank (s : jsstring) (o : Opts.t) :
  (paragraph (Str s) o = None <-> forallb isWhiteSpace s = true)
  /\ (forallb isWhiteSpace s = false ->
      exists run runs,
        paragraph (Str s) o
        = Some (Paragraph (run :: runs) (orStr (Opts.color o) (js "default"))
                          (Opts.children o))).
Proof.
  assert (Hsome : trim s <> [] ->
                  exists run runs,
                    paragraph (Str s) o
                    = Some (Paragraph (run :: runs) (colorOf o) (Opts.children o))).
  { intros Hne. unfold paragraph, toRichTextArray.
    destruct (trim s) as [|c t] eqn:E; [contradiction|]. cbn [truthy negb].
    destruct (markdownOn o).
    - pose proof (parseFormattedText_nonempty (c :: t)) as Hp.
      destruct (parseFormattedText (c :: t)) as [|run runs]; [contradiction|].
      now exists run, runs.
    - now exists (plain (c :: t)), []. }
  split.
  - rewrite <- trim_nil. split.
    + intros Hnone. destruct (trim s) as [|c t] eqn:E; [reflexivity|].
      destruct Hsome as (run & runs & H); [discriminate|]. congruence.
    + intros E. unfold paragraph, toRichTextArray. now rewrite E.
  - intros Hvis. apply Hsome. intros E. apply trim_nil in E. congruence.
Qed.

Lemma paragraph_null_iff_blank_witness :
  forallb isWhiteSpace (js "hello") = false
  /\ exists run runs,
      paragraph (Str (js "hello")) Opts.none
      = Some (Paragraph (run :: runs) (js "default") None).
Proof.
  split; [reflexivity|].
  exact (proj2 (paragraph_null_iff_blank (js "hello") Opts.none) eq_refl).
Defined.

(** X3. The other text builders never drop a block: on a string that is
    empty or made of whitespace only, headings, callouts, quotes, list
    items, to-dos and toggles carry the single run whose content is one
    space. *)
Theorem text_builders_blank_fallback
        (s : jsstring) (o : Opts.t) (checked : bool) (children : list Block) :
  forallb isWhiteSpace s = true ->
  runsOf (heading1 (Str s) o) = [blankRun]
  /\ runsOf (heading2 (Str s) o) = [blankRun]
  /\ runsOf (heading3 (Str s) o) = [blankRun]
  /\ runsOf (callout (Str s) o) = [blankRun]
  /\ runsOf (quote (Str s) o) = [blankRun]
  /\ runsOf (bulletedListItem (Str s) o) = [blankRun]
  /\ runsOf (numberedListItem (Str s) o) = [blankRun]
  /\ runsOf (todo (Str s) checked o) = [blankRun]
  /\ runsOf (toggle (Str s) children o) = [blankRun].
Proof.
  intros H.
  assert (E : richOrBlank (Str s) o = [blankRun]).
  { unfold richOrBlank, toRichTextArray. now rewrite (trim_blank s H). }
  unfold heading1, heading2, heading3, callout, quote, bulletedListItem,
    numberedListItem, todo, toggle. cbn [runsOf]. rewrite E.
  repeat split.
Qed.

Lemma text_builders_blank_fallback_witness :
  forallb isWhiteSpace (js "  ") = true
  /\ runsOf (heading1 (Str (js "  ")) Opts.none) = [blankRun].
Proof.
  split; [reflexivity|].
  exact (proj1 (text_builders_blank_fallback (js "  ") Opts.none false [] eq_refl)).
Defined.

Lemma firstn_firstn_le {A : Type} (n m : nat) (l : list A) :
  (n <= m)%nat -> firstn n (firstn m l) = firstn n l.
Proof.
  revert m l. induction n as [|n IH]; intros m l H; [reflexivity|].
  destruct m as [|m]; [lia|]. destruct l as [|x l]; [reflexivity|].
  cbn [firstn]. f_equal. apply IH. lia.
Qed.

Lemma leb_true_le (n m : nat) : (n <=? m)%nat = true -> (n <= m)%nat.
Proof. apply Nat.leb_le. Qed.

(** A long trimmed text cut somewhere beyond 1997 characters and followed
    by a marker gives the same run as the text itself. *)
Lemma richText_cut_marker (t marker : jsstring) (d : char16) (cutAt : nat)
      (options : Options.t) :
  trim t = t -> isWhiteSpace d = false ->
  (1997 <= cutAt)%nat -> (cutAt <= length t)%nat -> (2000 < length t)%nat ->
  (2000 < cutAt + length (marker ++ [d]))%nat ->
  richText (substring0 cutAt t ++ marker ++ [d]) options = richText t options.
Proof.
  intros Ht Hd Hcut Hlen Hlong Hsum.
  destruct t as [|c r] eqn:Et; [cbn [length] in Hlong; lia|].
  assert (Hc : isWhiteSpace c = false) by (apply (trim_head (c :: r) r c); exact Ht).
  destruct cutAt as [|k]; [lia|].
  assert (Htrim : trim (substring0 (S k) (c :: r) ++ marker ++ [d])
                  = substring0 (S k) (c :: r) ++ marker ++ [d]).
  { unfold substring0. cbn [firstn app]. rewrite app_assoc.
    apply (trim_bracketed c d); assumption. }
  assert (Hk : length (substring0 (S k) (c :: r)) = S k)
    by (unfold substring0; now apply firstn_length_le).
  unfold richText. rewrite Htrim, Ht.
  assert (E1 : (2000 <? length (substring0 (S k) (c :: r) ++ marker ++ [d]))%nat = true).
  { apply Nat.ltb_lt. rewrite length_app, Hk. exact Hsum. }
  assert (E2 : (2000 <? length (c :: r))%nat = true) by now apply Nat.ltb_lt.
  rewrite E1, E2.
  assert (E3 : substring0 1997 (substring0 (S k) (c :: r) ++ marker ++ [d])
               = substring0 1997 (c :: r)).
  { unfold substring0 at 1. rewrite firstn_app, Hk.
    replace (1997 - S k)%nat with 0%nat by lia.
    rewrite firstn_O, app_nil_r. unfold substring0.
    now apply firstn_firstn_le. }
  rewrite E3. reflexivity.
Qed.

(** X4. The truncation of [code] at 50 000 characters never shows: the run
    of a code block is, in every case, the run that [richText] makes of the
    content, which holds at most 2000 characters; the marker
    [// ... Code tronqué] is cut away with the rest. *)
Theorem code_run_is_richText (content language : jsstring) (caption : option jsstring) :
  BlockBuilders.code content language caption
  = Code [plain content] language (captionOf caption)
  /\ (length (visibleText (BlockBuilders.code content language caption)) <= 2000)%nat.
Proof.
  assert (E : BlockBuilders.code content language caption
              = Code [plain content] language (captionOf caption)).
  { unfold BlockBuilders.code. cbv zeta. f_equal. f_equal. unfold plain.
    rewrite <- (richText_trim (trim content) content Options.none (trim_idem content)).
    destruct (Nat.ltb_spec maxCodeLength (length (trim content))) as [Hl|Hl];
      [|reflexivity].
    assert (H1997 : (1997 <= maxCodeLength - 100)%nat)
      by (apply leb_true_le; vm_compute; reflexivity).
    assert (H2000 : (2000 <= maxCodeLength)%nat)
      by (apply leb_true_le; vm_compute; reflexivity).
    change ([10; 10]%N ++ js "// ... Code tronqué")
      with (([10; 10]%N ++ js "// ... Code tronqu") ++ [233%N]).
    apply richText_cut_marker.
    - apply trim_idem.
    - reflexivity.
    - exact H1997.
    - apply Nat.le_trans with maxCodeLength; [apply Nat.le_sub_l | now apply Nat.lt_le_incl].
    - apply Nat.le_lt_trans with maxCodeLength; assumption.
    - apply Nat.lt_le_trans with (1997 + 21)%nat; [vm_compute; lia|].
      apply Nat.add_le_mono; [exact H1997 | vm_compute; lia]. }
  split; [exact E|]. rewrite E.
  unfold visibleText. cbn [runsOf map concat]. rewrite app_nil_r.
  apply (richText_shape content Options.none).
Qed.

End BuilderFacts.

(** ** Templates: icons and labels typed by the author *)

Section IconFacts.

Import Regex.

Lemma differ_startsWith (a b t : jsstring) :
  differ a b = true -> startsWith a (b ++ t) = false.
Proof.
  revert b. induction a as [|x a IH]; intros [|y b] H; try discriminate.
  cbn [differ] in H. cbn [app startsWith].
  destruct (N.eqb_spec x y); cbn [negb orb andb] in *; [now apply IH | reflexivity].
Qed.

Lemma strip_nothing (icons : list jsstring) (s : jsstring) :
  forallb startsHigh icons = true -> startsLow s = true ->
  fold_left stripStep icons s = s.
Proof.
  intros Hi Hs. induction icons as [|e icons IH]; [reflexivity|].
  cbn [forallb] in Hi. apply andb_prop in Hi. destruct Hi as [He Hi].
  cbn [fold_left]. unfold stripStep at 2.
  assert (E : startsWith e s = false).
  { destruct e as [|e0 e]; [discriminate|]. destruct s as [|c s]; [reflexivity|].
    cbn in He, Hs. apply N.leb_le in He. apply N.ltb_lt in Hs.
    apply startsWith_other. lia. }
  rewrite E. exact (IH Hi).
Qed.

Lemma trim_trimEnd (s : jsstring) : trim (trimEnd s) = trim s.
Proof. unfold trim. now rewrite trimStart_trimEnd, trimEnd_idem. Qed.

Lemma skipn_prefix {A : Type} (a b : list A) : skipn (length a) (a ++ b) = b.
Proof. induction a as [|x a IH]; [reflexivity | exact IH]. Qed.

(** One icon of the list in front of the text: the loop removes it and
    nothing else. *)
Lemma strip_icon (icons : list jsstring) (e t : jsstring) :
  forallb startsHigh icons = true ->
  forallb (fun e' => Js.eqb e' e || differ e' e) icons = true ->
  In e icons -> startsLow (trim t) = true ->
  fold_left stripStep icons (e ++ t) = trim t.
Proof.
  intros Hhigh Hdiff Hin Hlow.
  induction icons as [|e' icons IH]; [destruct Hin|].
  cbn [forallb] in Hhigh, Hdiff.
  apply andb_prop in Hhigh. destruct Hhigh as [_ Hhigh].
  apply andb_prop in Hdiff. destruct Hdiff as [Hd Hdiff].
  cbn [fold_left]. unfold stripStep at 2.
  unfold Js.eqb in Hd. destruct (list_eq_dec N.eq_dec e' e) as [->|Hne].
  - rewrite startsWith_app. unfold sliceFrom. rewrite skipn_prefix.
    now apply strip_nothing.
  - cbn [orb] in Hd. rewrite (differ_startsWith e' e t Hd).
    destruct Hin as [F|Hin]; [contradiction|]. exact (IH Hhigh Hdiff Hin).
Qed.

Lemma icons_high : forallb startsHigh TEMPLATE_EMOJIS = true.
Proof. vm_compute. reflexivity. Qed.

Lemma icons_differ :
  forall e, In e TEMPLATE_EMOJIS ->
            forallb (fun e' => Js.eqb e' e || differ e' e) TEMPLATE_EMOJIS = true.
Proof.
  assert (H : forallb (fun e => forallb (fun e' => Js.eqb e' e || differ e' e)
                                       TEMPLATE_EMOJIS) TEMPLATE_EMOJIS = true)
    by (vm_compute; reflexivity).
  rewrite forallb_forall in H. exact H.
Qed.

(** Every icon ends with a visible code unit and starts with one. *)
Lemma icon_trim (e t : jsstring) :
  In e TEMPLATE_EMOJIS -> trim (e ++ t) = e ++ trimEnd t.
Proof.
  assert (H : forallb (fun e => match e with
                                | [a; b] => negb (isWhiteSpace a) && negb (isWhiteSpace b)
                                | _ => false
                                end) TEMPLATE_EMOJIS = true)
    by (vm_compute; reflexivity).
  rewrite forallb_forall in H. intros Hin. specialize (H e Hin).
  destruct e as [|a [|b [|c e]]]; try discriminate.
  apply andb_prop in H. destruct H as [Ha Hb].
  apply negb_true_iff in Ha. apply negb_true_iff in Hb.
  unfold trim. cbn [app]. rewrite (trimStart_cons a _ Ha).
  change (a :: b :: t) with ([a] ++ b :: t).
  now rewrite (trimEnd_app [a] t b Hb).
Qed.

Lemma cleanLeadingEmoji_fold (text : jsstring) :
  cleanLeadingEmoji text = fold_left stripStep TEMPLATE_EMOJIS (trim text).
Proof. reflexivity. Qed.

(** X5. An icon of the fixed set in front of a text that goes on with an
    ordinary character (below U+2000) is removed by [cleanLeadingEmoji],
    which leaves the trimmed text; so a note or a definition whose text
    repeats an icon of the templates is the same block as without it. *)
Theorem cleanLeadingEmoji_strips_icon (e t term : jsstring) (kind : NoteType) :
  In e TEMPLATE_EMOJIS -> startsLow (trim t) = true ->
  cleanLeadingEmoji (e ++ t) = trim t
  /\ cleanLeadingEmoji t = trim t
  /\ noteImportante (e ++ t) kind = noteImportante t kind
  /\ BlockBuilders.definition term (e ++ t) None = BlockBuilders.definition term t None.
Proof.
  intros Hin Hlow.
  assert (E1 : cleanLeadingEmoji (e ++ t) = trim t).
  { rewrite cleanLeadingEmoji_fold, (icon_trim e t Hin).
    rewrite <- (trim_trimEnd t).
    apply strip_icon; [apply icons_high | now apply icons_differ | exact Hin |].
    now rewrite trim_trimEnd. }
  assert (E2 : cleanLeadingEmoji t = trim t).
  { rewrite cleanLeadingEmoji_fold. apply strip_nothing; [apply icons_high | exact Hlow]. }
  repeat split; [exact E1 | exact E2 | |].
  - unfold noteImportante. now rewrite E1, E2.
  - unfold BlockBuilders.definition. now rewrite E1, E2.
Qed.

Lemma cleanLeadingEmoji_strips_icon_witness :
  In (js "💡") TEMPLATE_EMOJIS
  /\ startsLow (trim (js " Astuce")) = true
  /\ cleanLeadingEmoji (js "💡" ++ js " Astuce") = js "Astuce"
  /\ noteImportante (js "💡" ++ js " Astuce") tip = noteImportante (js " Astuce") tip.
Proof.
  assert (Hin : In (js "💡") TEMPLATE_EMOJIS) by (vm_compute; tauto).
  assert (Hlow : startsLow (trim (js " Astuce")) = true) by reflexivity.
  destruct (cleanLeadingEmoji_strips_icon (js "💡") (js " Astuce") [] tip Hin Hlow)
    as (E1 & _ & E3 & _).
  split; [exact Hin|]. split; [exact Hlow|]. split; [exact E1 | exact E3].
Defined.

End IconFacts.

(** ** Templates: the step and the quiz *)

Section StepFacts.

Import Regex.

(** A greedy repetition takes a whole run when what follows matches. *)
Lemma star_run (cls : char16 -> bool) (k : jsstring -> option result)
      (w s : jsstring) (x : char16) (r : result) :
  forallb cls w = true -> cls x = false -> k (x :: s) = Some r ->
  star cls k (w ++ x :: s) = Some r.
Proof.
  intros Hw Hx Hk. induction w as [|c w IH]; cbn [app star].
  - now rewrite Hx.
  - cbn [forallb] in Hw. apply andb_prop in Hw. destruct Hw as [Hc Hw].
    rewrite Hc, (IH Hw). reflexivity.
Qed.

Lemma digit_visible (c : char16) : isDigit c = true -> isWhiteSpace c = false.
Proof.
  unfold isDigit, isWhiteSpace. intros H. apply andb_prop in H. destruct H as [H1 H2].
  apply N.leb_le in H1. apply N.leb_le in H2.
  repeat match goal with
         | |- context [(c =? ?n)%N] => destruct (N.eqb_spec c n); [lia|]
         end.
  destruct (N.leb_spec 0x2000 c); [lia|]. reflexivity.
Qed.

(** The title of a step that already starts with the word [Étape], a
    number and a colon: the pattern takes all of that. *)
Lemma step_prefix_match (word spaces number rest : jsstring) :
  map canonicalize word = js "ÉTAPE" ->
  spaces <> [] -> forallb isWhiteSpace spaces = true ->
  number <> [] -> forallb isDigit number = true ->
  removeAnchored stepPrefix (word ++ spaces ++ number ++ js ":" ++ rest)
  = trimStart rest.
Proof.
  intros Hw Hs Hsw Hn Hnd.
  unfold removeAnchored, stepPrefix, litsI.
  rewrite matchHere_litsI by (rewrite Hw; reflexivity).
  destruct spaces as [|s0 spaces]; [contradiction|].
  destruct number as [|d0 number]; [contradiction|].
  cbn [forallb] in Hsw, Hnd.
  apply andb_prop in Hsw. destruct Hsw as [Hs0 Hsw].
  apply andb_prop in Hnd. destruct Hnd as [Hd0 Hnd].
  assert (Hcolon : matchHere [whitespace; Lit 58%N; whitespace] (58%N :: rest)
                   = Some ([], trimStart rest)) by apply colon_match.
  assert (Hdigits : matchHere [Plus isDigit; whitespace; Lit 58%N; whitespace]
                              (d0 :: number ++ js ":" ++ rest)
                    = Some ([], trimStart rest)).
  { change (matchHere [Plus isDigit; whitespace; Lit 58%N; whitespace]
                      (d0 :: number ++ js ":" ++ rest))
      with (if isDigit d0
            then star isDigit (matchHere [whitespace; Lit 58%N; whitespace])
                      (number ++ 58%N :: rest)
            else None).
    rewrite Hd0. apply star_run; [exact Hnd | reflexivity | exact Hcolon]. }
  change (matchHere [Plus isWhiteSpace; Plus isDigit; whitespace; Lit 58%N; whitespace]
                    ((s0 :: spaces) ++ (d0 :: number) ++ js ":" ++ rest))
    with (if isWhiteSpace s0
          then star isWhiteSpace
                    (matchHere [Plus isDigit; whitespace; Lit 58%N; whitespace])
                    (spaces ++ d0 :: number ++ js ":" ++ rest)
          else None).
  rewrite Hs0.
  rewrite (star_run isWhiteSpace _ spaces (number ++ js ":" ++ rest) d0
                    ([], trimStart rest) Hsw (digit_visible d0 Hd0) Hdigits).
  reflexivity.
Qed.

(** X6. A step whose title already starts with [Étape], a number and a
    colon (the word in any letter case, whitespace before the number) does
    not say it twice: the callout reads [Étape <n>:] in bold, with the
    number of the call, followed by the rest of the title. *)
Theorem step_strips_step_prefix
        (n : Z) (word spaces number rest : jsstring) (description : option jsstring)
        (children : option (list (option Block))) :
  map canonicalize word = js "ÉTAPE" ->
  spaces <> [] -> forallb isWhiteSpace spaces = true ->
  number <> [] -> forallb isDigit number = true ->
  runsOf (step n (word ++ spaces ++ number ++ js ":" ++ rest) description children)
  = runsOf (callout (Rich [richText (js "Étape " ++ ofZ n ++ js ": ") Options.withBold;
                           plain rest]) Opts.none).
Proof.
  intros Hw Hs Hsw Hn Hnd.
  pose proof (step_prefix_match word spaces number rest Hw Hs Hsw Hn Hnd) as E.
  assert (Hplain : plain (trim (trimStart rest)) = plain rest).
  { unfold plain. apply richText_trim. rewrite trim_idem.
    unfold trim. now rewrite trimStart_idem. }
  unfold step. rewrite E. cbv zeta. unfold callout at 1. cbn [runsOf].
  unfold callout. cbn [runsOf].
  unfold richOrBlank, toRichTextArray. rewrite Hplain. reflexivity.
Qed.

Lemma step_strips_step_prefix_witness :
  map canonicalize (js "étape") = js "ÉTAPE"
  /\ map RichText.content
         (runsOf (step 3 (js "étape" ++ js " " ++ js "3" ++ js ":" ++ js " Installer")
                       None None))
     = [js "Étape 3:"; js "Installer"].
Proof.
  split; [reflexivity|].
  rewrite (step_strips_step_prefix 3 (js "étape") (js " ") (js "3") (js " Installer")
             None None eq_refl ltac:(discriminate) eq_refl
             ltac:(discriminate) eq_refl).
  reflexivity.
Defined.

End StepFacts.

Section QuizRangeFacts.

Lemma mapi_nth_error {A B : Type} (f : A -> nat -> B) (l : list A) (k i : nat) :
  nth_error (mapi f l k) i = option_map (fun x => f x (k + i)%nat) (nth_error l i).
Proof.
  revert k i. induction l as [|x l IH]; intros k [|i]; cbn [mapi nth_error option_map];
    try reflexivity.
  - now rewrite Nat.add_0_r.
  - rewrite IH. now rewrite Nat.add_succ_comm.
Qed.

(** X7. With two options or more and an index of an option, the quiz shows
    one lettered item per option, and the answer repeats the text of the
    item at the index: its letter and the trimmed option. *)
Theorem quickQuiz_answer_is_item
        (question : jsstring) (options : list jsstring) (i : nat) :
  (2 <= length options)%nat -> (i < length options)%nat ->
  exists title items,
    quickQuiz question options (Z.of_nat i)
    = Some (Callout title (js "🧠") (js "purple_background")
              (Some (items
                     ++ [toggle (Str (js "Voir la réponse"))
                           [callout (Str (js "La bonne réponse est "
                                          ++ letter i ++ js ") " ++ trim (nth i options [])))
                                    (Opts.mk (Some (js "✅"))
                                             (Some (js "green_background"))
                                             false None None)]
                           Opts.none])))
    /\ length items = length options
    /\ nth_error items i
       = Some (bulletedListItem (Str (letter i ++ js ") " ++ trim (nth i options [])))
                                Opts.none).
Proof.
  intros H2 Hi. unfold quickQuiz.
  assert (E : (length options <? 2)%nat = false) by now apply Nat.ltb_ge.
  assert (Ein : ((Z.of_nat i <? 0) || (Z.of_nat (length options) <=? Z.of_nat i))%Z = false).
  { apply orb_false_iff. split; [apply Z.ltb_ge | apply Z.leb_gt]; lia. }
  rewrite E, Ein, Nat2Z.id.
  assert (Hnth : nth i (map trim options) [] = trim (nth i options [])).
  { change (@nil char16) with (trim []) at 1. apply map_nth. }
  eexists. eexists. split; [|split].
  - unfold callout at 1. cbn [Opts.icon Opts.color Opts.children].
    rewrite Hnth. reflexivity.
  - now rewrite mapi_length, length_map.
  - rewrite mapi_nth_error. cbn [Nat.add].
    rewrite (nth_error_nth' (map trim options) []) by (now rewrite length_map).
    cbn [option_map]. now rewrite Hnth.
Qed.

Lemma quickQuiz_answer_is_item_witness :
  (2 <= length [js "Java"; js " TypeScript "; js "Python"])%nat
  /\ (1 < length [js "Java"; js " TypeScript "; js "Python"])%nat
  /\ exists title items,
      quickQuiz (js "Q") [js "Java"; js " TypeScript "; js "Python"] 1
      = Some (Callout title (js "🧠") (js "purple_background")
                (Some (items
                       ++ [toggle (Str (js "Voir la réponse"))
                             [callout (Str (js "La bonne réponse est B) TypeScript"))
                                      (Opts.mk (Some (js "✅"))
                                               (Some (js "green_background"))
                                               false None None)]
                             Opts.none]))).
Proof.
  assert (H2 : (2 <= length [js "Java"; js " TypeScript "; js "Python"])%nat)
    by (vm_compute; lia).
  assert (H1 : (1 < length [js "Java"; js " TypeScript "; js "Python"])%nat)
    by (vm_compute; lia).
  split; [exact H2|]. split; [exact H1|].
  destruct (quickQuiz_answer_is_item (js "Q") [js "Java"; js " TypeScript "; js "Python"]
              1 H2 H1) as (title & items & E & _).
  exists title, items. exact E.
Defined.

End QuizRangeFacts.

(** ** The course compiler: items that give no block *)

Section DropFacts.
Context {platform : Platform}.

Lemma paragraph_none_blank (s : jsstring) (o : Opts.t) :
  paragraph (Str s) o = None <-> forallb isWhiteSpace s = true.
Proof.
  rewrite <- trim_nil. unfold paragraph, toRichTextArray.
  destruct (trim s) as [|c t] eqn:E; cbn [truthy negb].
  - split; reflexivity.
  - split; [|discriminate]. destruct (markdownOn o).
    + pose proof (parseFormattedText_nonempty (c :: t)) as Hp.
      destruct (parseFormattedText (c :: t)); [contradiction | discriminate].
    + discriminate.
Qed.

Lemma message_some (label url : jsstring) :
  paragraph (Str (js "[" ++ (label ++ url) ++ js "]")) Opts.none <> None.
Proof. rewrite paragraph_message. discriminate. Qed.

Lemma media_never_null (url : jsstring) (name caption : option jsstring) :
  image url caption <> None /\ video url caption <> None
  /\ audio url caption <> None /\ pdf url caption <> None
  /\ file url name caption <> None /\ embed url <> None
  /\ bookmark url caption <> None.
Proof.
  unfold image, video, audio, pdf, file, embed, bookmark.
  destruct (isValidUrl url); cbn [negb]; repeat split; try discriminate.
  - apply (message_some (js "Image invalide: ")).
  - apply (message_some (js "Vidéo invalide: ")).
  - apply (message_some (js "Audio invalide: ")).
  - apply (message_some (js "PDF invalide: ")).
  - apply (message_some (js "Fichier invalide: ")).
  - apply (message_some (js "Embed invalide: ")).
  - apply (message_some (js "Bookmark invalide: ")).
Qed.

Lemma quickQuiz_never_null (question : jsstring) (options : list jsstring) (i : Z) :
  quickQuiz question options i <> None.
Proof.
  unfold quickQuiz. destruct (length options <? 2)%nat; [|discriminate].
  vm_compute. discriminate.
Qed.

Lemma ofOption_null (b : option Block) : ofOption b = Null <-> b = None.
Proof. destruct b; split; intros H; try discriminate; reflexivity. Qed.

(** X8. [buildCourseBlock] gives no block in two cases only: a paragraph
    whose text is absent or blank, and an item of unknown type whose text
    is present and made of whitespace only.  Every other item, a media item
    with a rejected URL and a quiz without options included, gives at least
    one block or an array. *)
Theorem buildCourseBlock_null_iff (item : CourseContent) :
  buildCourseBlock item = Null
  <-> (caseOf (Server.type item) = Some CParagraph
       /\ forallb isWhiteSpace (orStr (Server.text item) []) = true)
      \/ (caseOf (Server.type item) = None
          /\ truthyStr (Server.text item) <> None
          /\ forallb isWhiteSpace (orStr (Server.text item) []) = true).
Proof.
  destruct item as [ty tx its cd lang cap ur ic col chk qu ops ci tm df sn ins sol mi obj
                       lf rg ex hd rw tg ch].
  cbn [Server.type Server.text].
  cbn [buildCourseBlock Server.type Server.text Server.code language caption Server.url icon
                        color checked question Server.options Server.correctIndex term Server.definition
                        stepNumber instructions solution minutes objectives left right
                        explanations headers rows toggleable children items].
  destruct (caseOf ty) as [c|] eqn:Hc.
  - destruct c; cbv beta iota zeta;
      try (split; [discriminate | intros [[F _]|[F _]]; discriminate F]).
    + rewrite ofOption_null, paragraph_none_blank. split.
      * intros H. left. now split.
      * intros [[_ H]|[F _]]; [exact H | discriminate F].
    + split; [|intros [[F _]|[F _]]; discriminate F].
      intros H. apply ofOption_null in H. exfalso.
      exact (proj1 (media_never_null _ None cap) H).
    + split; [|intros [[F _]|[F _]]; discriminate F].
      intros H. apply ofOption_null in H. exfalso.
      exact (proj1 (proj2 (media_never_null _ None cap)) H).
    + split; [|intros [[F _]|[F _]]; discriminate F].
      intros H. apply ofOption_null in H. exfalso.
      exact (proj1 (proj2 (proj2 (media_never_null _ None cap))) H).
    + split; [|intros [[F _]|[F _]]; discriminate F].
      intros H. apply ofOption_null in H. exfalso.
      exact (proj1 (proj2 (proj2 (proj2 (media_never_null _ None cap)))) H).
    + split; [|intros [[F _]|[F _]]; discriminate F].
      intros H. apply ofOption_null in H. exfalso.
      exact (proj1 (proj2 (proj2 (proj2 (proj2 (proj2 (media_never_null _ None None)))))) H).
    + split; [|intros [[F _]|[F _]]; discriminate F].
      intros H. apply ofOption_null in H. exfalso.
      exact (proj2 (proj2 (proj2 (proj2 (proj2 (proj2 (media_never_null _ None cap)))))) H).
    + destruct lf, rg; cbv beta iota; split; try discriminate;
        intros [[F _]|[F _]]; discriminate F.
    + split; [|intros [[F _]|[F _]]; discriminate F].
      intros H. apply ofOption_null in H. exfalso.
      exact (quickQuiz_never_null _ _ _ H).
  - cbv beta iota zeta. rewrite ofOption_null. split.
    + intros H. right. split; [reflexivity|].
      destruct tx as [[|c s]|]; cbn [orStr truthyStr] in *.
      * exfalso. revert H. apply (message_some (js "Type non reconnu: ")).
      * split; [discriminate|]. now apply paragraph_none_blank in H.
      * exfalso. revert H. apply (message_some (js "Type non reconnu: ")).
    + intros [[F _]|(_ & Ht & Hb)]; [discriminate F|].
      destruct tx as [[|c s]|]; cbn [orStr truthyStr] in *; try contradiction.
      now apply paragraph_none_blank.
Qed.

End DropFacts.

Lemma buildCourseBlock_null_iff_witness :
  buildCourseBlock (platform := Whatwg.platform) (Server.item "paragraph" (Some "  "%string))
  = Null.
Proof.
  apply (proj2 (buildCourseBlock_null_iff (platform := Whatwg.platform)
                  (Server.item "paragraph" (Some "  "%string)))).
  left. split; reflexivity.
Defined.

(** ** The page of a course *)

Section AssemblyFacts.
Context {platform : Platform}.

Import Routes.

Lemma filterValidBlocks_some (blocks : list Block) :
  filterValidBlocks (map Some blocks) = blocks.
Proof.
  unfold filterValidBlocks. induction blocks as [|b blocks IH]; [reflexivity|].
  cbn [map flat_map app]. now rewrite IH.
Qed.

Lemma pushItem_app (children : list Block) (item : CourseContent) :
  pushItem children item = children ++ toArray (buildCourseBlock item).
Proof.
  unfold pushItem, toArray. destruct (buildCourseBlock item).
  - now rewrite app_nil_r.
  - reflexivity.
  - now rewrite filterValidBlocks_some.
Qed.

Lemma fold_pushItem (content : list CourseContent) (children : list Block) :
  fold_left pushItem content children
  = children ++ flat_map (fun item => toArray (buildCourseBlock item)) content.
Proof.
  revert children. induction content as [|item content IH]; intros children.
  - cbn. now rewrite app_nil_r.
  - cbn [fold_left flat_map]. rewrite IH, pushItem_app. now rewrite <- app_assoc.
Qed.

Lemma pushSection_app (children : list Block) (section : CourseSection) :
  pushSection children section = children ++ pushSection [] section.
Proof.
  unfold pushSection. cbv zeta. rewrite !fold_pushItem.
  destruct (truthyStr (description section)) as [d|];
    [destruct (paragraph (Str d) (Opts.ofColor "gray"))|];
    cbn [app]; rewrite <- ?app_assoc; reflexivity.
Qed.

Lemma fold_pushSection (sections : list CourseSection) (children : list Block) :
  fold_left pushSection sections children
  = children ++ flat_map (pushSection []) sections.
Proof.
  revert children. induction sections as [|s sections IH]; intros children.
  - cbn. now rewrite app_nil_r.
  - cbn [fold_left flat_map]. rewrite IH, (pushSection_app children s).
    now rewrite <- app_assoc.
Qed.

Lemma heading1_section (s : CourseSection) :
  heading1 (Str (title s))
           (Opts.mk None (Some (orStr (color s) (js "blue")))
                    (orFalse (toggleable s)) None None)
  = Heading1 (richOrBlank (Str (title s)) Opts.none)
             (orStr (color s) (js "blue")) (orFalse (toggleable s)) None.
Proof.
  unfold heading1, headingChildren, colorOf, richOrBlank, markdownOn.
  cbn [Opts.color Opts.toggleable Opts.children Opts.parseMarkdown Opts.none].
  assert (E : orStr (Some (orStr (color s) (js "blue"))) (js "default")
              = orStr (color s) (js "blue")).
  { destruct (color s) as [[|c t]|]; reflexivity. }
  rewrite E. destruct (orFalse (toggleable s)); reflexivity.
Qed.

Lemma metaColumns_single (minutes : option Z) (required goals : option (list jsstring)) :
  Forall (fun column => length column = 1%nat) (metaColumns minutes required goals)
  /\ (length (metaColumns minutes required goals) <= 3)%nat.
Proof.
  unfold metaColumns.
  destruct minutes as [[| |]|], required as [[|]|], goals as [[|]|]; cbn [app length];
    split; try lia; repeat constructor.
Qed.

(** X9. The page of a course is framed: it starts with the breadcrumb, the
    table of contents and a divider, and ends with a divider and the
    callout of congratulations.  Between them, after the description and
    the metadata (three blocks at most), each section contributes in order
    a divider, its heading, its description if it is not blank, and the
    blocks of its items in their order; an item that gives no block leaves
    no trace. *)
Theorem courseChildren_layout
        (about : option jsstring) (minutes : option Z)
        (required goals : option (list jsstring))
        (sections : list CourseSection) :
  exists preamble,
    courseChildren about minutes required goals sections
    = [Breadcrumb; TableOfContents (js "gray"); Divider]
        ++ preamble
        ++ flat_map (fun section =>
                       [Divider;
                        Heading1 (richOrBlank (Str (title section)) Opts.none)
                                 (orStr (color section) (js "blue"))
                                 (orFalse (toggleable section)) None]
                       ++ match truthyStr (description section) with
                          | Some d =>
                            match paragraph (Str d) (Opts.ofColor "gray") with
                            | Some b => [b]
                            | None => []
                            end
                          | None => []
                          end
                       ++ flat_map (fun item => toArray (buildCourseBlock item))
                                   (content section))
                    sections
        ++ [Divider; congratulations]
    /\ (length preamble <= 3)%nat.
Proof.
  unfold courseChildren. cbv zeta. rewrite filterValidBlocks_some.
  rewrite fold_pushSection.
  assert (Hsections :
            flat_map (pushSection []) sections
            = flat_map (fun section =>
                       [Divider;
                        Heading1 (richOrBlank (Str (title section)) Opts.none)
                                 (orStr (color section) (js "blue"))
                                 (orFalse (toggleable section)) None]
                       ++ match truthyStr (description section) with
                          | Some d =>
                            match paragraph (Str d) (Opts.ofColor "gray") with
                            | Some b => [b]
                            | None => []
                            end
                          | None => []
                          end
                       ++ flat_map (fun item => toArray (buildCourseBlock item))
                                   (content section))
                    sections).
  { induction sections as [|s sections IH]; [reflexivity|].
    cbn [flat_map]. rewrite IH. f_equal.
    unfold pushSection. cbv zeta. rewrite fold_pushItem, heading1_section.
    generalize (flat_map (fun item => toArray (buildCourseBlock item)) (content s)).
    generalize (Heading1 (richOrBlank (Str (title s)) Opts.none)
                         (orStr (color s) (js "blue")) (orFalse (toggleable s)) None).
    intros h items.
    destruct (truthyStr (description s)) as [d|];
      [destruct (paragraph (Str d) (Opts.ofColor "gray"))|];
      cbn [app]; rewrite <- ?app_assoc; reflexivity. }
  rewrite Hsections.
  match goal with |- context [flat_map ?f sections] => generalize (flat_map f sections) end.
  intros body.
  destruct (metaColumns_single minutes required goals) as [Hone Hthree].
  generalize congratulations. intros final.
  change breadcrumb with Breadcrumb. change divider with Divider.
  change (tableOfContents (Some (js "gray"))) with (TableOfContents (js "gray")).
  set (intro := match truthyStr about with
                | Some d => [callout (Str d)
                                     (Opts.mk (Some (js "📖"))
                                              (Some (js "blue_background"))
                                              false None None)]
                | None => []
                end).
  assert (Hintro : (match truthyStr about with
                    | Some d => [Breadcrumb; TableOfContents (js "gray"); Divider]
                                  ++ [callout (Str d)
                                        (Opts.mk (Some (js "📖"))
                                                 (Some (js "blue_background"))
                                                 false None None)]
                    | None => [Breadcrumb; TableOfContents (js "gray"); Divider]
                    end)
                   = [Breadcrumb; TableOfContents (js "gray"); Divider] ++ intro).
  { unfold intro. destruct (truthyStr about); reflexivity. }
  rewrite Hintro.
  assert (Hintro1 : (length intro <= 1)%nat)
    by (unfold intro; destruct (truthyStr about); cbn [length]; lia).
  clearbody intro.
  destruct (metaColumns minutes required goals) as [|column [|column2 columns]].
  - exists intro. split; [|lia]. now rewrite <- !app_assoc.
  - exists (intro ++ column ++ [Divider]). split.
    + now rewrite <- !app_assoc.
    + inversion Hone as [|? ? H1 _]. rewrite !length_app, H1. cbn [length]. lia.
  - exists (intro ++ [columnList (column :: column2 :: columns); Divider]). split.
    + rewrite <- !app_assoc. reflexivity.
    + rewrite length_app. cbn [length]. lia.
Qed.

End AssemblyFacts.

(** ** The statistics of a course *)

Section StatsFacts.

Import Routes.

Lemma eqb_eq (a b : jsstring) : Js.eqb a b = true <-> a = b.
Proof.
  unfold Js.eqb. destruct (list_eq_dec N.eq_dec a b); split; intros H;
    try reflexivity; try assumption; try discriminate; contradiction.
Qed.

Lemma total_put (key : jsstring) (blockTypes : list (jsstring * N)) :
  total (put key (count key blockTypes + 1)%N blockTypes) = (total blockTypes + 1)%N.
Proof.
  induction blockTypes as [|[k n] rest IH]; cbn [put count total fold_right fst snd].
  - lia.
  - destruct (Js.eqb key k); cbn [total fold_right fst snd].
    + fold (total rest). lia.
    + fold (total rest) in *. fold (total (put key (count key rest + 1)%N rest)).
      rewrite IH. lia.
Qed.

Lemma keys_put (key : jsstring) (value : N) (blockTypes : list (jsstring * N)) :
  NoDup (map fst blockTypes) -> NoDup (map fst (put key value blockTypes)).
Proof.
  assert (Hin : forall m x, In x (map fst (put key value m)) -> x = key \/ In x (map fst m)).
  { induction m as [|[k n] m IHm]; cbn [put map fst]; intros x Hx.
    - destruct Hx as [<-|[]]. now left.
    - destruct (Js.eqb key k); cbn [map fst] in Hx.
      + right. exact Hx.
      + destruct Hx as [<-|Hx]; [right; now left|].
        destruct (IHm x Hx); [now left | right; now right]. }
  induction blockTypes as [|[k n] rest IH]; cbn [put map fst]; intros Hnd.
  - constructor; [intros [] | constructor].
  - inversion Hnd as [|? ? Hk Hrest]. subst.
    destruct (Js.eqb key k) eqn:E; cbn [map fst].
    + now constructor.
    + constructor; [|now apply IH].
      intros Hx. destruct (Hin rest k Hx) as [->|Hx']; [|contradiction].
      assert (Js.eqb key key = true) by now apply eqb_eq. congruence.
Qed.

Lemma positive_put (key : jsstring) (blockTypes : list (jsstring * N)) :
  Forall (fun kv => (0 < snd kv)%N) blockTypes ->
  Forall (fun kv => (0 < snd kv)%N) (put key (count key blockTypes + 1)%N blockTypes).
Proof.
  generalize (count key blockTypes + 1)%N (N.add_pos_r (count key blockTypes) 1 N.lt_0_1).
  intros v Hv. induction 1 as [|[k n] rest Hk Hrest IH]; cbn [put].
  - constructor; [exact Hv | constructor].
  - destruct (Js.eqb key k); constructor; assumption.
Qed.

Lemma countItem_consistent (st : N * list (jsstring * N)) (item : Any Item) (i : nat) :
  present item = true -> consistent st ->
  exists st', countItem st item i = Returned st' /\ consistent st'.
Proof.
  intros Hp (Ht & Hk & Hpos). unfold countItem.
  destruct item as [| |it]; [discriminate | |]; cbn [deref].
  all: cbv zeta; eexists; split; [reflexivity|]; unfold consistent; cbn [fst snd];
    split; [rewrite total_put; now rewrite Ht|];
    split; [now apply keys_put | now apply positive_put].
Qed.

Lemma forEach_consistent {A : Type}
      (f : N * list (jsstring * N) -> A -> nat -> Outcome (N * list (jsstring * N)))
      (ok : A -> bool) :
  (forall st x i, ok x = true -> consistent st ->
                  exists st', f st x i = Returned st' /\ consistent st') ->
  forall (l : list A) (i : nat) (st : N * list (jsstring * N)),
    forallb ok l = true -> consistent st ->
    exists st', forEach f l i st = Returned st' /\ consistent st'.
Proof.
  intros Hf. induction l as [|x l IH]; intros i st Hok Hst.
  - exists st. now split.
  - cbn [forallb] in Hok. apply andb_prop in Hok. destruct Hok as [Hx Hl].
    destruct (Hf st x i Hx Hst) as (st1 & E1 & Hst1).
    cbn [forEach]. rewrite E1. cbn [Validation.bind]. now apply IH.
Qed.

Lemma countSection_consistent (st : N * list (jsstring * N)) (section : Any Section_)
      (i : nat) :
  sectionReadable section = true -> consistent st ->
  exists st', countSection st section i = Returned st' /\ consistent st'.
Proof.
  intros Hr Hst. unfold countSection.
  destruct section as [| |s]; [discriminate | |]; cbn [deref].
  - exists st. now split.
  - cbn [sectionReadable] in Hr. destruct (Validation.content s) as [l|].
    + cbn [forEachOpt allOk] in *.
      apply (forEach_consistent countItem present); try assumption.
      intros. now apply countItem_consistent.
    + exists st. now split.
Qed.

(** X10. For a course that the validator can read, and whose items have no
    type named like a member of [Object.prototype], the statistics of the
    validation route are consistent: the number of blocks is the sum of
    the counts per type, each type is counted once and no count is zero,
    and the number of sections is the length of the list of sections; on
    these statistics [generateRecommendations] does not throw. *)
Theorem courseStats_consistent (courseData : Any Course) :
  courseReadable courseData = true -> ownKeys courseData = true ->
  exists blocks types,
    courseStats courseData
    = Returned (mkStats (Some blocks)
                        (Some (match courseData with
                               | Object course => N.of_nat (length (orList (sections course)))
                               | _ => 0%N
                               end))
                        (Some types))
    /\ blocks = total types
    /\ NoDup (map fst types)
    /\ Forall (fun kv => (0 < snd kv)%N) types
    /\ exists hints,
        generateRecommendations
          (Object (mkStats (Some blocks)
                           (Some (match courseData with
                                  | Object course =>
                                    N.of_nat (length (orList (sections course)))
                                  | _ => 0%N
                                  end))
                           (Some types)))
        = Returned hints.
Proof.
  intros Hr _.
  assert (Hstart : consistent (0%N, [])).
  { repeat split; [constructor | constructor]. }
  unfold courseStats.
  destruct courseData as [| |course]; [discriminate | |]; cbn [deref sections forEachOpt].
  - exists 0%N, []. repeat split; [constructor | constructor | eexists; reflexivity].
  - cbn [courseReadable] in Hr.
    assert (G : exists st',
               forEachOpt countSection (sections course) (0%N, []) = Returned st'
               /\ consistent st').
    { destruct (sections course) as [l|]; cbn [forEachOpt allOk] in *.
      - apply (forEach_consistent countSection sectionReadable); try assumption.
        intros. now apply countSection_consistent.
      - exists (0%N, []). now split. }
    destruct G as ([blocks types] & E & Ht & Hk & Hpos). rewrite E.
    exists blocks, types. cbn [fst snd] in *.
    assert (Hn : match sections course with
                 | Some l => N.of_nat (length l)
                 | None => 0%N
                 end = N.of_nat (length (orList (sections course))))
      by (destruct (sections course); reflexivity).
    rewrite Hn. repeat split; try assumption.
    eexists. reflexivity.
Qed.

Lemma courseStats_consistent_witness :
  courseReadable
    (Object (mkCourse (Some (js "C"))
               (Some [Object (mkSection (Some (js "S"))
                                (Some [Object (mkItem (Some (js "quiz")) None None None None);
                                       Object (mkItem (Some (js "quiz")) None None None None);
                                       Primitive]))]))) = true
  /\ exists hints types,
      courseStats
        (Object (mkCourse (Some (js "C"))
                   (Some [Object (mkSection (Some (js "S"))
                                    (Some [Object (mkItem (Some (js "quiz")) None None None None);
                                           Object (mkItem (Some (js "quiz")) None None None None);
                                           Primitive]))])))
      = Returned (mkStats (Some 3%N) (Some 1%N) (Some types))
      /\ generateRecommendations (Object (mkStats (Some 3%N) (Some 1%N) (Some types)))
         = Returned hints.
Proof.
  split; [reflexivity|].
  destruct (courseStats_consistent
              (Object (mkCourse (Some (js "C"))
                   (Some [Object (mkSection (Some (js "S"))
                                    (Some [Object (mkItem (Some (js "quiz")) None None None None);
                                           Object (mkItem (Some (js "quiz")) None None None None);
                                           Primitive]))])))
              eq_refl eq_refl)
    as (blocks & types & E & _ & _ & _ & hints & Eh).
  vm_compute in E. injection E as <- <-.
  eexists. eexists. split; [vm_compute; reflexivity | exact Eh].
Defined.

End StatsFacts.

(** ** The client of the remote service *)

Section ClientFacts.

Lemma startsWith_cons (p s : jsstring) (c : char16) :
  startsWith (c :: p) s = true -> exists s', s = c :: s'.
Proof.
  destruct s as [|x s]; cbn [startsWith]; [discriminate|].
  intros H. apply andb_prop in H. destruct H as [H _].
  apply N.eqb_eq in H. subst. now eexists.
Qed.

Lemma visible_head_not_blank (c : char16) (s : jsstring) :
  isWhiteSpace c = false -> (length (trim (c :: s)) =? 0)%nat = false.
Proof.
  intros Hc. destruct (trim (c :: s)) as [|x t] eqn:E; [|reflexivity].
  apply trim_nil in E. cbn [forallb] in E. rewrite Hc in E. discriminate.
Qed.

(** X11. [setToken] accepts exactly the tokens that start with [ntn_] or
    with [secret_] (as typed: no trimming, no change of case) and then
    keeps the token; it reports an empty token exactly for a token that is
    empty or made of whitespace.  A client built without a token, or with
    the empty string, is built without error, and [appendBlocks] on it
    throws before any call is issued. *)
Theorem setToken_accepts_prefixed
        (this : NotionAPI) (token pageId : jsstring) (blocks : list Block)
        (service : Trace -> Append -> option jsstring) (tr : Trace) :
  (setToken this token = Returned (mkNotionAPI (Some token))
   <-> startsWith (js "ntn_") token = true \/ startsWith (js "secret_") token = true)
  /\ (setToken this token = Thrown emptyToken <-> forallb isWhiteSpace token = true)
  /\ construct None = Returned (mkNotionAPI None)
  /\ construct (Some []) = Returned (mkNotionAPI None)
  /\ appendBlocks service (mkNotionAPI None) pageId blocks tr
     = (Thrown (js "Client not initialized"), tr).
Proof.
  assert (Hblank : (negb (truthy token) || (length (trim token) =? 0)%nat) = true
                   <-> forallb isWhiteSpace token = true).
  { rewrite <- trim_nil. destruct token as [|c t]; [split; reflexivity|].
    cbn [truthy negb orb]. rewrite Nat.eqb_eq.
    destruct (trim (c :: t)); split; intros H; try reflexivity; discriminate. }
  assert (Hprefixed : startsWith (js "ntn_") token = true
                      \/ startsWith (js "secret_") token = true ->
                      (negb (truthy token) || (length (trim token) =? 0)%nat) = false).
  { intros [H|H]; apply startsWith_cons in H; destruct H as [s' ->];
      cbn [truthy negb orb]; now apply visible_head_not_blank. }
  unfold setToken. repeat split.
  - intros H.
    destruct (negb (truthy token) || (length (trim token) =? 0)%nat); [discriminate|].
    destruct (startsWith (js "ntn_") token); [now left|].
    destruct (startsWith (js "secret_") token); [now right | discriminate].
  - intros H. rewrite (Hprefixed H).
    destruct H as [-> | ->]; cbn [negb andb]; [reflexivity|].
    now rewrite andb_false_r.
  - intros H. apply Hblank.
    destruct (negb (truthy token) || (length (trim token) =? 0)%nat); [reflexivity|].
    destruct (negb (startsWith (js "ntn_") token)
              && negb (startsWith (js "secret_") token)); [|discriminate].
    exfalso. revert H. vm_compute. discriminate.
  - intros H. apply Hblank in H. now rewrite H.
Qed.

Lemma setToken_accepts_prefixed_witness :
  startsWith (js "secret_") (js "secret_abc") = true
  /\ setToken (mkNotionAPI None) (js "secret_abc")
     = Returned (mkNotionAPI (Some (js "secret_abc")))
  /\ setToken (mkNotionAPI None) (js " ntn_abc") = Thrown invalidToken.
Proof.
  split; [reflexivity|]. split.
  - apply (proj1 (setToken_accepts_prefixed (mkNotionAPI None) (js "secret_abc") []
                    [] (fun _ _ => None) [])).
    right. reflexivity.
  - reflexivity.
Defined.

Section Exact.
Variable T : Type.

Lemma chunkLoop_exact (array : list T) (size : nat) :
  (0 < size)%nat ->
  forall (fuel j : nat),
    (length array - j * size < fuel)%nat ->
    (j = 0 \/ (j - 1) * size < length array)%nat ->
    exists m,
      chunkLoop fuel array size (j * size)
                (map (fun k => slice (k * size) (k * size + size) array) (seq 0 j))
      = Some (map (fun k => slice (k * size) (k * size + size) array) (seq 0 m))
      /\ (length array <= m * size)%nat
      /\ (m = 0 \/ (m - 1) * size < length array)%nat.
Proof.
  intros Hsize. induction fuel as [|fuel IH]; intros j Hfuel Hj; [lia|].
  cbn [chunkLoop]. destruct (Nat.ltb_spec (j * size) (length array)) as [Hi|Hi].
  - replace (j * size + size)%nat with (S j * size)%nat by lia.
    replace (map (fun k => slice (k * size) (k * size + size) array) (seq 0 j)
             ++ [slice (j * size) (S j * size) array])
      with (map (fun k => slice (k * size) (k * size + size) array) (seq 0 (S j))).
    + apply IH; [nia|]. right. replace (S j - 1)%nat with j by lia. exact Hi.
    + rewrite seq_S, map_app. cbn [map Nat.add]. f_equal. f_equal. f_equal. lia.
  - exists j. split; [reflexivity|]. split; [exact Hi | exact Hj].
Qed.

(** X12. For a positive size, [chunkArray] returns the slices of the array
    at the multiples of the size, [m] of them, where [m] is the least
    number with [m * size] not below the length: every chunk but the last
    has exactly [size] elements, and the last is not empty. *)
Theorem chunkArray_exact (array : list T) (size : nat) :
  (0 < size)%nat ->
  exists m,
    chunkArray array size
    = Some (map (fun k => slice (k * size) (k * size + size) array) (seq 0 m))
    /\ (length array <= m * size)%nat
    /\ (m = 0 \/ (m - 1) * size < length array)%nat
    /\ (forall k, (S k < m)%nat ->
                  length (slice (k * size) (k * size + size) array) = size)
    /\ (forall k, (S k = m)%nat ->
                  length (slice (k * size) (k * size + size) array)
                  = (length array - k * size)%nat
                  /\ (0 < length array - k * size)%nat).
Proof.
  intros Hsize. unfold chunkArray.
  destruct (chunkLoop_exact array size Hsize (S (length array)) 0 ltac:(lia) ltac:(now left))
    as (m & E & Hm & Hleast).
  exists m. cbn [Nat.mul seq map] in E. split; [exact E|].
  split; [exact Hm|]. split; [exact Hleast|]. split.
  - intros k Hk. unfold slice. rewrite length_firstn, length_skipn.
    replace (k * size + size - k * size)%nat with size by lia. nia.
  - intros k Hk. unfold slice. rewrite length_firstn, length_skipn.
    replace (k * size + size - k * size)%nat with size by lia.
    destruct Hleast as [->|Hl]; [lia|].
    replace (m - 1)%nat with k in Hl by lia. subst m. split; [nia | lia].
Qed.

End Exact.

Lemma chunkArray_exact_witness :
  (0 < 100)%nat
  /\ exists m,
      chunkArray (repeat Divider 250) 100
      = Some (map (fun k => slice (k * 100) (k * 100 + 100) (repeat Divider 250)) (seq 0 m))
      /\ (250 <= m * 100)%nat.
Proof.
  assert (H : (0 < 100)%nat) by lia.
  split; [exact H|].
  destruct (chunkArray_exact Block (repeat Divider 250) 100 H) as (m & E & Hm & _).
  exists m. split; [exact E|]. rewrite repeat_length in Hm. exact Hm.
Defined.

Section Rejection.
Variable service : Trace -> Append -> option jsstring.

Lemma forOf_rejected (pageId : jsstring) :
  forall (chunks : list (list Block)) (tr : Trace) (k : nat) (e : jsstring),
    (k < length chunks)%nat ->
    (forall j, (j < k)%nat ->
               service (tr ++ map (mkAppend pageId) (firstn j chunks))
                       (mkAppend pageId (nth j chunks [])) = None) ->
    service (tr ++ map (mkAppend pageId) (firstn k chunks))
            (mkAppend pageId (nth k chunks [])) = Some e ->
    forOf chunks (fun chunk => append service (mkAppend pageId chunk)) tr
    = (Thrown e, tr ++ map (mkAppend pageId) (firstn (S k) chunks)).
Proof.
  induction chunks as [|c chunks IH]; intros tr k e Hk Hok Hbad; [cbn in Hk; lia|].
  cbn [forOf]. unfold NotionAPI.bind.
  destruct k as [|k].
  - cbn [firstn map nth] in Hbad. rewrite app_nil_r in Hbad.
    unfold append at 1. rewrite Hbad. reflexivity.
  - pose proof (Hok 0%nat ltac:(lia)) as H0.
    cbn [firstn map nth] in H0. rewrite app_nil_r in H0.
    unfold append at 1. rewrite H0.
    cbn [length] in Hk.
    rewrite (IH (tr ++ [mkAppend pageId c]) k e ltac:(lia)).
    + cbn [firstn map]. now rewrite <- app_assoc.
    + intros j Hj. specialize (Hok (S j) ltac:(lia)).
      cbn [firstn map nth] in Hok. now rewrite <- app_assoc.
    + cbn [firstn map nth] in Hbad. now rewrite <- app_assoc.
Qed.

(** X13. When the service accepts the first [k] batches and rejects the
    next one, [appendBlocks] throws the error of the service after exactly
    [k + 1] calls: the batches behind the rejected one are never sent, and
    the batches already appended stay appended. *)
Theorem appendBlocks_stops_at_rejection
        (this : NotionAPI) (token pageId : jsstring) (blocks : list Block)
        (chunks : list (list Block)) (tr : Trace) (k : nat) (e : jsstring) :
  client this = Some token ->
  chunkArray blocks 100 = Some chunks ->
  (k < length chunks)%nat ->
  (forall j, (j < k)%nat ->
             service (tr ++ map (mkAppend pageId) (firstn j chunks))
                     (mkAppend pageId (nth j chunks [])) = None) ->
  service (tr ++ map (mkAppend pageId) (firstn k chunks))
          (mkAppend pageId (nth k chunks [])) = Some e ->
  appendBlocks service this pageId blocks tr
  = (Thrown e, tr ++ map (mkAppend pageId) (firstn (S k) chunks)).
Proof.
  intros Hclient Hchunks Hk Hok Hbad.
  unfold appendBlocks. rewrite Hclient, Hchunks. now apply forOf_rejected.
Qed.

End Rejection.

End ClientFacts.

Lemma appendBlocks_stops_at_rejection_witness :
  exists chunks,
    chunkArray (repeat Divider 250) 100 = Some chunks
    /\ length chunks = 3%nat
    /\ appendBlocks refuseSecond (mkNotionAPI (Some (js "ntn_x"))) (js "page")
                    (repeat Divider 250) []
       = (Thrown (js "rate_limited"), map (mkAppend (js "page")) (firstn 2 chunks)).
Proof.
  destruct (chunkArray (repeat Divider 250) 100) as [chunks|] eqn:E;
    [|vm_compute in E; discriminate E].
  exists chunks. split; [reflexivity|].
  assert (Hlen : length chunks = 3%nat).
  { vm_compute in E. injection E as <-. reflexivity. }
  split; [exact Hlen|].
  apply (appendBlocks_stops_at_rejection refuseSecond (mkNotionAPI (Some (js "ntn_x")))
           (js "ntn_x") (js "page") (repeat Divider 250) chunks [] 1 (js "rate_limited")
           eq_refl E).
  - rewrite Hlen. lia.
  - intros j Hj. assert (j = 0%nat) by lia. subst j. reflexivity.
  - unfold refuseSecond. rewrite length_app, length_map.
    destruct chunks as [|c chunks]; [discriminate Hlen|]. reflexivity.
Defined.

(** ** Spans of inline markup *)

Section SpanFacts.
Import Regex.

Lemma execAll_before (c : char16) (re : regex) (a : jsstring) :
  ~ In c a ->
  forall (rest : jsstring) (pos : nat),
    execAll (Lit c :: re) (a ++ rest) pos 0
    = execAll (Lit c :: re) rest (pos + length a) 0.
Proof.
  induction a as [|x a IH]; intros Ha rest pos.
  - cbn [app length]. now rewrite Nat.add_0_r.
  - cbn [app length execAll matchHere].
    destruct (N.eqb_spec x c) as [->|_]; [exfalso; apply Ha; now left|].
    rewrite IH by (intros F; apply Ha; now right).
    f_equal. lia.
Qed.

Lemma execAll_skip (re : regex) (u : jsstring) :
  forall (rest : jsstring) (pos : nat),
    execAll re (u ++ rest) pos (length u) = execAll re rest (pos + length u) 0.
Proof.
  induction u as [|x u IH]; intros rest pos.
  - cbn [app length]. now rewrite Nat.add_0_r.
  - cbn [app length execAll]. rewrite IH. f_equal. lia.
Qed.

Lemma execAll_match (re : regex) (x : char16) (m rest : jsstring) (pos : nat)
      (caps : list jsstring) :
  matchHere re (x :: m ++ rest) = Some (caps, rest) ->
  execAll re (x :: m ++ rest) pos 0
  = mkMatch pos (S (length m)) caps :: execAll re rest (S pos + length m) 0.
Proof.
  intros H. cbn [execAll]. rewrite H. cbv zeta.
  replace (length (x :: m ++ rest) - length rest)%nat with (S (length m))
    by (cbn [length]; rewrite length_app; lia).
  cbn [Nat.sub]. rewrite Nat.sub_0_r. now rewrite execAll_skip.
Qed.

(** The lazy group stops at the first place where the rest of the pattern
    matches. *)
Lemma lazy_until (c : char16) (re : regex) (rest r : jsstring) (caps : list jsstring) :
  matchHere (Lit c :: re) rest = Some (caps, r) ->
  forall (s acc : jsstring),
    s <> [] -> forallb dot s = true -> ~ In c s ->
    lazy (matchHere (Lit c :: re)) acc (s ++ rest) = Some ((rev acc ++ s) :: caps, r).
Proof.
  intros Hrest. induction s as [|x s IH]; intros acc Hne Hdot Hc; [contradiction|].
  cbn [forallb] in Hdot. apply andb_prop in Hdot. destruct Hdot as [Hx Hdot].
  cbn [app lazy]. rewrite Hx.
  destruct s as [|y s].
  - cbn [app]. rewrite Hrest. reflexivity.
  - assert (E : matchHere (Lit c :: re) ((y :: s) ++ rest) = None).
    { cbn [app matchHere]. destruct (N.eqb_spec y c) as [->|_]; [|reflexivity].
      exfalso. apply Hc. right. now left. }
    rewrite E. rewrite IH; [|discriminate|exact Hdot|intros F; apply Hc; now right].
    cbn [rev]. now rewrite <- app_assoc.
Qed.

Lemma lazy_without (c : char16) (re : regex) (acc s : jsstring) :
  ~ In c s -> lazy (matchHere (Lit c :: re)) acc s = None.
Proof.
  intros Hc. destruct (lazy (matchHere (Lit c :: re)) acc s) as [r|] eqn:E; [|reflexivity].
  exfalso. destruct (lazy_inv _ _ _ _ E) as (pre & s2 & r' & -> & Hk).
  apply Hc, in_or_app. right.
  apply (matchHere_literals _ _ _ Hk c). now left.
Qed.

Variables (c : char16) (a s b : jsstring).
Hypothesis Ha : ~ In c a.
Hypothesis Hs : ~ In c s.
Hypothesis Hb : ~ In c b.
Hypothesis Hne : s <> [].
Hypothesis Hdot : forallb dot s = true.

Lemma execAll_single :
  execAll [Lit c; Group; Lit c] (a ++ [c] ++ s ++ [c] ++ b) 0 0
  = [mkMatch (length a) (length s + 2) [s]].
Proof.
  rewrite execAll_before by exact Ha. cbn [Nat.add app].
  change (c :: s ++ c :: b) with (c :: s ++ [c] ++ b). rewrite app_assoc.
  rewrite (execAll_match _ c (s ++ [c]) b (length a) [s]).
  - rewrite execAll_without_literal with (c := c); [|now left|exact Hb].
    rewrite length_app. cbn [length]. now rewrite Nat.add_1_r, Nat.add_comm.
  - rewrite <- app_assoc. cbn [matchHere app]. rewrite N.eqb_refl.
    rewrite (lazy_until c [] (c :: b) b []); [reflexivity| |exact Hne|exact Hdot|exact Hs].
    cbn [matchHere]. now rewrite N.eqb_refl.
Qed.

Lemma execAll_double :
  execAll [Lit c; Lit c; Group; Lit c; Lit c] (a ++ [c; c] ++ s ++ [c; c] ++ b) 0 0
  = [mkMatch (length a) (length s + 4) [s]].
Proof.
  rewrite execAll_before by exact Ha. cbn [Nat.add app].
  change (c :: c :: s ++ c :: c :: b) with (c :: (c :: s) ++ [c; c] ++ b).
  rewrite app_assoc.
  rewrite (execAll_match _ c ((c :: s) ++ [c; c]) b (length a) [s]).
  - rewrite execAll_without_literal with (c := c); [|now left|exact Hb].
    rewrite length_app. cbn [length]. f_equal. f_equal. lia.
  - rewrite <- app_assoc. cbn [matchHere app]. rewrite !N.eqb_refl.
    rewrite (lazy_until c [Lit c] (c :: c :: b) b []);
      [reflexivity| |exact Hne|exact Hdot|exact Hs].
    cbn [matchHere]. now rewrite !N.eqb_refl.
Qed.

(** Between doubled delimiters the pattern of the single delimiter matches
    too, from the same offset, one character short. *)
Lemma execAll_single_in_double :
  dot c = true ->
  execAll [Lit c; Group; Lit c] (a ++ [c; c] ++ s ++ [c; c] ++ b) 0 0
  = [mkMatch (length a) (length s + 3) [c :: s]].
Proof.
  intros Hc.
  rewrite execAll_before by exact Ha. cbn [Nat.add app].
  change (c :: c :: s ++ c :: c :: b) with (c :: (c :: s) ++ [c] ++ (c :: b)).
  rewrite app_assoc.
  rewrite (execAll_match _ c ((c :: s) ++ [c]) (c :: b) (length a) [c :: s]).
  - assert (E : matchHere [Lit c; Group; Lit c] (c :: b) = None).
    { change (matchHere [Lit c; Group; Lit c] (c :: b))
        with (if (c =? c)%N then lazy (matchHere [Lit c]) [] b else None).
      rewrite N.eqb_refl. now apply lazy_without. }
    cbn [execAll]. rewrite E.
    rewrite execAll_without_literal with (c := c); [|now left|exact Hb].
    rewrite length_app. cbn [length]. f_equal. f_equal. lia.
  - rewrite <- app_assoc. cbn [app].
    assert (E : matchHere [Lit c] (s ++ c :: c :: b) = None).
    { destruct s as [|y s']; [contradiction|]. cbn [app matchHere].
      destruct (N.eqb_spec y c) as [->|_]; [exfalso; apply Hs; now left | reflexivity]. }
    change (matchHere [Lit c; Group; Lit c] (c :: c :: s ++ c :: c :: b))
      with (if (c =? c)%N
            then if dot c
                 then match matchHere [Lit c] (s ++ c :: c :: b) with
                      | Some (caps, rest) => Some (rev [c] :: caps, rest)
                      | None => lazy (matchHere [Lit c]) [c] (s ++ c :: c :: b)
                      end
                 else None
            else None).
    rewrite N.eqb_refl, Hc, E.
    rewrite (lazy_until c [] (c :: c :: b) (c :: b) []);
      [reflexivity| |exact Hne|exact Hdot|exact Hs].
    cbn [matchHere]. now rewrite N.eqb_refl.
Qed.

(** Between single delimiters the pattern of the doubled one finds nothing. *)
Lemma execAll_double_in_single (re : regex) :
  execAll (Lit c :: Lit c :: re) (a ++ [c] ++ s ++ [c] ++ b) 0 0 = [].
Proof.
  rewrite execAll_before by exact Ha. cbn [Nat.add app].
  assert (E : matchHere (Lit c :: Lit c :: re) (c :: s ++ c :: b) = None).
  { destruct s as [|y s']; [contradiction|]. cbn [app matchHere]. rewrite N.eqb_refl.
    destruct (N.eqb_spec y c) as [->|_]; [exfalso; apply Hs; now left | reflexivity]. }
  cbn [execAll]. rewrite E.
  rewrite execAll_before by exact Hs.
  generalize (S (length a) + length s)%nat. intros pos.
  cbn [execAll matchHere]. rewrite N.eqb_refl.
  destruct b as [|z b']; [reflexivity|].
  destruct (N.eqb_spec z c) as [->|_]; [exfalso; apply Hb; now left|].
  now apply execAll_without_literal with (c := c); [left|].
Qed.

End SpanFacts.

Section SpanRuns.
Import Regex.

Lemma findTokens_patterns (text : jsstring) :
  findTokens text
  = map (tokenOf StyleBold)
        (execAll [Lit 42%N; Lit 42%N; Group; Lit 42%N; Lit 42%N] text 0 0)
    ++ map (tokenOf StyleItalic) (execAll [Lit 42%N; Group; Lit 42%N] text 0 0)
    ++ map (tokenOf StyleCode) (execAll [Lit 96%N; Group; Lit 96%N] text 0 0)
    ++ map (tokenOf StyleStrikethrough)
           (execAll [Lit 126%N; Lit 126%N; Group; Lit 126%N; Lit 126%N] text 0 0)
    ++ map (tokenOf StyleLink)
           (execAll [Lit 91%N; Group; Lit 93%N; Lit 40%N; Group; Lit 41%N] text 0 0)
    ++ [].
Proof. reflexivity. Qed.

Lemma fold_left_overlap (text : jsstring) (rest : list Token)
      (segments : list RichText.t) (lastEnd : nat) :
  Forall (fun u => (tok_start u < lastEnd)%nat) rest ->
  fold_left (segmentStep text) rest (segments, lastEnd) = (segments, lastEnd).
Proof.
  induction 1 as [|u rest Hu _ IH]; cbn [fold_left]; [reflexivity|].
  now rewrite segmentStep_overlap.
Qed.

(** One token that is kept, followed by tokens that overlap it. *)
Lemma buildSegments_span (a m b : jsstring) (t : Token) (rest : list Token) :
  m <> [] ->
  tok_start t = length a -> tok_end t = (length a + length m)%nat ->
  Forall (fun u => (tok_start u < tok_end t)%nat) rest ->
  buildSegments (a ++ m ++ b) (t :: rest)
  = between a ++ [richText (tok_text t) (tokenOptions t)] ++ between b.
Proof.
  intros Hm Hstart Hend Hrest. unfold buildSegments. cbn [fold_left].
  assert (Hstep : segmentStep (a ++ m ++ b) ([], 0%nat) t
                  = (between a ++ [richText (tok_text t) (tokenOptions t)], tok_end t)).
  { unfold segmentStep. rewrite Hstart.
    replace (length a <? 0)%nat with false by (symmetry; apply Nat.ltb_ge; lia).
    destruct a as [|x a']; [reflexivity|].
    change (0 <? length (x :: a'))%nat with true. cbv iota.
    unfold slice. rewrite Nat.sub_0_r. cbn [skipn].
    rewrite firstn_app, firstn_all, Nat.sub_diag, firstn_O, app_nil_r.
    unfold between. now destruct (truthy (trim (x :: a'))). }
  rewrite Hstep, fold_left_overlap by exact Hrest.
  rewrite Hend, !length_app.
  destruct b as [|y b'].
  - replace (length a + length m <? length a + (length m + length []))%nat with false
      by (symmetry; apply Nat.ltb_ge; cbn [length]; lia).
    change (between []) with (@nil RichText.t). rewrite app_nil_r.
    now destruct (between a).
  - replace (length a + length m <? length a + (length m + length (y :: b')))%nat with true
      by (symmetry; apply Nat.ltb_lt; cbn [length]; lia).
    unfold sliceFrom. rewrite app_assoc, <- length_app.
    rewrite skipn_app, skipn_all, Nat.sub_diag. cbn [skipn app].
    unfold between.
    destruct (truthy (trim a)), (truthy (trim (y :: b'))); reflexivity.
Qed.

Lemma notin_span (x : char16) (a d s b : jsstring) :
  ~ In x a -> ~ In x d -> ~ In x s -> ~ In x b -> ~ In x (a ++ d ++ s ++ d ++ b).
Proof.
  intros Ha Hd Hs Hb H.
  repeat (apply in_app_or in H; destruct H as [H|H]); tauto.
Qed.

Lemma span_assoc (a d s b : jsstring) :
  a ++ d ++ s ++ d ++ b = a ++ (d ++ s ++ d) ++ b.
Proof. now rewrite <- !app_assoc. Qed.

Lemma noMarkup_markers (s : jsstring) :
  noMarkup s = true -> ~ In 42%N s /\ ~ In 96%N s /\ ~ In 126%N s /\ ~ In 40%N s.
Proof.
  intros H. repeat split; apply (noMarkup_marker _ _ H); vm_compute; tauto.
Qed.

(** X14. A span of bold, italic, code or struck text is recognised inside
    text without markup: when the texts before, inside and after the
    delimiters hold none of the characters [* ` ~ (] and the text inside
    is not empty and has no line break, the formatter returns the text
    before as a plain run (unless it is blank), the text inside as one run
    in the style of the delimiter, and the text after as a plain run
    (unless it is blank). *)
Theorem parseFormattedText_span (d : jsstring) (o : Options.t) (a s b : jsstring) :
  In (d, o) spans ->
  noMarkup a = true -> noMarkup s = true -> noMarkup b = true ->
  s <> [] -> forallb dot s = true ->
  parseFormattedText (a ++ d ++ s ++ d ++ b)
  = between a ++ [richText s o] ++ between b.
Proof.
  intros Hin Ha Hs Hb Hne Hdot.
  destruct (noMarkup_markers a Ha) as (Ha1 & Ha2 & Ha3 & Ha4).
  destruct (noMarkup_markers s Hs) as (Hs1 & Hs2 & Hs3 & Hs4).
  destruct (noMarkup_markers b Hb) as (Hb1 & Hb2 & Hb3 & Hb4).
  assert (Hno : forall x dd, ~ In x dd -> In x (js "*`~(") ->
                             ~ In x (a ++ dd ++ s ++ dd ++ b)).
  { intros x dd Hd Hx. apply notin_span; try exact Hd;
      [exact (noMarkup_marker _ _ Ha Hx) | exact (noMarkup_marker _ _ Hs Hx)
       | exact (noMarkup_marker _ _ Hb Hx)]. }
  unfold parseFormattedText. rewrite findTokens_patterns.
  destruct Hin as [E|[E|[E|[E|[]]]]]; injection E as <- <-.
  - change (js "**") with (@cons char16 42%N (@cons char16 42%N (@nil char16))).
    rewrite (execAll_double 42%N a s b Ha1 Hs1 Hb1 Hne Hdot).
    rewrite (execAll_single_in_double 42%N a s b Ha1 Hs1 Hb1 Hne Hdot eq_refl).
    rewrite (execAll_without_literal _ 96%N) by
        (first [now left | apply Hno; vm_compute; intuition discriminate]).
    rewrite (execAll_without_literal _ 126%N) by
        (first [now left | apply Hno; vm_compute; intuition discriminate]).
    rewrite (execAll_without_literal _ 40%N) by
        (first [vm_compute; tauto | apply Hno; vm_compute; intuition discriminate]).
    set (text := a ++ _).
    cbn [map app tokenOf index matched groups nth].
    unfold sortTokens. cbn [fold_left insertToken tok_start].
    rewrite Nat.ltb_irrefl.
    subst text. rewrite (span_assoc a _ s b).
    rewrite buildSegments_span; [reflexivity|discriminate|reflexivity| |].
    + cbn [tok_end]. rewrite !length_app. cbn [length]. lia.
    + constructor; [|constructor]. cbn [tok_start tok_end]. lia.
  - change (js "*") with (@cons char16 42%N (@nil char16)).
    rewrite (execAll_double_in_single 42%N a s b Ha1 Hs1 Hb1 Hne Hdot).
    rewrite (execAll_single 42%N a s b Ha1 Hs1 Hb1 Hne Hdot).
    rewrite (execAll_without_literal _ 96%N) by
        (first [now left | apply Hno; vm_compute; intuition discriminate]).
    rewrite (execAll_without_literal _ 126%N) by
        (first [now left | apply Hno; vm_compute; intuition discriminate]).
    rewrite (execAll_without_literal _ 40%N) by
        (first [vm_compute; tauto | apply Hno; vm_compute; intuition discriminate]).
    set (text := a ++ _).
    cbn [map app tokenOf index matched groups nth].
    unfold sortTokens. cbn [fold_left insertToken].
    subst text. rewrite (span_assoc a _ s b).
    rewrite buildSegments_span; [reflexivity|discriminate|reflexivity| |constructor].
    cbn [tok_end]. rewrite !length_app. cbn [length]. lia.
  - change (js "`") with (@cons char16 96%N (@nil char16)).
    rewrite (execAll_without_literal _ 42%N) by
        (first [now left | apply Hno; vm_compute; intuition discriminate]).
    rewrite (execAll_without_literal _ 42%N) by
        (first [now left | apply Hno; vm_compute; intuition discriminate]).
    rewrite (execAll_single 96%N a s b Ha2 Hs2 Hb2 Hne Hdot).
    rewrite (execAll_without_literal _ 126%N) by
        (first [now left | apply Hno; vm_compute; intuition discriminate]).
    rewrite (execAll_without_literal _ 40%N) by
        (first [vm_compute; tauto | apply Hno; vm_compute; intuition discriminate]).
    set (text := a ++ _).
    cbn [map app tokenOf index matched groups nth].
    unfold sortTokens. cbn [fold_left insertToken].
    subst text. rewrite (span_assoc a _ s b).
    rewrite buildSegments_span; [reflexivity|discriminate|reflexivity| |constructor].
    cbn [tok_end]. rewrite !length_app. cbn [length]. lia.
  - change (js "~~") with (@cons char16 126%N (@cons char16 126%N (@nil char16))).
    rewrite (execAll_without_literal _ 42%N) by
        (first [now left | apply Hno; vm_compute; intuition discriminate]).
    rewrite (execAll_without_literal _ 42%N) by
        (first [now left | apply Hno; vm_compute; intuition discriminate]).
    rewrite (execAll_without_literal _ 96%N) by
        (first [now left | apply Hno; vm_compute; intuition discriminate]).
    rewrite (execAll_double 126%N a s b Ha3 Hs3 Hb3 Hne Hdot).
    rewrite (execAll_without_literal _ 40%N) by
        (first [vm_compute; tauto | apply Hno; vm_compute; intuition discriminate]).
    set (text := a ++ _).
    cbn [map app tokenOf index matched groups nth].
    unfold sortTokens. cbn [fold_left insertToken].
    subst text. rewrite (span_assoc a _ s b).
    rewrite buildSegments_span; [reflexivity|discriminate|reflexivity| |constructor].
    cbn [tok_end]. rewrite !length_app. cbn [length]. lia.
Qed.

End SpanRuns.

Lemma parseFormattedText_span_witness :
  parseFormattedText (js "see **this** now")
  = [plainRun (js "see"); boldRun (js "this"); plainRun (js "now")].
Proof.
  apply (parseFormattedText_span (js "**") (Options.mk true false false false false None None)
           (js "see ") (js "this") (js " now"));
    first [reflexivity | discriminate | (left; reflexivity)].
Defined.

(** ** What the validator accepts *)

Section Accepted.
Context {platform : Platform}.

Lemma when_error (b : bool) (e : jsstring) (st : State) :
  st_errors (when b (pushError e) st) = st_errors st ++ (if b then [e] else []).
Proof. destruct b; cbn; [reflexivity | now rewrite app_nil_r]. Qed.

Lemma when_warning (b : bool) (w : jsstring) (st : State) :
  st_errors (when b (pushWarning w) st) = st_errors st.
Proof. now destruct b. Qed.

Lemma forEach_errors {A : Type} (f : State -> A -> nat -> Outcome State) (ok : A -> bool) :
  (forall st x i st', f st x i = Returned st' ->
     exists es, st_errors st' = st_errors st ++ es /\ (es = [] <-> ok x = true)) ->
  forall (l : list A) (i : nat) (st st' : State),
    forEach f l i st = Returned st' ->
    exists es, st_errors st' = st_errors st ++ es /\ (es = [] <-> forallb ok l = true).
Proof.
  intros Hf. induction l as [|x l IH]; intros i st st' H; cbn [forEach] in H.
  - injection H as <-. exists []. rewrite app_nil_r. now split.
  - destruct (f st x i) as [st1| |] eqn:E; cbn [Validation.bind] in H; try discriminate.
    destruct (Hf _ _ _ _ E) as (es1 & H1 & Hok1).
    destruct (IH _ _ _ H) as (es2 & H2 & Hok2).
    exists (es1 ++ es2). split; [now rewrite H2, H1, app_assoc|].
    cbn [forallb]. rewrite andb_true_iff, <- Hok1, <- Hok2.
    split; [apply app_eq_nil | intros [-> ->]; reflexivity].
Qed.

Lemma forEachOpt_errors {A : Type} (f : State -> A -> nat -> Outcome State)
      (ok : A -> bool) :
  (forall st x i st', f st x i = Returned st' ->
     exists es, st_errors st' = st_errors st ++ es /\ (es = [] <-> ok x = true)) ->
  forall (l : option (list A)) (st st' : State),
    forEachOpt f l st = Returned st' ->
    exists es, st_errors st' = st_errors st ++ es /\ (es = [] <-> allOk ok l = true).
Proof.
  intros Hf [l|] st st' H; cbn [forEachOpt allOk] in *.
  - exact (forEach_errors f ok Hf l 0%nat st st' H).
  - injection H as <-. exists []. rewrite app_nil_r. now split.
Qed.

Lemma checkItem_errors (idx : nat) (st : State) (item : Any Item) (i : nat) (st' : State) :
  checkItem idx st item i = Returned st' ->
  exists es, st_errors st' = st_errors st ++ es
             /\ (es = [] <-> itemOk (fields item (mkItem None None None None None)) = true).
Proof.
  destruct item as [| |o]; [discriminate| |].
  - intros H. injection H as <-. exists []. cbn. rewrite app_nil_r. now split.
  - unfold checkItem. cbn [deref Validation.bind fields]. intros H. injection H as <-.
    cbv zeta. unfold itemOk, isQuiz, isMedia.
    destruct (truthyStr (text o)) as [t|]; rewrite ?when_warning;
      (destruct (truthyStr (url o)) as [u|]; rewrite ?when_error;
       (destruct (isTag (type o) "quiz" || isTag (type o) "quickQuiz");
        rewrite ?when_error;
        (destruct (isTag (type o) "paragraph"); rewrite ?when_warning;
         cbn [st_errors]; rewrite <- ?app_assoc;
         first [ (eexists; split; [reflexivity|])
               | (exists []; split; [now rewrite app_nil_r|]) ]))).
    all: destruct (options o) as [l|]; try destruct (correctIndex o) as [z|].
    all: repeat match goal with
                | |- context [(?a <? ?b)%nat] => destruct (Nat.ltb_spec a b)
                | |- context [(?a <=? ?b)%nat] => destruct (Nat.leb_spec a b)
                | |- context [(?a <=? ?b)%Z] => destruct (Z.leb_spec a b)
                | |- context [(?a <? ?b)%Z] => destruct (Z.ltb_spec a b)
                end.
    all: try (exfalso; cbn [length] in *; lia).
    all: destruct (isTag (type o) "image" || isTag (type o) "video"
                   || isTag (type o) "audio" || isTag (type o) "pdf");
      try destruct (isValidUrl u).
    all: cbn; split; intros; try reflexivity; try discriminate.
Qed.

Lemma checkSection_errors (st : State) (section : Any Section_) (idx : nat) (st' : State) :
  checkSection st section idx = Returned st' ->
  exists es, st_errors st' = st_errors st ++ es
             /\ (es = [] <-> sectionOk (fields section (mkSection None None)) = true).
Proof.
  intros H.
  assert (G : checkSection st (Object (fields section (mkSection None None))) idx
              = Returned st') by (destruct section; [discriminate | exact H | exact H]).
  clear H. revert G. generalize (fields section (mkSection None None)). intros s.
  unfold checkSection. cbn [deref Validation.bind]. cbv zeta. intros H.
  destruct (forEachOpt_errors (checkItem idx) _ (checkItem_errors idx) _ _ _ H)
    as (es & Hes & Hok).
  cbn [st_errors] in Hes. rewrite !when_error, <- !app_assoc in Hes.
  eexists. split; [exact Hes|]. unfold sectionOk.
  destruct (truthyStr (section_title s)); destruct (absentOrEmpty (Validation.content s));
    cbn [negb andb app]; try (split; discriminate).
  exact Hok.
Qed.

(** X15. A course that can be read is valid exactly when its title has a
    visible character, it has a section, every section has a title that is
    not empty (a blank one passes) and an item, every quiz has two options
    or more and no index at or above their number (a negative index
    passes), and every image, video, audio or pdf that gives a URL gives a
    valid one.  Files, embeds and bookmarks are not checked, and no
    warning makes a course invalid. *)
Theorem validateCourse_valid_iff (course : Any Course) :
  courseReadable course = true ->
  exists r, validateCourse course = Returned r
            /\ (valid r = true <-> courseOk (fields course (mkCourse None None)) = true).
Proof.
  intros Hread. destruct (proj1 (validateCourse_returns course) Hread) as [r Hr].
  exists r. split; [exact Hr|].
  assert (G : validateCourse (Object (fields course (mkCourse None None))) = Returned r)
    by (destruct course; [discriminate | exact Hr | exact Hr]).
  clear Hr Hread. revert G. generalize (fields course (mkCourse None None)). intros c Hr.
  unfold validateCourse in Hr. cbn [deref Validation.bind] in Hr. cbv zeta in Hr.
  match type of Hr with
  | Validation.bind ?m _ = _ => destruct m as [st'| |] eqn:E
  end; cbn [Validation.bind] in Hr; try discriminate.
  injection Hr as <-. cbn [valid].
  destruct (forEachOpt_errors checkSection _ checkSection_errors _ _ _ E)
    as (es & Hes & Hok).
  rewrite !when_error in Hes. cbn [st_errors app] in Hes. rewrite Hes.
  unfold courseOk.
  destruct (truthyStr (title c)) as [t|].
  - destruct (trim t) as [|x t']; cbn [length Nat.eqb truthy];
      destruct (absentOrEmpty (sections c)); cbn [negb andb app];
        try (split; discriminate).
    rewrite <- Hok. destruct es; split; congruence.
  - destruct (absentOrEmpty (sections c)); cbn [negb andb app]; split; discriminate.
Qed.

End Accepted.

Lemma validateCourse_valid_iff_witness :
  exists r, validateCourse (platform := Whatwg.platform)
              (Object (mkCourse (Some (js "Rocq"))
                 (Some [Object (mkSection (Some (js " "))
                    (Some [Object (mkItem (Some (js "quiz"))
                                          (Some [js "a"; js "b"]) (Some (-1)%Z)
                                          None None)]))])))
            = Returned r
            /\ valid r = true.
Proof.
  destruct (validateCourse_valid_iff (platform := Whatwg.platform)
              (Object (mkCourse (Some (js "Rocq"))
                 (Some [Object (mkSection (Some (js " "))
                    (Some [Object (mkItem (Some (js "quiz"))
                                          (Some [js "a"; js "b"]) (Some (-1)%Z)
                                          None None)]))]))) eq_refl)
    as (r & Hr & Hv).
  exists r. split; [exact Hr|]. apply Hv. reflexivity.
Defined.

(** ** The append-content route *)

Section RouteFacts.
Context {platform : Platform}.
Variable service : Trace -> Append -> option jsstring.

Import Routes.

Lemma contentChildren_flat (content : list Server.CourseContent) :
  contentChildren content
  = flat_map (fun item => Server.toArray (Server.buildCourseBlock item)) content.
Proof.
  unfold contentChildren. now rewrite filterValidBlocks_some, fold_pushItem.
Qed.

(** X16. With a client and a service that accepts the calls, the
    append-content route sends the blocks of the items, in the order of the
    items, in calls of 1 to 100 blocks on the page of the request, and
    answers with their number; when the items give no block it answers 400
    and sends nothing.  It never sends an empty call and never reports a
    block that it did not send. *)
Theorem appendContent_sends_all
        (this : NotionAPI) (token pageId : jsstring)
        (content : list Server.CourseContent) (tr : Trace) :
  client this = Some token ->
  (forall tr call, service tr call = None) ->
  exists calls,
    appendContent service this pageId (Some content) tr
    = (Returned (match calls with
                 | [] => Failure 400 (js "No valid blocks generated from content")
                 | _ => Success (length (concat (map children calls)))
                 end),
       tr ++ calls)
    /\ concat (map children calls)
       = flat_map (fun item => Server.toArray (Server.buildCourseBlock item)) content
    /\ Forall (fun call => block_id call = pageId
                           /\ (1 <= length (children call) <= 100)%nat) calls.
Proof.
  intros Hclient Hok. unfold appendContent. cbv zeta.
  rewrite contentChildren_flat.
  generalize (flat_map (fun item => Server.toArray (Server.buildCourseBlock item)) content).
  intros blocks.
  destruct blocks as [|b blocks'] eqn:Eb.
  - exists []. cbn [length Nat.eqb map concat]. rewrite app_nil_r. repeat split. constructor.
  - rewrite <- Eb. replace (length blocks =? 0)%nat with false
      by (subst blocks; reflexivity).
    destruct (chunkArray_partition Block blocks 100 ltac:(lia)) as (chunks & E & Hcat & Hall).
    exists (map (mkAppend pageId) chunks).
    assert (Hchildren : map children (map (mkAppend pageId) chunks) = chunks).
    { rewrite map_map. cbn [children]. apply map_id. }
    unfold appendBlocks. rewrite Hclient, E.
    rewrite (forOf_all_accepted service pageId chunks Hok tr).
    rewrite Hchildren, Hcat. split; [|split; [reflexivity|]].
    + destruct chunks as [|c chunks']; [|reflexivity].
      cbn [concat] in Hcat. subst blocks. discriminate Hcat.
    + apply Forall_map. cbn [block_id children].
      revert Hall. apply Forall_impl. intros chunk Hc. split; [reflexivity | exact Hc].
Qed.

End RouteFacts.

Lemma appendContent_sends_all_witness :
  exists calls,
    appendContent (platform := Whatwg.platform) (fun _ _ => None)
                  (mkNotionAPI (Some (js "ntn_x"))) (js "page")
                  (Some [Server.item "divider" None]) []
    = (Returned (Success 1), calls)
    /\ map children calls = [[Divider]].
Proof.
  destruct (appendContent_sends_all (platform := Whatwg.platform) (fun _ _ => None)
              (mkNotionAPI (Some (js "ntn_x"))) (js "ntn_x") (js "page")
              [Server.item "divider" None] [] eq_refl (fun _ _ => eq_refl))
    as (calls & Hr & Hcat & Hall).
  exists calls.
  destruct calls as [|c1 [|c2 calls]].
  - discriminate Hcat.
  - cbn [map concat app] in *. rewrite app_nil_r in *.
    split; [rewrite Hr, Hcat; reflexivity | now rewrite Hcat].
  - exfalso. inversion Hall as [|? ? [_ H1] Hall1]. inversion Hall1 as [|? ? [_ H2] _].
    apply (f_equal (@length _)) in Hcat. cbn [map concat] in Hcat.
    rewrite !length_app in Hcat. cbn in Hcat. lia.
Defined.

(** ** The validator and the compiler *)

Section Agreement.
Context {platform : Platform}.

Import Server.

Lemma isTag_eq (t : jsstring) (name : string) :
  t = js name -> isTag (Some t) name = true.
Proof. intros ->. cbn [isTag]. now apply eqb_eq. Qed.

(** X17. What the validator accepts, the compiler does not degrade: an
    accepted quiz is built as a block, not as the paragraph of an invalid
    quiz, and an accepted image, video, audio or pdf that gives a URL is
    built as the media block of that URL, not as the paragraph of an
    invalid URL. *)
Theorem accepted_item_is_built (c : CourseContent) :
  itemOk (asItem c) = true ->
  (In (Server.type c) [js "quiz"; js "quickQuiz"] ->
   exists opts block,
     Server.options c = Some opts
     /\ (2 <= length opts)%nat
     /\ buildCourseBlock c = One block
     /\ isParagraph block = false)
  /\ (forall u,
        truthyStr (Server.url c) = Some u ->
        (Server.type c = js "image" ->
         buildCourseBlock c = One (Image u (captionOf (caption c))))
        /\ (Server.type c = js "video" ->
            buildCourseBlock c = One (Video u (captionOf (caption c))))
        /\ (Server.type c = js "audio" ->
            buildCourseBlock c = One (Audio u (captionOf (caption c))))
        /\ (Server.type c = js "pdf" ->
            buildCourseBlock c = One (Pdf u (captionOf (caption c))))).
Proof.
  destruct c as [ty tx its cd lang cap ur ic col chk qu ops ci tm df sn ins sol mi obj
                    lf rg ex hd rw tg ch].
  unfold itemOk, asItem, isQuiz, isMedia.
  cbn [Validation.type Validation.options Validation.correctIndex Validation.url
       Server.type Server.options Server.url caption].
  intros Hok. apply andb_prop in Hok. destruct Hok as [Hquiz Hmedia]. split.
  - intros Hty.
    assert (Hq : isTag (Some ty) "quiz" || isTag (Some ty) "quickQuiz" = true).
    { destruct Hty as [<-|[<-|[]]]; [rewrite (isTag_eq _ "quiz" eq_refl) |
                                     rewrite (isTag_eq _ "quickQuiz" eq_refl)];
        [reflexivity | apply orb_true_r]. }
    rewrite Hq in Hquiz. destruct ops as [opts|]; [|discriminate].
    apply andb_prop in Hquiz. destruct Hquiz as [Hlen _]. apply Nat.leb_le in Hlen.
    assert (Hcase : caseOf ty = Some CQuiz) by (destruct Hty as [<-|[<-|[]]]; reflexivity).
    exists opts.
    cbn [buildCourseBlock Server.type Server.text Server.options Server.correctIndex question].
    rewrite Hcase. cbv beta iota zeta. cbn [orList]. unfold quickQuiz.
    replace (length opts <? 2)%nat with false by (symmetry; apply Nat.ltb_ge; exact Hlen).
    cbv zeta. cbn [ofOption]. eexists. repeat split. exact Hlen.
  - intros u Hu.
    assert (Hur : orStr ur [] = u) by (destruct ur as [[|x s]|]; inversion Hu; reflexivity).
    repeat split; intros ->;
      cbn [buildCourseBlock Server.type Server.text Server.url caption];
      match goal with
      | |- context [caseOf ?t] =>
        let k := eval vm_compute in (caseOf t) in change (caseOf t) with k
      end;
      cbv beta iota zeta; rewrite Hur;
      match type of Hmedia with
      | (if ?b then _ else _) = true => replace b with true in Hmedia by reflexivity
      end;
      rewrite Hu in Hmedia;
      unfold image, video, audio, pdf; rewrite Hmedia; reflexivity.
Qed.

End Agreement.

Lemma accepted_item_is_built_witness :
  buildCourseBlock (platform := Whatwg.platform)
    (Server.mkCourseContent (js "image") None None None None None
       (Some (js "https://example.org/a.png")) None None None None None None None None
       None None None None None None None None None None None None)
  = Server.One (Image (js "https://example.org/a.png") []).
Proof.
  assert (H : itemOk (platform := Whatwg.platform)
                (asItem (Server.mkCourseContent (js "image") None None None None None
                           (Some (js "https://example.org/a.png")) None None None None None
                           None None None None None None None None None None None None None
                           None None))
              = true) by (vm_compute; reflexivity).
  assert (Hu : truthyStr (Some (js "https://example.org/a.png"))
               = Some (js "https://example.org/a.png")) by (vm_compute; reflexivity).
  exact (proj1 (proj2 (accepted_item_is_built (platform := Whatwg.platform) _ H)
                      (js "https://example.org/a.png") Hu) eq_refl).
Defined.

(** ** The dry-run route *)

Section DryRunFacts.
Context {platform : Platform}.

Lemma extends_refl (ok : bool) (a : Analysis) : extends ok 0 0 a a.
Proof.
  exists []. rewrite app_nil_r, andb_true_r, !Nat.add_0_r. repeat split.
Qed.

Lemma extends_trans (ok1 ok2 : bool) (n1 n2 g1 g2 : nat) (a b c : Analysis) :
  extends ok1 n1 g1 a b -> extends ok2 n2 g2 b c ->
  extends (ok1 && ok2) (n1 + n2) (g1 + g2) a c.
Proof.
  intros (es1 & He1 & Hv1 & Hok1 & Ht1 & Hg1) (es2 & He2 & Hv2 & Hok2 & Ht2 & Hg2).
  exists (es1 ++ es2). repeat split.
  - now rewrite He2, He1, app_assoc.
  - rewrite Hv2, Hv1. destruct es1, es2, (an_valid a); reflexivity.
  - intros H. apply andb_prop in H. destruct H as [H1 H2].
    now rewrite (Hok1 H1), (Hok2 H2).
  - lia.
  - lia.
Qed.

Lemma extends_fail (e : jsstring) (a : Analysis) : extends false 0 0 a (fail e a).
Proof.
  exists [e]. cbn. rewrite andb_false_r, !Nat.add_0_r. repeat split. discriminate.
Qed.

Lemma extends_silent (ok : bool) (a b : Analysis) :
  an_errors b = an_errors a -> an_valid b = an_valid a ->
  an_totalBlocks b = an_totalBlocks a -> an_generatedBlocks b = an_generatedBlocks a ->
  extends ok 0 0 a b.
Proof.
  intros He Hv Ht Hg. exists []. rewrite app_nil_r, andb_true_r, !Nat.add_0_r.
  repeat split; assumption.
Qed.

Lemma extends_weaken (ok ok' : bool) (n g n' g' : nat) (a b : Analysis) :
  (ok' = true -> ok = true) -> n = n' -> g = g' ->
  extends ok n g a b -> extends ok' n' g' a b.
Proof.
  intros Hok <- <- (es & He & Hv & Hes & Ht & Hg).
  exists es. repeat split; try assumption. intros H. apply Hes, Hok, H.
Qed.

Lemma dryItem_extends (idx : nat) (a : Analysis) (item : Server.CourseContent) :
  extends (itemOk (asItem item)) 1
          (length (Server.toArray (Server.buildCourseBlock item))) a (dryItem idx a item).
Proof.
  unfold dryItem. cbv zeta.
  set (a1 := mkAnalysis (an_valid a) (an_errors a) (an_warnings a) (an_sections a)
                        (S (an_totalBlocks a)) (an_generatedBlocks a)).
  assert (H1 : extends true 1 0 a a1).
  { exists []. cbn. rewrite app_nil_r, andb_true_r. repeat split; lia. }
  set (a2 := match Server.buildCourseBlock item with
             | Server.Null => a1
             | Server.One _ => generated 1 a1
             | Server.Many result => generated (length result) a1
             end).
  assert (H2 : extends true 0 (length (Server.toArray (Server.buildCourseBlock item)))
                       a1 a2).
  { subst a2. destruct (Server.buildCourseBlock item) as [|b|bs];
      cbn [Server.toArray length]; [apply extends_refl | |];
        (exists []; cbn; rewrite app_nil_r, andb_true_r; repeat split; lia). }
  set (bad1 := match Server.options item with
               | Some l => (length l <? 2)%nat
               | None => true
               end).
  set (bad2 := match Server.correctIndex item with
               | Some i => (Z.of_nat (length (Server.orList (Server.options item))) <=? i)%Z
               | None => false
               end).
  set (quiz := isTag (Some (Server.type item)) "quiz"
               || isTag (Some (Server.type item)) "quickQuiz").
  set (a3 := if quiz then _ else a2).
  assert (H3 : extends (negb (quiz && bad2)) 0 0 a2 a3).
  { subst a3. destruct quiz; cbn [andb negb]; [|apply extends_refl].
    assert (Hw : extends true 0 0 a2
                         (if bad1 then warn (inSection idx (js "Quiz avec trop peu d'options")) a2
                          else a2))
      by (destruct bad1; [now apply extends_silent | apply extends_refl]).
    destruct bad2; cbn [negb].
    - exact (extends_weaken _ _ _ _ _ _ _ _ (fun H => H) eq_refl eq_refl
               (extends_trans _ _ _ _ _ _ _ _ _ Hw (extends_fail _ _))).
    - exact Hw. }
  set (final := match truthyStr (Server.url item) with Some u => _ | None => a3 end).
  set (bad3 := match truthyStr (Server.url item) with
               | Some u => (isTag (Some (Server.type item)) "image"
                            || isTag (Some (Server.type item)) "video")
                           && negb (isValidUrl u)
               | None => false
               end).
  assert (H4 : extends (negb bad3) 0 0 a3 final).
  { subst final bad3. destruct (truthyStr (Server.url item)) as [u|]; [|apply extends_refl].
    destruct ((isTag (Some (Server.type item)) "image"
               || isTag (Some (Server.type item)) "video") && negb (isValidUrl u));
      [apply extends_fail | apply extends_refl]. }
  refine (extends_weaken _ _ _ _ _ _ _ _ _ _ _
            (extends_trans _ _ _ _ _ _ _ _ _
               (extends_trans _ _ _ _ _ _ _ _ _
                  (extends_trans _ _ _ _ _ _ _ _ _ H1 H2) H3) H4));
    [|reflexivity|cbn [Nat.add]; lia].
  unfold itemOk, asItem, isQuiz, isMedia.
  cbn [Validation.type Validation.options Validation.correctIndex Validation.url].
  fold quiz. subst bad2 bad3. clear. intros H.
  apply andb_prop in H. destruct H as [Hq Hm].
  cbn [andb]. apply andb_true_intro. split.
  - destruct quiz; [|reflexivity]. cbn [andb].
    destruct (Server.options item) as [l|]; [|discriminate].
    apply andb_prop in Hq. destruct Hq as [_ Hq]. cbn [Server.orList].
    destruct (Server.correctIndex item) as [i|]; [|reflexivity].
    apply Z.ltb_lt in Hq. apply negb_true_iff, Z.leb_gt. exact Hq.
  - destruct (truthyStr (Server.url item)) as [u|]; [|reflexivity].
    destruct (isTag (Some (Server.type item)) "image"),
             (isTag (Some (Server.type item)) "video"); cbn [orb andb] in *;
      try reflexivity; now rewrite Hm.
Qed.

Lemma forallb_mapped {A B : Type} (f : A -> B) (p : B -> bool) (l : list A) :
  forallb p (map f l) = forallb (fun x => p (f x)) l.
Proof. induction l as [|x l IH]; [reflexivity|]. cbn [map forallb]. now rewrite IH. Qed.

Lemma fold_dryItem_extends (idx : nat) (content : list Server.CourseContent) :
  forall a : Analysis,
    extends (forallb (fun c => itemOk (asItem c)) content) (length content)
            (length (flat_map (fun item => Server.toArray (Server.buildCourseBlock item))
                              content))
            a (fold_left (dryItem idx) content a).
Proof.
  induction content as [|item content IH]; intros a; cbn [fold_left forallb flat_map length].
  - apply extends_refl.
  - rewrite length_app.
    exact (extends_trans _ _ 1 _ _ _ _ _ _ (dryItem_extends idx a item) (IH _)).
Qed.

Lemma drySection_extends (a : Analysis) (section : Routes.CourseSection) (idx : nat) :
  extends (sectionOk (asSection section)) (length (Routes.content section))
          (length (flat_map (fun item => Server.toArray (Server.buildCourseBlock item))
                            (Routes.content section)))
          a (drySection a section idx).
Proof.
  unfold drySection. cbv zeta.
  assert (H : extends (truthy (Routes.title section)) 0 0 a
                      (if negb (truthy (Routes.title section))
                       then fail (inSection idx (js "Titre manquant")) a else a)).
  { destruct (truthy (Routes.title section)); [apply extends_refl | apply extends_fail]. }
  pose proof (extends_trans _ _ _ _ _ _ _ _ _ H
                (fold_dryItem_extends idx (Routes.content section) _)) as G.
  cbn [Nat.add] in G.
  destruct G as (es & He & Hv & Hok & Ht & Hg).
  exists es. repeat split; try assumption.
  intros Hs. apply Hok. unfold sectionOk, asSection in Hs.
  cbn [section_title Validation.content allOk] in Hs.
  apply andb_prop in Hs. destruct Hs as [Hs Hitems].
  apply andb_prop in Hs. destruct Hs as [Htitle _].
  apply andb_true_intro. split.
  - destruct (Routes.title section); [discriminate Htitle | reflexivity].
  - rewrite forallb_mapped in Hitems. exact Hitems.
Qed.

Lemma dryLoop_extends (sections : list Routes.CourseSection) :
  forall (idx : nat) (a : Analysis),
    extends (forallb (fun s => sectionOk (asSection s)) sections)
            (length (flat_map Routes.content sections))
            (length (flat_map (fun item => Server.toArray (Server.buildCourseBlock item))
                              (flat_map Routes.content sections)))
            a (dryLoop sections idx a).
Proof.
  induction sections as [|s sections IH]; intros idx a;
    cbn [dryLoop forallb flat_map length].
  - apply extends_refl.
  - rewrite flat_map_app, !length_app.
    exact (extends_trans _ _ _ _ _ _ _ _ _ (drySection_extends a s idx) (IH _ _)).
Qed.

(** X18. The dry run agrees with the other routes: the number of generated
    blocks it reports is the number of blocks that the append-content route
    builds from the items of all the sections, the total is the number of
    items, its flag [valid] is true exactly when it reports no error, and
    it reports no error for a course that [validateCourse] accepts. *)
Theorem dryRun_agrees (title : option jsstring) (sections : list Routes.CourseSection) :
  an_generatedBlocks (dryRun (Some sections))
  = length (Routes.contentChildren (flat_map Routes.content sections))
  /\ an_totalBlocks (dryRun (Some sections)) = length (flat_map Routes.content sections)
  /\ (an_valid (dryRun (Some sections)) = true <-> an_errors (dryRun (Some sections)) = [])
  /\ (courseOk (asCourse title sections) = true ->
      an_valid (dryRun (Some sections)) = true).
Proof.
  unfold dryRun. cbn [Server.orList].
  destruct (dryLoop_extends sections 0
              (mkAnalysis true [] [] (length sections) 0 0))
    as (es & He & Hv & Hok & Ht & Hg).
  cbn [an_errors an_valid an_totalBlocks an_generatedBlocks app andb Nat.add] in *.
  rewrite contentChildren_flat, He, Hv, Ht, Hg. repeat split.
  - destruct es; [reflexivity | discriminate].
  - intros ->. reflexivity.
  - intros Hc. rewrite Hok; [reflexivity|].
    unfold courseOk, asCourse in Hc. cbn [Validation.sections allOk] in Hc.
    apply andb_prop in Hc. destruct Hc as [_ Hc].
    rewrite forallb_mapped in Hc. exact Hc.
Qed.

End DryRunFacts.

Lemma dryRun_agrees_witness :
  an_valid (dryRun (platform := Whatwg.platform)
              (Some [Routes.mkCourseSection (js "Intro") None None None
                       [Server.item "paragraph" (Some "hello"%string)]]))
  = true.
Proof.
  apply (proj2 (proj2 (proj2 (dryRun_agrees (platform := Whatwg.platform) (Some (js "Rocq"))
                                [Routes.mkCourseSection (js "Intro") None None None
                                   [Server.item "paragraph" (Some "hello"%string)]])))).
  vm_compute. reflexivity.
Defined.
